(** * Progress and grading core of the learning-management backend

    A shallow embedding of the arithmetic core of the Express/Mongoose
    backend: [calculateProgressStats], [initializeProgress] and the lecture
    toggle handler of the progress router, [autoGradeQuiz] of the submission
    router, and the letter-grade mapping ([getLetterGrade] and the
    [pre('save')] hook of the Submission model).  Around that core: the
    query, initialisation and reset handlers of the progress router, runs
    of toggles, and the handlers of the submission router that create a
    submission, resubmit it, add and remove attachments and award
    achievements, with the three [pre('save')] hooks of the model.

    JavaScript numbers are IEEE 754 binary64 values.  They are modelled with
    the executable specification [SpecFloat] of the standard library
    (precision 53, maximal exponent 1024, round to nearest even), so that
    [a / b], [a * b], [a + b] and the comparisons below are bit-exact. *)

From Stdlib Require Import ZArith Lia Bool List.
From Stdlib Require Import Floats.SpecFloat.
From stdpp Require Import gmap strings list fin_maps.

(* ===================================================================== *)
(** * JavaScript numbers                                                   *)
(* ===================================================================== *)

Module JSNumber.
Local Open Scope Z_scope.

Definition prec : Z := 53.
Definition emax : Z := 1024.

(** A JavaScript [Number]. *)
Definition Number : Type := spec_float.

(** An integer literal, or an integer counter read as a Number. Integers of
    magnitude below 2^53 are represented exactly. *)
Definition Z2SF (n : Z) : Number := binary_normalize prec emax n 0 false.

Definition add (x y : Number) : Number := SFadd prec emax x y.
Definition mul (x y : Number) : Number := SFmul prec emax x y.
Definition div (x y : Number) : Number := SFdiv prec emax x y.

(** [x > y], [x >= y] and [x === y] on Numbers: false as soon as one side is
    NaN; the two zeros are equal. *)
Definition gt (x y : Number) : bool := SFltb y x.
Definition ge (x y : Number) : bool := SFleb y x.
Definition strict_eq_num (x y : Number) : bool := SFeqb x y.

(** ToBoolean on a Number: [0], [-0] and [NaN] are falsy. *)
Definition truthy (x : Number) : bool :=
  match x with
  | S754_zero _ | S754_nan => false
  | _ => true
  end.

(** floor (x + 1/2) for x = (-1)^s * m * 2^e with e < 0, computed exactly. *)
Definition round_half_up (s : bool) (m : positive) (e : Z) : Z :=
  (2 * cond_Zopp s (Zpos m) + 2 ^ (- e)) / 2 ^ (1 - e).

(** [Math.round]: the closest integer, ties towards +infinity; NaN, the
    infinities and the zeros are returned unchanged, and a result that
    rounds to zero keeps the sign of the argument. *)
Definition Math_round (x : Number) : Number :=
  match x with
  | S754_finite s m e =>
      if 0 <=? e then x
      else let n := round_half_up s m e in
           if n =? 0 then S754_zero s else Z2SF n
  | _ => x
  end.

(** The decimal literal [a/b] for small integers a, b: one correctly rounded
    division, hence the double nearest to the decimal value. *)
Definition decimal (a b : Z) : Number := div (Z2SF a) (Z2SF b).

(** The percentage as the specification states it, [round (100 * c / t)]:
    the rational [100 * c / t] rounded to the nearest integer, halves up,
    in exact arithmetic. *)
Definition round_percent_exact (c t : Z) : Z := (2 * (100 * c) + t) / (2 * t).

(** [inexact_loc l] is 1 when the location [l] records discarded bits, and
    [inexact_rec r] when the round or sticky bit of [r] is set. *)
Definition inexact_loc (l : location) : Z :=
  match l with loc_Exact => 0 | loc_Inexact _ => 1 end.

Definition inexact_rec (r : shr_record) : Z :=
  if shr_r r || shr_s r then 1 else 0.

(** [repr m e]: the non-negative double [m * 2^e], for a mantissa [m >= 0]. *)
Definition repr (m e : Z) : Number :=
  match m with
  | Z0 => S754_zero false
  | Zpos p => S754_finite false p e
  | Zneg _ => S754_nan
  end.

End JSNumber.

(* ===================================================================== *)
(** * Course progress: the progress router                                 *)
(* ===================================================================== *)

Module ProgressRoutes.
Import JSNumber.

(** Identifiers are ObjectIds compared through [toString()]; a timestamp is
    the value of [new Date()] in milliseconds. *)
Abbreviation ObjectId := string (only parsing).
Abbreviation Date := Z (only parsing).

(** ** Course structure (models/Course.js: modules and lectures are
    sub-documents) *)

Record Lecture := mkLecture { lecture_id : ObjectId }.

Record CourseModule := mkCourseModule {
  module_id : ObjectId;
  lectures : list Lecture
}.

Record Course := mkCourse { modules : list CourseModule }.

(** ** Progress documents (models/CourseProgress) *)

Record LectureProgress := mkLectureProgress {
  lectureId : ObjectId;
  lp_completed : bool;
  lp_completedAt : option Date
}.

Record ModuleProgress := mkModuleProgress {
  moduleId : ObjectId;
  mp_completed : bool;
  mp_completedAt : option Date;
  lecturesProgress : list LectureProgress
}.

(** The counters are integers (array lengths and [++] from 0), kept as
    [nat]; they become Numbers where the code divides them. *)
Record Progress := mkProgress {
  userId : ObjectId;
  courseId : ObjectId;
  modulesProgress : list ModuleProgress;
  completedLecturesCount : nat;
  totalLecturesCount : nat;
  progressPercentage : Number;
  completed : bool;
  completedAt : option Date
}.

(** The object returned by [calculateProgressStats]. *)
Record ProgressStats := mkProgressStats {
  stats_completedLecturesCount : nat;
  stats_totalLecturesCount : nat;
  stats_progressPercentage : Number;
  stats_completed : bool;
  stats_completedAt : option Date
}.

(** The progress collection, with its unique index on (userId, courseId). *)
Abbreviation Store := (gmap (string * string) Progress) (only parsing).

(** ** calculateProgressStats *)

(** [course.modules.forEach(module => totalLectures += module.lectures.length)] *)
Definition countTotalLectures (course : Course) : nat :=
  fold_left (fun totalLectures module => totalLectures + length (lectures module))
            (modules course) 0.

(** The nested [forEach] with [completedLectures++]. *)
Definition countCompletedLectures (modulesProgress : list ModuleProgress) : nat :=
  fold_left
    (fun completedLectures moduleProgress =>
       fold_left
         (fun completedLectures lectureProgress =>
            if lp_completed lectureProgress
            then S completedLectures else completedLectures)
         (lecturesProgress moduleProgress) completedLectures)
    modulesProgress 0.

(** [Math.round((completedLectures / totalLectures) * 100)] guarded by
    [totalLectures > 0]. *)
Definition percentageOf (completedLectures totalLectures : nat) : Number :=
  if 0 <? totalLectures
  then Math_round (mul (div (Z2SF (Z.of_nat completedLectures))
                            (Z2SF (Z.of_nat totalLectures)))
                       (Z2SF 100))
  else Z2SF 0.

Definition calculateProgressStats (now : Date) (course : Course)
    (progress : Progress) : ProgressStats :=
  let totalLectures := countTotalLectures course in
  let completedLectures := countCompletedLectures (modulesProgress progress) in
  let progressPercentage := percentageOf completedLectures totalLectures in
  let courseCompleted :=
    (0 <? totalLectures) && (completedLectures =? totalLectures) in
  {| stats_completedLecturesCount := completedLectures;
     stats_totalLecturesCount := totalLectures;
     stats_progressPercentage := progressPercentage;
     stats_completed := courseCompleted;
     stats_completedAt := if courseCompleted then Some now else None |}.

(** ** initializeProgress *)

Definition newLectureProgress (id : ObjectId) : LectureProgress :=
  {| lectureId := id; lp_completed := false; lp_completedAt := None |}.

Definition newModuleProgress (id : ObjectId) (module : CourseModule)
    : ModuleProgress :=
  {| moduleId := id; mp_completed := false; mp_completedAt := None;
     lecturesProgress :=
       map (fun lecture => newLectureProgress (lecture_id lecture))
           (lectures module) |}.

(** The document [initializeProgress] constructs before saving it. *)
Definition initialProgress (course : Course) (userId courseId : ObjectId)
    : Progress :=
  let modulesProgress :=
    map (fun module => newModuleProgress (module_id module) module)
        (modules course) in
  let totalLectures := countTotalLectures course in
  {| userId := userId;
     courseId := courseId;
     modulesProgress := modulesProgress;
     completedLecturesCount := 0;
     totalLecturesCount := totalLectures;
     progressPercentage := Z2SF 0;
     completed := false;
     completedAt := None |}.

(** Builds the mirror of the course, saves it, and returns it with the new
    state of the collection. The collection has a unique index on
    (userId, courseId): saving a second document under a key that is
    taken is rejected ([None]). *)
Definition initializeProgress (course : Course) (userId courseId : ObjectId)
    (db : Store) : option (Progress * Store) :=
  let progress := initialProgress course userId courseId in
  match db !! (userId, courseId) with
  | None => Some (progress, <[(userId, courseId) := progress]> db)
  | Some _ => None
  end.

(** "Get or create progress": [Progress.findOne], then [initializeProgress]
    when nothing was found. *)
Definition getOrCreateProgress (course : Course) (userId courseId : ObjectId)
    (db : Store) : option (Progress * Store) :=
  match db !! (userId, courseId) with
  | Some progress => Some (progress, db)
  | None => initializeProgress course userId courseId db
  end.

(** ** POST /lecture/:courseId/:moduleId/:lectureId/toggle *)

(** [Array.prototype.findIndex]; [None] stands for [-1]. *)
Fixpoint findIndex {A : Type} (f : A -> bool) (l : list A) : option nat :=
  match l with
  | [] => None
  | x :: l' => if f x then Some 0 else S <$> findIndex f l'
  end.

Record Response := mkResponse {
  status : nat;
  message : string;
  body : option Progress
}.

(** [lectureProgress.completed = !lectureProgress.completed] and the
    matching [completedAt]. *)
Definition toggleLectureProgress (now : Date) (lectureProgress : LectureProgress)
    : LectureProgress :=
  let toggled := negb (lp_completed lectureProgress) in
  {| lectureId := lectureId lectureProgress;
     lp_completed := toggled;
     lp_completedAt := if toggled then Some now else None |}.

(** The module roll-up: [allLecturesCompleted] over the entries the module
    progress now holds. *)
Definition rollUpModule (now : Date) (moduleProgress : ModuleProgress)
    (lecturesProgress' : list LectureProgress) : ModuleProgress :=
  let allLecturesCompleted := forallb lp_completed lecturesProgress' in
  {| moduleId := moduleId moduleProgress;
     mp_completed := allLecturesCompleted;
     mp_completedAt := if allLecturesCompleted then Some now else None;
     lecturesProgress := lecturesProgress' |}.

Definition setModulesProgress (progress : Progress)
    (modulesProgress' : list ModuleProgress) : Progress :=
  {| userId := userId progress;
     courseId := courseId progress;
     modulesProgress := modulesProgress';
     completedLecturesCount := completedLecturesCount progress;
     totalLecturesCount := totalLecturesCount progress;
     progressPercentage := progressPercentage progress;
     completed := completed progress;
     completedAt := completedAt progress |}.

(** "Recalculate overall progress": the five cached fields are overwritten
    with the result of [calculateProgressStats]. *)
Definition refreshStats (now : Date) (course : Course) (progress : Progress)
    : Progress :=
  let stats := calculateProgressStats now course progress in
  {| userId := userId progress;
     courseId := courseId progress;
     modulesProgress := modulesProgress progress;
     completedLecturesCount := stats_completedLecturesCount stats;
     totalLecturesCount := stats_totalLecturesCount stats;
     progressPercentage := stats_progressPercentage stats;
     completed := stats_completed stats;
     completedAt := stats_completedAt stats |}.

(** The body of the handler after the progress document was obtained
    (the index searches, the lazy creation of entries, the toggle, the
    module roll-up and the recomputed statistics). [None] is the TypeError
    of reading a property of [undefined], which the handler turns into a
    500. The result carries the new [lectureProgress.completed] and the
    updated document. *)
Definition applyToggle (now : Date) (course : Course) (module : CourseModule)
    (moduleId' lectureId' : ObjectId) (progress : Progress)
    : option (bool * Progress) :=
  let '(modulesProgress1, moduleProgressIndex) :=
    match findIndex (fun mp => String.eqb (moduleId mp) moduleId')
                    (modulesProgress progress) with
    | Some i => (modulesProgress progress, i)
    | None =>
        let pushed := modulesProgress progress
                      ++ [newModuleProgress moduleId' module] in
        (pushed, length pushed - 1)
    end in
  match modulesProgress1 !! moduleProgressIndex with
  | None => None
  | Some moduleProgress =>
      let '(lecturesProgress1, lectureProgressIndex) :=
        match findIndex (fun lp => String.eqb (lectureId lp) lectureId')
                        (lecturesProgress moduleProgress) with
        | Some j => (lecturesProgress moduleProgress, j)
        | None =>
            let pushed := lecturesProgress moduleProgress
                          ++ [newLectureProgress lectureId'] in
            (pushed, length pushed - 1)
        end in
      match lecturesProgress1 !! lectureProgressIndex with
      | None => None
      | Some lectureProgress =>
          let lectureProgress' := toggleLectureProgress now lectureProgress in
          let lecturesProgress2 :=
            <[lectureProgressIndex := lectureProgress']> lecturesProgress1 in
          let moduleProgress' :=
            rollUpModule now moduleProgress lecturesProgress2 in
          let modulesProgress2 :=
            <[moduleProgressIndex := moduleProgress']> modulesProgress1 in
          Some (lp_completed lectureProgress',
                refreshStats now course
                  (setModulesProgress progress modulesProgress2))
      end
  end.

(** The first lecture-progress entry the handler would find for
    (moduleId, lectureId) in a document. *)
Definition findLectureProgress (moduleId' lectureId' : ObjectId)
    (progress : Progress) : option LectureProgress :=
  i ← findIndex (fun mp => String.eqb (moduleId mp) moduleId')
                (modulesProgress progress);
  mp ← modulesProgress progress !! i;
  j ← findIndex (fun lp => String.eqb (lectureId lp) lectureId')
                (lecturesProgress mp);
  lecturesProgress mp !! j.

(** The first module-progress entry for moduleId. *)
Definition findModuleProgress (moduleId' : ObjectId) (progress : Progress)
    : option ModuleProgress :=
  i ← findIndex (fun mp => String.eqb (moduleId mp) moduleId')
                (modulesProgress progress);
  modulesProgress progress !! i.

(** The handler. [enrollment] is whether [Enrollment.findOne] found an
    active enrollment, [course] the result of [Course.findById], [db] the
    progress collection. The express-validator checks on the shape of the
    three identifiers are taken as passed. *)
Definition toggleLecture (now : Date) (enrollment : bool)
    (course : option Course) (userId courseId moduleId' lectureId' : ObjectId)
    (db : Store) : Response * Store :=
  if negb enrollment
  then (mkResponse 403 "You are not enrolled in this course" None, db)
  else
    match course with
    | None => (mkResponse 404 "Course not found" None, db)
    | Some course =>
        match findIndex (fun mod' => String.eqb (module_id mod') moduleId')
                        (modules course) with
        | None => (mkResponse 404 "Module not found in course" None, db)
        | Some moduleIndex =>
            match modules course !! moduleIndex with
            | None => (mkResponse 500 "Error updating progress" None, db)
            | Some module =>
                match findIndex
                        (fun lec => String.eqb (lecture_id lec) lectureId')
                        (lectures module) with
                | None =>
                    (mkResponse 404 "Lecture not found in module" None, db)
                | Some _ =>
                    match getOrCreateProgress course userId courseId db with
                    | None =>
                        (mkResponse 500 "Error updating progress" None, db)
                    | Some (progress, db1) =>
                        match applyToggle now course module moduleId'
                                          lectureId' progress with
                        | None =>
                            (mkResponse 500 "Error updating progress" None,
                             db1)
                        | Some (lectureCompleted, progress') =>
                            (mkResponse 200
                               (if lectureCompleted
                                then "Lecture marked as complete"
                                else "Lecture unmarked")
                               (Some progress'),
                             <[(userId, courseId) := progress']> db1)
                        end
                    end
                end
            end
        end
    end.

(** ** The counters, stated on the data *)

(** Sum of the lecture counts of the modules of the course. *)
Definition total_lectures (course : Course) : nat :=
  sum_list (map (fun m => length (lectures m)) (modules course)).

(** The lecture-progress entries present in a record, in order. *)
Definition lecture_entries (mods : list ModuleProgress) : list LectureProgress :=
  flat_map lecturesProgress mods.

(** Number of entries present with [completed = true]. *)
Definition completed_entries (mods : list ModuleProgress) : nat :=
  length (List.filter lp_completed (lecture_entries mods)).

(** A progress record is valid for a course when its lecture-progress
    entries are keyed by pairwise distinct (module, lecture) pairs of the
    course. *)
Definition course_keys (course : Course) : list (string * string) :=
  flat_map (fun m => map (fun l => (module_id m, lecture_id l)) (lectures m))
           (modules course).

Definition progress_keys (mods : list ModuleProgress) : list (string * string) :=
  flat_map (fun mp => map (fun lp => (moduleId mp, lectureId lp))
                          (lecturesProgress mp)) mods.

Definition valid_progress (course : Course) (progress : Progress) : bool :=
  bool_decide (NoDup (progress_keys (modulesProgress progress))
               /\ progress_keys (modulesProgress progress) ⊆ course_keys course).

(** A lecture-progress entry mirrors a lecture; a module-progress entry
    mirrors a module. *)
Definition mirrors_lecture (l : Lecture) (lp : LectureProgress) : Prop :=
  lectureId lp = lecture_id l /\
  lp_completed lp = false /\ lp_completedAt lp = None.

Definition mirrors_module (m : CourseModule) (mp : ModuleProgress) : Prop :=
  moduleId mp = module_id m /\
  mp_completed mp = false /\ mp_completedAt mp = None /\
  Forall2 mirrors_lecture (lectures m) (lecturesProgress mp).

(** Whether the course has a module [moduleId'] holding a lecture
    [lectureId']: the two validations of the toggle handler. *)
Definition courseHasLecture (course : Course) (moduleId' lectureId' : ObjectId)
    : bool :=
  match findIndex (fun mod' => String.eqb (module_id mod') moduleId')
                  (modules course) with
  | Some moduleIndex =>
      match modules course !! moduleIndex with
      | Some module =>
          match findIndex (fun lec => String.eqb (lecture_id lec) lectureId')
                          (lectures module) with
          | Some _ => true
          | None => false
          end
      | None => false
      end
  | None => false
  end.

(** The cached counter of a record agrees with its entries. The records
    the router stores all have this property. *)
Definition consistent (progress : Progress) : Prop :=
  completedLecturesCount progress
  = completed_entries (modulesProgress progress).

(** 1 for a completed entry, 0 otherwise. *)
Definition flag (lp : LectureProgress) : nat :=
  if lp_completed lp then 1 else 0.

End ProgressRoutes.

(* ===================================================================== *)
(** * The other handlers of the progress router                            *)
(* ===================================================================== *)

Module ProgressHandlers.
Import JSNumber ProgressRoutes.

(** [req.user.role], after the [authorize] middleware let the request in. *)
Inductive Role := student | instructor | admin.

Definition is_student (role : Role) : bool :=
  match role with student => true | _ => false end.

(** GET /course/:courseId. [enrollment] is whether [Enrollment.findOne]
    finds an active enrollment; it is only looked up for students. The
    record is read, or created on the spot, under the id of the user who
    asks. *)
Definition getCourseProgress (role : Role) (enrollment : bool)
    (course : option Course) (userId courseId : ObjectId) (db : Store)
    : Response * Store :=
  match course with
  | None => (mkResponse 404 "Course not found" None, db)
  | Some course =>
      if is_student role && negb enrollment
      then (mkResponse 403 "You are not enrolled in this course" None, db)
      else
        match getOrCreateProgress course userId courseId db with
        | None => (mkResponse 500 "Error fetching progress" None, db)
        | Some (progress, db1) =>
            (mkResponse 200 "Progress retrieved successfully" (Some progress),
             db1)
        end
  end.

(** POST /initialize/:courseId. The enrollment is checked first, then an
    existing record is returned as it is, and only then is the course
    looked up. *)
Definition initializeRoute (enrollment : bool) (course : option Course)
    (userId courseId : ObjectId) (db : Store) : Response * Store :=
  if negb enrollment
  then (mkResponse 403 "You are not enrolled in this course" None, db)
  else
    match db !! (userId, courseId) with
    | Some progress =>
        (mkResponse 200 "Progress already exists" (Some progress), db)
    | None =>
        match course with
        | None => (mkResponse 404 "Course not found" None, db)
        | Some course =>
            match initializeProgress course userId courseId db with
            | None => (mkResponse 500 "Error initializing progress" None, db)
            | Some (progress, db1) =>
                (mkResponse 201 "Progress initialized successfully"
                            (Some progress), db1)
            end
        end
    end.

(** DELETE /course/:courseId: [Progress.findOneAndDelete]. *)
Definition resetProgress (userId courseId : ObjectId) (db : Store)
    : Response * Store :=
  match db !! (userId, courseId) with
  | None => (mkResponse 404 "Progress not found" None, db)
  | Some _ =>
      (mkResponse 200 "Progress reset successfully" None,
       delete (userId, courseId) db)
  end.

(** Whether the toggle handler lets a request through: the student is
    enrolled, the course exists and holds the lecture in the module. *)
Definition toggleAccepted (enrollment : bool) (course : option Course)
    (moduleId' lectureId' : ObjectId) : bool :=
  enrollment &&
  match course with
  | Some course => courseHasLecture course moduleId' lectureId'
  | None => false
  end.

(** The identifiers of a course are distinct: modules within the course,
    lectures within each module. *)
Definition course_ok (course : Course) : Prop :=
  NoDup (map module_id (modules course)) /\
  Forall (fun m => NoDup (map lecture_id (lectures m))) (modules course).

(** A record is well formed for a course: its module entries have distinct
    identifiers, the lecture entries of each module entry too, and every
    entry is keyed by a lecture of the course. *)
Definition entries_ok (course : Course) (mods : list ModuleProgress) : Prop :=
  NoDup (map moduleId mods) /\
  Forall (fun mp => NoDup (map lectureId (lecturesProgress mp))) mods /\
  progress_keys mods ⊆ course_keys course.

Definition record_ok (course : Course) (progress : Progress) : Prop :=
  entries_ok course (modulesProgress progress).

(** The pairs (module, lecture) whose entry is present and completed. *)
Definition completed_keys (mods : list ModuleProgress) : list (string * string) :=
  flat_map (fun mp => map (fun lp => (moduleId mp, lectureId lp))
                          (List.filter lp_completed (lecturesProgress mp)))
           mods.

(** What the collection holds about one lecture of one student: the entry
    the toggle handler would find, if the record and the entry exist. *)
Definition lectureState (db : Store)
    (userId courseId moduleId' lectureId' : ObjectId)
    : option LectureProgress :=
  progress ← db !! (userId, courseId);
  findLectureProgress moduleId' lectureId' progress.

(** A lecture counts as completed when its entry exists and says so. *)
Definition lectureCompleted (db : Store)
    (userId courseId moduleId' lectureId' : ObjectId) : bool :=
  match lectureState db userId courseId moduleId' lectureId' with
  | Some lectureProgress => lp_completed lectureProgress
  | None => false
  end.

(** A run of the toggle handler for one student and one course: one call
    per element of [calls], each with its time and the (module, lecture) it
    addresses, every call working on the collection the previous one
    left. *)
Definition runToggles (enrollment : bool) (course : option Course)
    (userId courseId : ObjectId)
    (calls : list (Date * (ObjectId * ObjectId))) (db : Store) : Store :=
  fold_left
    (fun db call =>
       snd (toggleLecture (fst call) enrollment course userId courseId
                          (fst (snd call)) (snd (snd call)) db))
    calls db.


End ProgressHandlers.

(* ===================================================================== *)
(** * Quiz grading and letter grades: the submission router and model      *)
(* ===================================================================== *)

Module SubmissionRoutes.
Import JSNumber.

Abbreviation ObjectId := string (only parsing).
Abbreviation Date := Z (only parsing).

(** The values a request body or a [Mixed] field can hold, as far as
    [autoGradeQuiz] inspects them. *)
Inductive JsValue :=
| JsUndefined
| JsNull
| JsBoolean (b : bool)
| JsNumber (x : Number)
| JsString (s : string).

(** [a === b]. *)
Definition strict_eq (a b : JsValue) : bool :=
  match a, b with
  | JsUndefined, JsUndefined => true
  | JsNull, JsNull => true
  | JsBoolean x, JsBoolean y => Bool.eqb x y
  | JsNumber x, JsNumber y => strict_eq_num x y
  | JsString x, JsString y => String.eqb x y
  | _, _ => false
  end.

(** [a !== b]. *)
Definition strict_neq (a b : JsValue) : bool := negb (strict_eq a b).

(** ** Questions and assignments (models/Assignment.js) *)

Inductive QuestionType := multiple_choice | written.

Definition is_multiple_choice (t : QuestionType) : bool :=
  match t with multiple_choice => true | written => false end.

(** [correctOption] is a Number when set; [points] is a Number (default 1)
    unless it was stored as null. *)
Record Question := mkQuestion {
  q_id : ObjectId;
  q_type : QuestionType;
  correctOption : option Number;
  points : option Number
}.

Record Assignment := mkAssignment {
  totalPoints : Number;
  questions : list Question
}.

(** One element of the [answers] array of the request. *)
Record StudentAnswer := mkStudentAnswer {
  questionId : string;
  answer : JsValue
}.

Record GradedAnswer := mkGradedAnswer {
  ga_questionId : string;
  ga_studentAnswer : JsValue;
  ga_correctAnswer : option Number;
  ga_isCorrect : bool;
  ga_points : Number;
  ga_earnedPoints : Number
}.

(** The object returned by [autoGradeQuiz]. *)
Record GradingResult := mkGradingResult {
  r_totalPoints : Number;
  r_earnedPoints : Number;
  r_percentage : Number;
  r_gradedAnswers : list GradedAnswer
}.

(** The three variables the grading loop mutates. *)
Record GradeState := mkGradeState {
  totalQuestionPoints : Number;
  earnedQuestionPoints : Number;
  gradedAnswers : list GradedAnswer
}.

(** ** autoGradeQuiz *)

Definition option_to_js (o : option Number) : JsValue :=
  match o with Some x => JsNumber x | None => JsUndefined end.

(** [question.points || 1] *)
Definition pointsForQuestion (question : Question) : Number :=
  match points question with
  | Some p => if truthy p then p else Z2SF 1
  | None => Z2SF 1
  end.

(** [answer !== null && answer !== undefined && answer === correctOption] *)
Definition isCorrect (studentAnswer : StudentAnswer) (question : Question)
    : bool :=
  strict_neq (answer studentAnswer) JsNull
  && strict_neq (answer studentAnswer) JsUndefined
  && strict_eq (answer studentAnswer) (option_to_js (correctOption question)).

(** [assignment.questions.forEach(q => questionsMap.set(q._id.toString(), q))] *)
Definition buildQuestionsMap (questions : list Question) : gmap string Question :=
  fold_left (fun questionsMap q => <[q_id q := q]> questionsMap) questions ∅.

(** The body of [studentAnswers.forEach]. *)
Definition gradeAnswer (questionsMap : gmap string Question) (st : GradeState)
    (studentAnswer : StudentAnswer) : GradeState :=
  match questionsMap !! questionId studentAnswer with
  | Some question =>
      if is_multiple_choice (q_type question) then
        let pointsForQuestion := pointsForQuestion question in
        let isCorrect := isCorrect studentAnswer question in
        {| totalQuestionPoints :=
             add (totalQuestionPoints st) pointsForQuestion;
           earnedQuestionPoints :=
             if isCorrect
             then add (earnedQuestionPoints st) pointsForQuestion
             else earnedQuestionPoints st;
           gradedAnswers :=
             gradedAnswers st ++
             [{| ga_questionId := questionId studentAnswer;
                 ga_studentAnswer := answer studentAnswer;
                 ga_correctAnswer := correctOption question;
                 ga_isCorrect := isCorrect;
                 ga_points := pointsForQuestion;
                 ga_earnedPoints :=
                   if isCorrect then pointsForQuestion else Z2SF 0 |}] |}
      else st
  | None => st
  end.

Definition initialGradeState : GradeState :=
  {| totalQuestionPoints := Z2SF 0;
     earnedQuestionPoints := Z2SF 0;
     gradedAnswers := [] |}.

(** The state of the three variables after the loop. *)
Definition gradeAnswers (assignment : Assignment)
    (studentAnswers : list StudentAnswer) : GradeState :=
  fold_left (gradeAnswer (buildQuestionsMap (questions assignment)))
            studentAnswers initialGradeState.

Definition autoGradeQuiz (assignment : Assignment)
    (studentAnswers : list StudentAnswer) : GradingResult :=
  let st := gradeAnswers assignment studentAnswers in
  let totalQuestionPoints := totalQuestionPoints st in
  let earnedQuestionPoints := earnedQuestionPoints st in
  let percentage :=
    if gt totalQuestionPoints (Z2SF 0)
    then mul (div earnedQuestionPoints totalQuestionPoints) (Z2SF 100)
    else Z2SF 0 in
  let scaledEarnedPoints :=
    if gt totalQuestionPoints (Z2SF 0)
    then mul (div earnedQuestionPoints totalQuestionPoints)
             (totalPoints assignment)
    else Z2SF 0 in
  {| r_totalPoints := totalPoints assignment;
     r_earnedPoints := scaledEarnedPoints;
     r_percentage := percentage;
     r_gradedAnswers := gradedAnswers st |}.

(** ** The answered multiple-choice questions, stated on the data *)

(** The question an answer is graded against: the one the map holds for its
    [questionId], provided it is of type multiple-choice. *)
Definition gradable (assignment : Assignment) (studentAnswer : StudentAnswer)
    : option Question :=
  match buildQuestionsMap (questions assignment) !! questionId studentAnswer with
  | Some question =>
      if is_multiple_choice (q_type question) then Some question else None
  | None => None
  end.

(** The answers that are graded, each with its question, in order. *)
Definition answered_mcq (assignment : Assignment)
    (studentAnswers : list StudentAnswer) : list (StudentAnswer * Question) :=
  omap (fun sa => q ← gradable assignment sa; Some (sa, q)) studentAnswers.

(** Left-to-right sum of Numbers starting from 0, as [+=] computes it. *)
Definition sum_numbers (l : list Number) : Number := fold_left add l (Z2SF 0).

Definition total_points_of (l : list (StudentAnswer * Question)) : Number :=
  sum_numbers (map (fun p => pointsForQuestion (snd p)) l).

Definition earned_points_of (l : list (StudentAnswer * Question)) : Number :=
  sum_numbers (map (fun p => pointsForQuestion (snd p))
                   (List.filter (fun p => isCorrect (fst p) (snd p)) l)).

Definition graded_entry (p : StudentAnswer * Question) : GradedAnswer :=
  let '(sa, q) := p in
  {| ga_questionId := questionId sa;
     ga_studentAnswer := answer sa;
     ga_correctAnswer := correctOption q;
     ga_isCorrect := isCorrect sa q;
     ga_points := pointsForQuestion q;
     ga_earnedPoints := if isCorrect sa q then pointsForQuestion q else Z2SF 0 |}.

(** One round of the loop on a graded answer. *)
Definition gradeStep (st : GradeState) (sa : StudentAnswer) (q : Question)
    : GradeState :=
  {| totalQuestionPoints := add (totalQuestionPoints st) (pointsForQuestion q);
     earnedQuestionPoints :=
       if isCorrect sa q
       then add (earnedQuestionPoints st) (pointsForQuestion q)
       else earnedQuestionPoints st;
     gradedAnswers := gradedAnswers st ++ [graded_entry (sa, q)] |}.

(** ** Letter grades *)

(** [getLetterGrade] of the submission router. *)
Definition getLetterGrade (percentage : Number) : string :=
  if ge percentage (Z2SF 97) then "A+"
  else if ge percentage (Z2SF 93) then "A"
  else if ge percentage (Z2SF 90) then "A-"
  else if ge percentage (Z2SF 87) then "B+"
  else if ge percentage (Z2SF 83) then "B"
  else if ge percentage (Z2SF 80) then "B-"
  else if ge percentage (Z2SF 77) then "C+"
  else if ge percentage (Z2SF 73) then "C"
  else if ge percentage (Z2SF 70) then "C-"
  else if ge percentage (Z2SF 67) then "D+"
  else if ge percentage (Z2SF 60) then "D"
  else "F".

(** The [grade] sub-document of a submission; an absent field is [None]. *)
Record Grade := mkGrade {
  g_points : option Number;
  g_percentage : option Number;
  letterGrade : option string;
  gradedAt : option Date;
  gradedBy : option ObjectId
}.

Record Submission := mkSubmission {
  grade : option Grade;
  status : string
}.

Definition setLetterGrade (g : Grade) (letter : string) : Grade :=
  {| g_points := g_points g;
     g_percentage := g_percentage g;
     letterGrade := Some letter;
     gradedAt := gradedAt g;
     gradedBy := gradedBy g |}.

(** The first [pre('save')] hook of the Submission model ("Auto Letter
    Grade"); the two other hooks do not touch [grade]. *)
Definition preSaveLetterGrade (this : Submission) : Submission :=
  match grade this with
  | Some g =>
      match g_percentage g with
      | Some p =>
          let g' :=
            if ge p (Z2SF 97) then setLetterGrade g "A+"
            else if ge p (Z2SF 93) then setLetterGrade g "A"
            else if ge p (Z2SF 90) then setLetterGrade g "A-"
            else if ge p (Z2SF 87) then setLetterGrade g "B+"
            else if ge p (Z2SF 83) then setLetterGrade g "B"
            else if ge p (Z2SF 80) then setLetterGrade g "B-"
            else if ge p (Z2SF 77) then setLetterGrade g "C+"
            else if ge p (Z2SF 73) then setLetterGrade g "C"
            else if ge p (Z2SF 70) then setLetterGrade g "C-"
            else if ge p (Z2SF 67) then setLetterGrade g "D+"
            else if ge p (Z2SF 60) then setLetterGrade g "D"
            else setLetterGrade g "F" in
          {| grade := Some g'; status := status this |}
      | None => this
      end
  | None => this
  end.

(** [PUT /:id/grade]: the grade object the handler assigns, the new status,
    and the save. *)
Definition gradeSubmission (now : Date) (grader : ObjectId)
    (points' assignmentTotalPoints : Number) (submission : Submission)
    : Submission :=
  let percentage := mul (div points' assignmentTotalPoints) (Z2SF 100) in
  preSaveLetterGrade
    {| grade := Some {| g_points := Some points';
                        g_percentage := Some percentage;
                        letterGrade := None;
                        gradedAt := Some now;
                        gradedBy := Some grader |};
       status := "graded" |}.

(** [POST /:assignmentId] with auto-grading enabled: the grade object built
    from the result of [autoGradeQuiz], the status, and the save. *)
Definition createAutoGraded (now : Date) (student : ObjectId)
    (assignment : Assignment) (answers : list StudentAnswer) : Submission :=
  let gradingResult := autoGradeQuiz assignment answers in
  preSaveLetterGrade
    {| grade := Some {| g_points := Some (r_earnedPoints gradingResult);
                        g_percentage := Some (r_percentage gradingResult);
                        letterGrade := None;
                        gradedAt := Some now;
                        gradedBy := Some student |};
       status := "graded" |}.

(** The thresholds as the specification lists them: lower bounds from the
    top, first match wins, F below 60. *)
Definition grade_table : list (Z * string) :=
  [(97, "A+"); (93, "A"); (90, "A-"); (87, "B+"); (83, "B"); (80, "B-");
   (77, "C+"); (73, "C"); (70, "C-"); (67, "D+"); (60, "D")]%Z.

Fixpoint first_match (percentage : Number) (table : list (Z * string))
    : string :=
  match table with
  | [] => "F"
  | (lower, letter) :: rest =>
      if ge percentage (Z2SF lower) then letter
      else first_match percentage rest
  end.

End SubmissionRoutes.

(* ===================================================================== *)
(** * Submission documents: attachments, achievements, resubmission        *)
(* ===================================================================== *)

Module SubmissionDocs.
Import JSNumber SubmissionRoutes.

(** The letter grades from the best to the worst, as the thresholds of
    [getLetterGrade] order them. *)
Definition letters : list string := map snd grade_table ++ ["F"].

(** ** The document (models/Submission); the fields no handler below reads
    or writes (quizAnswers, rubric, feedback, plagiarismReport) are left
    out, and so are the [_id]s of sub-documents. An absent field is
    [None]. *)

Record Attachment := mkAttachment {
  att_originalName : option string;
  att_filename : option string;
  att_path : option string;
  att_mimetype : option string;
  att_size : option Number;
  att_uploadDate : option Date
}.

(** An attachment as a history entry keeps it: the schema of
    [history.attachments] has three fields only. *)
Record HistoryAttachment := mkHistoryAttachment {
  ha_originalName : option string;
  ha_filename : option string;
  ha_path : option string
}.

Record HistoryEntry := mkHistoryEntry {
  h_submissionText : option string;
  h_attachments : list HistoryAttachment;
  h_updatedAt : option Date;
  h_updatedBy : option ObjectId
}.

Inductive Level := Bronze | Silver | Gold | Diamond | Cosmic.

Record Achievement := mkAchievement {
  badgeId : string;
  levelAchieved : Level;
  earnedAt : Date
}.

Record SubmissionDoc := mkSubmissionDoc {
  student : ObjectId;
  submissionText : option string;
  attachments : list Attachment;
  submittedAt : Date;
  isLate : bool;
  doc_status : string;
  resubmissionCount : nat;
  history : list HistoryEntry;
  doc_grade : option Grade;
  achievements : list Achievement
}.

(** The populated [assignment] of a submission, as far as it is read. *)
Record AssignmentInfo := mkAssignmentInfo {
  dueDate : option Date;
  allowLateSubmission : bool
}.

(** What a handler answers: the status code and the message. *)
Record Reply := mkReply {
  code : nat;
  msg : string
}.

(** ** Casting by the schema *)

(** [uploadDate] has the default [Date.now]. *)
Definition castAttachment (now : Date) (att : Attachment) : Attachment :=
  {| att_originalName := att_originalName att;
     att_filename := att_filename att;
     att_path := att_path att;
     att_mimetype := att_mimetype att;
     att_size := att_size att;
     att_uploadDate :=
       match att_uploadDate att with
       | Some d => Some d
       | None => Some now
       end |}.


(** ** Field updates *)

Definition setAttachments (this : SubmissionDoc) (atts : list Attachment)
    : SubmissionDoc :=
  {| student := student this;
     submissionText := submissionText this;
     attachments := atts;
     submittedAt := submittedAt this;
     isLate := isLate this;
     doc_status := doc_status this;
     resubmissionCount := resubmissionCount this;
     history := history this;
     doc_grade := doc_grade this;
     achievements := achievements this |}.

Definition setHistory (this : SubmissionDoc) (h : list HistoryEntry)
    : SubmissionDoc :=
  {| student := student this;
     submissionText := submissionText this;
     attachments := attachments this;
     submittedAt := submittedAt this;
     isLate := isLate this;
     doc_status := doc_status this;
     resubmissionCount := resubmissionCount this;
     history := h;
     doc_grade := doc_grade this;
     achievements := achievements this |}.

Definition setIsLate (this : SubmissionDoc) (late : bool) : SubmissionDoc :=
  {| student := student this;
     submissionText := submissionText this;
     attachments := attachments this;
     submittedAt := submittedAt this;
     isLate := late;
     doc_status := doc_status this;
     resubmissionCount := resubmissionCount this;
     history := history this;
     doc_grade := doc_grade this;
     achievements := achievements this |}.

Definition setGrade (this : SubmissionDoc) (g : option Grade)
    : SubmissionDoc :=
  {| student := student this;
     submissionText := submissionText this;
     attachments := attachments this;
     submittedAt := submittedAt this;
     isLate := isLate this;
     doc_status := doc_status this;
     resubmissionCount := resubmissionCount this;
     history := history this;
     doc_grade := g;
     achievements := achievements this |}.

Definition setAchievements (this : SubmissionDoc) (l : list Achievement)
    : SubmissionDoc :=
  {| student := student this;
     submissionText := submissionText this;
     attachments := attachments this;
     submittedAt := submittedAt this;
     isLate := isLate this;
     doc_status := doc_status this;
     resubmissionCount := resubmissionCount this;
     history := history this;
     doc_grade := doc_grade this;
     achievements := l |}.

(** ** The three [pre('save')] hooks, in the order they are registered *)

(** "Auto Letter Grade": the hook of [SubmissionRoutes.preSaveLetterGrade],
    which reads and writes [grade] only. *)
Definition letterGradeHook (this : SubmissionDoc) : SubmissionDoc :=
  setGrade this
    (grade (preSaveLetterGrade {| grade := doc_grade this;
                                  status := doc_status this |})).

(** "Detect Late Submissions". [modifiedSubmittedAt] is the answer of
    [this.isModified('submittedAt')]; [assignment] is what
    [Assignment.findById] finds. A [Date] compares by its milliseconds. *)
Definition lateHook (isNew modifiedSubmittedAt : bool)
    (assignment : option AssignmentInfo) (this : SubmissionDoc)
    : SubmissionDoc :=
  if modifiedSubmittedAt || isNew then
    match assignment with
    | Some a =>
        match dueDate a with
        | Some due => setIsLate this (due <? submittedAt this)%Z
        | None => this
        end
    | None => this
    end
  else this.

(** "Track version history". [modifiedText] is the answer of
    [this.isModified('submissionText')]. *)
Definition historyHook (isNew modifiedText : bool) (now : Date)
    (this : SubmissionDoc) : SubmissionDoc :=
  if negb isNew && modifiedText then
    setHistory this
      (history this ++
       [{| h_submissionText := submissionText this;
           h_attachments := [];
           h_updatedAt := Some now;
           h_updatedBy := None |}])
  else this.

(** [submission.save()]: the hooks, then the write. The schema validators
    are taken as passed. *)
Definition save (isNew modifiedSubmittedAt modifiedText : bool)
    (assignment : option AssignmentInfo) (now : Date)
    (this : SubmissionDoc) : SubmissionDoc :=
  historyHook isNew modifiedText now
    (lateHook isNew modifiedSubmittedAt assignment
       (letterGradeHook this)).

(** ** POST /:id/attachments *)

(** [found] is the result of [Submission.findById]. The result carries
    the document as saved, or [None] when nothing was saved. Neither
    [submittedAt] nor [submissionText] is touched, so the last two hooks
    do nothing. *)
Definition addAttachments (now : Date) (requester : ObjectId)
    (bodyAttachments : list Attachment) (found : option SubmissionDoc)
    : Reply * option SubmissionDoc :=
  match found with
  | None => (mkReply 404 "Submission not found", None)
  | Some submission =>
      if negb (String.eqb (student submission) requester)
      then (mkReply 403 "Access denied", None)
      else
        let pushed :=
          attachments submission ++ map (castAttachment now) bodyAttachments in
        (mkReply 200 "Attachments added successfully",
         Some (save false false false None now
                 (setAttachments submission pushed)))
  end.

(** ** DELETE /:id/attachments/:filename *)

(** [att.filename === filename] *)
Definition hasFilename (filename : string) (att : Attachment) : bool :=
  match att_filename att with
  | Some f => String.eqb f filename
  | None => false
  end.

(** [attachments.splice(attachmentIndex, 1)] *)
Definition splice1 {A : Type} (i : nat) (l : list A) : list A :=
  take i l ++ drop (S i) l.

Definition removeAttachment (now : Date) (requester : ObjectId)
    (filename : string) (found : option SubmissionDoc)
    : Reply * option SubmissionDoc :=
  match found with
  | None => (mkReply 404 "Submission not found", None)
  | Some submission =>
      if negb (String.eqb (student submission) requester)
      then (mkReply 403 "Access denied", None)
      else
        match ProgressRoutes.findIndex (hasFilename filename)
                                       (attachments submission) with
        | None => (mkReply 404 "Attachment not found", None)
        | Some attachmentIndex =>
            (mkReply 200 "Attachment removed successfully",
             Some (save false false false None now
                     (setAttachments submission
                        (splice1 attachmentIndex (attachments submission)))))
        end
  end.

(** ** POST /:id/achievements *)

(** The validators let through a non-empty [badgeId]; [levelAchieved] is
    one of the five levels. *)
Definition awardAchievement (now : Date) (badgeId' : string)
    (levelAchieved' : Level) (found : option SubmissionDoc)
    : Reply * option SubmissionDoc :=
  if String.eqb badgeId' ""
  then (mkReply 400 "Validation errors", None)
  else
    match found with
    | None => (mkReply 404 "Submission not found", None)
    | Some submission =>
        match List.find (fun ach => String.eqb (badgeId ach) badgeId')
                        (achievements submission) with
        | Some _ => (mkReply 400 "Achievement already awarded", None)
        | None =>
            (mkReply 201 "Achievement awarded successfully",
             Some (save false false false None now
                     (setAchievements submission
                        (achievements submission ++
                         [{| badgeId := badgeId';
                             levelAchieved := levelAchieved';
                             earnedAt := now |}]))))
        end
    end.

(** ** PUT /:id/resubmit *)




(** ** POST /:assignmentId *)

(** A question with the field of written questions that [autoGradeQuiz]
    does not read. The fields that are only copied along (questionText,
    options, explanation, difficulty, tags) are left out. *)
Record QuestionDoc := mkQuestionDoc {
  question : Question;
  expectedAnswer : option string
}.

(** The assignment as the handler reads it; [ad_autoGrade] is
    [assignment.quizSettings && assignment.quizSettings.autoGrade]. *)
Record AssignmentDoc := mkAssignmentDoc {
  ad_totalPoints : Number;
  ad_questions : list QuestionDoc;
  ad_info : AssignmentInfo;
  ad_autoGrade : bool
}.

(** The assignment as [autoGradeQuiz] reads it. *)
Definition toAssignment (assignment : AssignmentDoc) : Assignment :=
  {| totalPoints := ad_totalPoints assignment;
     questions := map question (ad_questions assignment) |}.

(** The request body. [b_answers] is [None] when the field is missing or
    not an array; [b_attachments] is [None] when the field is missing (a
    value that is not an array is not modelled); [b_submittedAt] is a date
    the body gives, [None] when it gives none. *)
Record CreateBody := mkCreateBody {
  b_assignmentType : option string;
  b_answers : option (list StudentAnswer);
  b_submissionText : option string;
  b_attachments : option (list Attachment);
  b_submittedAt : option Date
}.

(** One element of [quizAnswers]. *)
Record QuizAnswer := mkQuizAnswer {
  qa_questionId : string;
  qa_questionType : QuestionType;
  qa_studentAnswer : JsValue;
  qa_correctAnswer : JsValue;
  qa_points : Number;
  qa_isCorrect : option bool;
  qa_earnedPoints : option Number
}.

(** The comment of a rubric row: "Correct", or "Incorrect. Correct answer:"
    followed by the correct option. *)
Inductive RubricComment :=
| Correct
| Incorrect (correctAnswer : option Number).

Record RubricRow := mkRubricRow {
  criterion : string;
  maxPoints : Number;
  rr_earnedPoints : Number;
  comment : RubricComment
}.

(** The document created, with the two fields only this handler writes. *)
Record NewSubmission := mkNewSubmission {
  ns_doc : SubmissionDoc;
  quizAnswers : list QuizAnswer;
  rubric : list RubricRow
}.

(** [assignmentType === "quiz" || assignmentType === "exam"] *)
Definition isQuizType (assignmentType : option string) : bool :=
  match assignmentType with
  | Some t => String.eqb t "quiz" || String.eqb t "exam"
  | None => false
  end.

(** The handler's own [questionsMap]. *)
Definition buildQuestionDocsMap (questions : list QuestionDoc)
    : gmap string QuestionDoc :=
  fold_left (fun questionsMap q => <[q_id (question q) := q]> questionsMap)
            questions ∅.

(** The callback of [answers.map]; [None] is the [null] that
    [filter(Boolean)] removes. *)
Definition quizAnswerOf (questionsMap : gmap string QuestionDoc)
    (studentAnswer : StudentAnswer) : option QuizAnswer :=
  match questionsMap !! questionId studentAnswer with
  | None => None
  | Some qd =>
      let q := question qd in
      Some {| qa_questionId := questionId studentAnswer;
              qa_questionType := q_type q;
              qa_studentAnswer := answer studentAnswer;
              qa_correctAnswer :=
                if is_multiple_choice (q_type q)
                then option_to_js (correctOption q)
                else match expectedAnswer qd with
                     | Some text => JsString text
                     | None => JsUndefined
                     end;
              qa_points := pointsForQuestion q;
              qa_isCorrect := None;
              qa_earnedPoints := None |}
  end.

(** "Update quizAnswers with grading results": the first graded answer of
    the same [questionId], when there is one. *)
Definition mergeGrading (gradedAnswers : list GradedAnswer) (qa : QuizAnswer)
    : QuizAnswer :=
  match List.find (fun ga => String.eqb (ga_questionId ga) (qa_questionId qa))
                  gradedAnswers with
  | Some gradedAnswer =>
      {| qa_questionId := qa_questionId qa;
         qa_questionType := qa_questionType qa;
         qa_studentAnswer := qa_studentAnswer qa;
         qa_correctAnswer := qa_correctAnswer qa;
         qa_points := qa_points qa;
         qa_isCorrect := Some (ga_isCorrect gradedAnswer);
         qa_earnedPoints := Some (ga_earnedPoints gradedAnswer) |}
  | None => qa
  end.

Definition rubricRowOf (ga : GradedAnswer) : RubricRow :=
  {| criterion := "Question " +:+ ga_questionId ga;
     maxPoints := ga_points ga;
     rr_earnedPoints := ga_earnedPoints ga;
     comment := if ga_isCorrect ga then Correct
                else Incorrect (ga_correctAnswer ga) |}.

(** [new Submission(submissionData)] with the defaults of the schema, and
    the lateness the handler computes before the hooks run. *)
Definition newDoc (now : Date) (student' : ObjectId) (body : CreateBody)
    (assignment : AssignmentDoc) (status' : string)
    (text : option string) (atts : list Attachment) (g : option Grade)
    : SubmissionDoc :=
  {| student := student';
     submissionText := text;
     attachments := atts;
     submittedAt := match b_submittedAt body with
                    | Some t => t
                    | None => now
                    end;
     isLate := match dueDate (ad_info assignment) with
               | Some due => (due <? now)%Z
               | None => false
               end;
     doc_status := status';
     resubmissionCount := 0;
     history := [];
     doc_grade := g;
     achievements := [] |}.

Definition created (now : Date) (assignment : AssignmentDoc)
    (doc : SubmissionDoc) (quizAnswers' : list QuizAnswer)
    (rubric' : list RubricRow) : Reply * option NewSubmission :=
  let saved := save true true true (Some (ad_info assignment)) now doc in
  (mkReply 201
     (if String.eqb (doc_status saved) "graded"
      then "Submission created and auto-graded successfully"
      else "Submission created successfully"),
   Some {| ns_doc := saved; quizAnswers := quizAnswers';
           rubric := rubric' |}).

(** The handler. [assignment] is the result of [Assignment.findById] and
    [existingSubmission] whether [Submission.findOne] found a submission
    of the student for the assignment. An empty [submissionText] is
    falsy. *)
Definition createSubmission (now : Date) (student' : ObjectId)
    (body : CreateBody) (assignment : option AssignmentDoc)
    (existingSubmission : bool) : Reply * option NewSubmission :=
  match assignment with
  | None => (mkReply 404 "Assignment not found", None)
  | Some assignment =>
      if existingSubmission
      then (mkReply 400
              "Submission already exists. Use resubmit endpoint to update.",
            None)
      else if isQuizType (b_assignmentType body) then
        match b_answers body with
        | None =>
            (mkReply 400
               "Answers array is required for quiz/exam submissions", None)
        | Some answers =>
            let questionsMap :=
              buildQuestionDocsMap (ad_questions assignment) in
            let quizAnswers0 := omap (quizAnswerOf questionsMap) answers in
            if ad_autoGrade assignment then
              let gradingResult :=
                autoGradeQuiz (toAssignment assignment) answers in
              created now assignment
                (newDoc now student' body assignment "graded" None []
                   (Some {| g_points := Some (r_earnedPoints gradingResult);
                            g_percentage :=
                              Some (r_percentage gradingResult);
                            letterGrade := None;
                            gradedAt := Some now;
                            gradedBy := Some student' |}))
                (map (mergeGrading (r_gradedAnswers gradingResult))
                     quizAnswers0)
                (map rubricRowOf (r_gradedAnswers gradingResult))
            else
              created now assignment
                (newDoc now student' body assignment "submitted" None []
                        None)
                quizAnswers0 []
        end
      else
        let text :=
          match b_submissionText body with
          | Some t => if String.eqb t "" then None else Some t
          | None => None
          end in
        let atts :=
          match b_attachments body with
          | Some l => map (castAttachment now) l
          | None => []
          end in
        match text, atts with
        | None, [] =>
            (mkReply 400
               "Either submission text or attachments are required for this assignment type",
             None)
        | _, _ =>
            created now assignment
              (newDoc now student' body assignment "submitted" text atts
                      None)
              [] []
        end
  end.

(** ** The stored entries, stated on the data *)



End SubmissionDocs.

(* ===================================================================== *)
(** * Concrete courses, records and assignments used in the examples       *)
(* ===================================================================== *)

Module Fixtures.
Import JSNumber ProgressRoutes SubmissionRoutes.

(** A two-digit identifier for the [n]-th lecture. *)
Definition nat_id (n : nat) : string :=
  String (Ascii.ascii_of_nat (48 + n / 10))
         (String (Ascii.ascii_of_nat (48 + n mod 10)) EmptyString).

(** A module [id] with [n] lectures, named [id] followed by 00, 01, ... *)
Definition module_of (id : string) (n : nat) : CourseModule :=
  {| module_id := id;
     lectures := map (fun k => mkLecture (id +:+ nat_id k)) (seq 0 n) |}.

(** The progress entry of [module_of id n] with its first [done] lectures
    completed at time [at']. *)
Definition module_progress_of (id : string) (n done : nat) (at' : Z)
    : ModuleProgress :=
  {| moduleId := id;
     mp_completed := n <=? done;
     mp_completedAt := if n <=? done then Some at' else None;
     lecturesProgress :=
       map (fun k => {| lectureId := id +:+ nat_id k;
                        lp_completed := k <? done;
                        lp_completedAt := if k <? done then Some at' else None |})
           (seq 0 n) |}.

(** One module of 40 lectures, 23 of them completed. *)
Definition course40 : Course := {| modules := [module_of "m" 40] |}.

Definition progress_23_of_40 : Progress :=
  {| userId := "u"; courseId := "c";
     modulesProgress := [module_progress_of "m" 40 23 1];
     completedLecturesCount := 23;
     totalLecturesCount := 40;
     progressPercentage := Z2SF 57;
     completed := false;
     completedAt := None |}.

(** Two modules of 100 lectures each; the first module and 15 lectures of
    the second are completed. *)
Definition course200 : Course :=
  {| modules := [module_of "a" 100; module_of "b" 100] |}.

Definition progress_115_of_200 : Progress :=
  {| userId := "u"; courseId := "c";
     modulesProgress := [module_progress_of "a" 100 100 1;
                         module_progress_of "b" 100 15 1];
     completedLecturesCount := 115;
     totalLecturesCount := 200;
     progressPercentage := Z2SF 57;
     completed := false;
     completedAt := None |}.

(** Two modules of three lectures each (six lectures). *)
Definition course6 : Course :=
  {| modules := [module_of "a" 3; module_of "b" 3] |}.

(** Three of the six lectures completed. *)
Definition progress_3_of_6 : Progress :=
  {| userId := "u"; courseId := "c";
     modulesProgress := [module_progress_of "a" 3 1 1;
                         module_progress_of "b" 3 2 1];
     completedLecturesCount := 3;
     totalLecturesCount := 6;
     progressPercentage := Z2SF 50;
     completed := false;
     completedAt := None |}.

(** A course of one lecture and a record that is already complete, with
    its completion stamped at time 1. *)
Definition course1 : Course := {| modules := [module_of "m" 1] |}.

Definition progress_complete : Progress :=
  {| userId := "u"; courseId := "c";
     modulesProgress := [module_progress_of "m" 1 1 1];
     completedLecturesCount := 1;
     totalLecturesCount := 1;
     progressPercentage := Z2SF 100;
     completed := true;
     completedAt := Some 1%Z |}.

(** A record that still holds two completed entries of a course that has
    only one lecture left. *)
Definition progress_stale : Progress :=
  {| userId := "u"; courseId := "c";
     modulesProgress := [module_progress_of "m" 2 2 1];
     completedLecturesCount := 2;
     totalLecturesCount := 2;
     progressPercentage := Z2SF 100;
     completed := true;
     completedAt := Some 1%Z |}.

(** A record whose entry for module "a" holds only one of its three
    lectures. *)
Definition progress_partial : Progress :=
  {| userId := "u"; courseId := "c";
     modulesProgress :=
       [{| moduleId := "a"; mp_completed := false; mp_completedAt := None;
           lecturesProgress := [newLectureProgress "a00"] |}];
     completedLecturesCount := 0;
     totalLecturesCount := 6;
     progressPercentage := Z2SF 0;
     completed := false;
     completedAt := None |}.

(** An assignment out of 100 points: two multiple-choice questions worth one
    point each and a written question. *)
Definition quiz : Assignment :=
  {| totalPoints := Z2SF 100;
     questions :=
       [{| q_id := "q1"; q_type := multiple_choice;
           correctOption := Some (Z2SF 2); points := Some (Z2SF 1) |};
        {| q_id := "q2"; q_type := multiple_choice;
           correctOption := Some (Z2SF 0); points := Some (Z2SF 1) |};
        {| q_id := "q3"; q_type := written;
           correctOption := None; points := Some (Z2SF 5) |}] |}.

Definition right_q1 : StudentAnswer :=
  {| questionId := "q1"; answer := JsNumber (Z2SF 2) |}.
Definition wrong_q2 : StudentAnswer :=
  {| questionId := "q2"; answer := JsNumber (Z2SF 1) |}.
Definition essay_q3 : StudentAnswer :=
  {| questionId := "q3"; answer := JsString "an essay" |}.
Definition stray : StudentAnswer :=
  {| questionId := "q9"; answer := JsNumber (Z2SF 0) |}.

End Fixtures.

(* ===================================================================== *)
(** * Further concrete records                                             *)
(* ===================================================================== *)

Module MoreFixtures.
Import JSNumber ProgressRoutes SubmissionRoutes SubmissionDocs Fixtures.

(** All but one of the 200 lectures completed. *)
Definition progress_199_of_200 : Progress :=
  {| userId := "u"; courseId := "c";
     modulesProgress := [module_progress_of "a" 100 100 1;
                         module_progress_of "b" 100 99 1];
     completedLecturesCount := 199;
     totalLecturesCount := 200;
     progressPercentage := Z2SF 100;
     completed := false;
     completedAt := None |}.

(** A file as the request body names it. *)
Definition file_of (name : string) : Attachment :=
  {| att_originalName := Some name;
     att_filename := Some name;
     att_path := Some ("/uploads/" +:+ name);
     att_mimetype := Some "application/pdf";
     att_size := Some (Z2SF 1024);
     att_uploadDate := None |}.

(** A homework handed in on time at time 10 with two files, graded 85 %,
    with one badge. *)
Definition homework_doc : SubmissionDoc :=
  {| student := "s1";
     submissionText := Some "first version";
     attachments := [castAttachment 10 (file_of "a.pdf");
                     castAttachment 10 (file_of "b.pdf")];
     submittedAt := 10%Z;
     isLate := false;
     doc_status := "graded";
     resubmissionCount := 0;
     history := [];
     doc_grade := Some {| g_points := Some (Z2SF 85);
                          g_percentage := Some (Z2SF 85);
                          letterGrade := Some "B";
                          gradedAt := Some 12%Z;
                          gradedBy := Some "t1" |};
     achievements := [{| badgeId := "first-submission";
                         levelAchieved := Bronze;
                         earnedAt := 11%Z |}] |}.


(** The quiz of the examples as an assignment due at time 20, auto-graded. *)
Definition quiz_doc : AssignmentDoc :=
  {| ad_totalPoints := totalPoints quiz;
     ad_questions :=
       map (fun q => {| question := q;
                        expectedAnswer :=
                          if is_multiple_choice (q_type q) then None
                          else Some "an essay" |})
           (questions quiz);
     ad_info := {| dueDate := Some 20%Z; allowLateSubmission := true |};
     ad_autoGrade := true |}.



(** A homework body that states time 15 as its submission time. *)
Definition backdated_body : CreateBody :=
  {| b_assignmentType := Some "homework";
     b_answers := None;
     b_submissionText := Some "my homework";
     b_attachments := None;
     b_submittedAt := Some 15%Z |}.

End MoreFixtures.

(* ===================================================================== *)
(** * Facts about binary64 arithmetic                                      *)
(* ===================================================================== *)

Module NumberFacts.
Import JSNumber.
Local Open Scope Z_scope.

(* --------------------------------------------------------------------- *)
(** ** Bit lengths                                                         *)
(* --------------------------------------------------------------------- *)

Lemma digits2_pos_lower (p : positive) :
  2 ^ (Zpos (digits2_pos p) - 1) <= Zpos p.
Proof.
  induction p as [p IH | p IH |]; cbn [digits2_pos].
  - rewrite Pos2Z.inj_succ.
    replace (Z.succ (Zpos (digits2_pos p)) - 1)
      with (Z.succ (Zpos (digits2_pos p) - 1)) by lia.
    rewrite Z.pow_succ_r by lia. lia.
  - rewrite Pos2Z.inj_succ.
    replace (Z.succ (Zpos (digits2_pos p)) - 1)
      with (Z.succ (Zpos (digits2_pos p) - 1)) by lia.
    rewrite Z.pow_succ_r by lia. lia.
  - reflexivity.
Qed.

Lemma digits2_pos_upper (p : positive) :
  Zpos p < 2 ^ Zpos (digits2_pos p).
Proof.
  induction p as [p IH | p IH |]; cbn [digits2_pos].
  - rewrite Pos2Z.inj_succ, Z.pow_succ_r by lia. lia.
  - rewrite Pos2Z.inj_succ, Z.pow_succ_r by lia. lia.
  - reflexivity.
Qed.

Lemma Zdigits2_le (m k : Z) :
  0 <= m -> 0 <= k -> m < 2 ^ k -> Zdigits2 m <= k.
Proof.
  intros Hm Hk Hlt. destruct m as [| p | p]; cbn [Zdigits2]; [lia | | lia].
  pose proof (digits2_pos_lower p) as Hlo.
  destruct (Z_le_gt_dec (Zpos (digits2_pos p)) k) as [Hle | Hgt]; [exact Hle |].
  exfalso.
  assert (2 ^ k <= 2 ^ (Zpos (digits2_pos p) - 1))
    by (apply Z.pow_le_mono_r; lia).
  lia.
Qed.

Lemma iter_xO_mul (k : positive) (p : positive) :
  Zpos (Pos.iter xO p k) = Zpos p * 2 ^ Zpos k.
Proof.
  revert p. induction k as [| k IH] using Pos.peano_ind; intros p.
  - cbn. lia.
  - rewrite Pos.iter_succ, Pos2Z.inj_succ, Z.pow_succ_r by lia.
    rewrite Pos2Z.inj_xO, IH. lia.
Qed.

Lemma digits2_iter_xO (k p : positive) :
  Zpos (digits2_pos (Pos.iter xO p k)) = Zpos (digits2_pos p) + Zpos k.
Proof.
  induction k as [| k IH] using Pos.peano_ind.
  - cbn. lia.
  - rewrite Pos.iter_succ. cbn [digits2_pos]. lia.
Qed.

(* --------------------------------------------------------------------- *)
(** ** Right shifts: the truncated mantissa and what was lost              *)
(* --------------------------------------------------------------------- *)

Lemma shr_1_div (a : shr_record) :
  0 <= shr_m a -> shr_m (shr_1 a) = shr_m a / 2.
Proof.
  destruct a as [m r s]. cbn [shr_m]. intros Hm.
  destruct m as [| [p | p |] | p]; cbn [shr_1 shr_m].
  - reflexivity.
  - change (Zpos p~1) with (2 * Zpos p + 1).
    apply Z.div_unique_pos with (r := 1); lia.
  - change (Zpos p~0) with (2 * Zpos p).
    apply Z.div_unique_pos with (r := 0); lia.
  - reflexivity.
  - lia.
Qed.

(** One shift halves the bound: if [m + inexact <= 2 * B] before, then
    [m' + inexact' <= B] after. *)
Lemma shr_1_upper (a : shr_record) (B : Z) :
  0 <= shr_m a ->
  shr_m a + inexact_rec a <= 2 * B ->
  0 <= shr_m (shr_1 a) /\ shr_m (shr_1 a) + inexact_rec (shr_1 a) <= B.
Proof.
  destruct a as [m r s]. unfold inexact_rec. cbn [shr_m shr_r shr_s].
  intros Hm Hub.
  destruct m as [| [p | p |] | p]; cbn [shr_1 shr_m shr_r shr_s];
    try lia; destruct r, s; cbn [orb] in *; lia.
Qed.

Lemma pow2_xI (p : positive) : 2 ^ Zpos p~1 = 2 * (2 ^ Zpos p * 2 ^ Zpos p).
Proof. rewrite <- Z.pow_add_r, <- Z.pow_succ_r by lia. f_equal. lia. Qed.

Lemma pow2_xO (p : positive) : 2 ^ Zpos p~0 = 2 ^ Zpos p * 2 ^ Zpos p.
Proof. rewrite <- Z.pow_add_r by lia. f_equal. lia. Qed.

Lemma pow2_pos (k : Z) : 0 <= k -> 0 < 2 ^ k.
Proof. intros Hk. apply Z.pow_pos_nonneg; lia. Qed.

Lemma iter_shr_1_upper (p : positive) :
  forall (a : shr_record) (B : Z),
    0 <= shr_m a ->
    shr_m a + inexact_rec a <= B * 2 ^ Zpos p ->
    0 <= shr_m (SpecFloat.iter_pos shr_1 p a) /\
    shr_m (SpecFloat.iter_pos shr_1 p a)
      + inexact_rec (SpecFloat.iter_pos shr_1 p a) <= B.
Proof.
  induction p as [p IH | p IH |]; intros a B Hm Hub; cbn [SpecFloat.iter_pos].
  - rewrite pow2_xI in Hub.
    destruct (shr_1_upper a (B * 2 ^ Zpos p * 2 ^ Zpos p)) as [H0 H1];
      [exact Hm | lia |].
    destruct (IH _ (B * 2 ^ Zpos p) H0) as [H2 H3]; [lia |].
    apply IH; assumption.
  - rewrite pow2_xO in Hub.
    destruct (IH a (B * 2 ^ Zpos p) Hm) as [H2 H3]; [lia |].
    apply IH; assumption.
  - apply shr_1_upper; [exact Hm |]. rewrite Z.pow_1_r in Hub. lia.
Qed.

Lemma iter_shr_1_div (p : positive) :
  forall a : shr_record,
    0 <= shr_m a ->
    shr_m (SpecFloat.iter_pos shr_1 p a) = shr_m a / 2 ^ Zpos p.
Proof.
  induction p as [p IH | p IH |]; intros a Hm; cbn [SpecFloat.iter_pos].
  - pose proof (pow2_pos (Zpos p) ltac:(lia)) as Hp.
    assert (H1 : 0 <= shr_m (shr_1 a))
      by (rewrite shr_1_div by exact Hm; apply Z.div_pos; lia).
    assert (H2 : 0 <= shr_m (SpecFloat.iter_pos shr_1 p (shr_1 a)))
      by (rewrite IH by exact H1; apply Z.div_pos; lia).
    rewrite IH, IH, shr_1_div by assumption.
    rewrite !Z.div_div by lia. rewrite pow2_xI. f_equal; lia.
  - pose proof (pow2_pos (Zpos p) ltac:(lia)) as Hp.
    assert (H2 : 0 <= shr_m (SpecFloat.iter_pos shr_1 p a))
      by (rewrite IH by exact Hm; apply Z.div_pos; lia).
    rewrite IH, IH by assumption.
    rewrite Z.div_div by lia. rewrite pow2_xO. reflexivity.
  - rewrite Z.pow_1_r. apply shr_1_div, Hm.
Qed.

Lemma fexp_le_cap (d cap : Z) :
  -1074 <= cap -> d <= cap + 53 -> fexp prec emax d <= cap.
Proof. unfold fexp, emin, prec, emax. lia. Qed.

(** [shr_fexp] brings a mantissa on the grid of the format. For a value
    bounded by [B <= 2^(cap + 52)] the exponent stays at most [cap]; the
    mantissa is shifted by some [n], truncated, and together with the
    record of the lost bits it does not exceed any grid point above the
    value. *)
Lemma shr_fexp_bounds (m e : Z) (l : location) (B cap : Z) :
  0 <= m -> -1074 <= cap < 0 -> e <= cap -> 0 < B <= 2 ^ (cap + 52) ->
  m + inexact_loc l <= B * 2 ^ (- e) ->
  exists (n : Z),
    0 <= n /\ e + n <= cap /\
    snd (shr_fexp prec emax m e l) = e + n /\
    shr_m (fst (shr_fexp prec emax m e l)) = m / 2 ^ n /\
    forall B', m + inexact_loc l <= B' * 2 ^ n ->
               shr_m (fst (shr_fexp prec emax m e l))
               + inexact_rec (fst (shr_fexp prec emax m e l)) <= B'.
Proof.
  intros Hm Hcap He HB Hub. unfold shr_fexp.
  assert (Hrec : shr_m (shr_record_of_loc m l) = m /\
                 inexact_rec (shr_record_of_loc m l) = inexact_loc l).
  { destruct l as [| []]; split; reflexivity. }
  destruct Hrec as [Hrm Hri].
  assert (Hc52 : 0 <= cap + 52).
  { destruct (Z_lt_le_dec (cap + 52) 0) as [Hneg | Hok]; [| exact Hok].
    rewrite Z.pow_neg_r in HB by exact Hneg. lia. }
  assert (Hd : Zdigits2 m + e <= cap + 53).
  { assert (Zdigits2 m <= cap + 53 - e); [| lia].
    apply Zdigits2_le; [lia | lia |].
    pose proof (pow2_pos (- e) ltac:(lia)) as Hpe.
    assert (inexact_loc l >= 0) by (destruct l; cbn; lia).
    replace (cap + 53 - e) with (1 + (cap + 52) + - e) by lia.
    rewrite !Z.pow_add_r, Z.pow_1_r by lia.
    pose proof (pow2_pos (cap + 52) ltac:(lia)) as Hpc.
    assert (B * 2 ^ (- e) <= 2 ^ (cap + 52) * 2 ^ (- e)) by nia.
    nia. }
  pose proof (fexp_le_cap _ cap ltac:(lia) Hd) as Hf.
  unfold shr.
  destruct (fexp prec emax (Zdigits2 m + e) - e) as [| n | n] eqn:En.
  - exists 0. cbn [fst snd]. rewrite Hrm, Hri, Z.pow_0_r, Z.div_1_r.
    split; [lia |]. split; [lia |]. split; [lia |]. split; [reflexivity |].
    intros B' HB'. lia.
  - exists (Zpos n). cbn [fst snd].
    split; [lia |]. split; [lia |]. split; [reflexivity |].
    split; [rewrite iter_shr_1_div, Hrm by (rewrite Hrm; exact Hm);
            reflexivity |].
    intros B' HB'.
    apply iter_shr_1_upper; rewrite Hrm, ?Hri; assumption.
  - exists 0. cbn [fst snd]. rewrite Hrm, Hri, Z.pow_0_r, Z.div_1_r.
    split; [lia |]. split; [lia |]. split; [lia |]. split; [reflexivity |].
    intros B' HB'. lia.
Qed.

Lemma round_nearest_even_bounds (b : shr_record) :
  0 <= shr_m b ->
  shr_m b <= round_nearest_even (shr_m b) (loc_of_shr_record b)
          <= shr_m b + inexact_rec b.
Proof.
  destruct b as [m r s]. unfold inexact_rec. cbn [shr_m shr_r shr_s].
  intros Hm. destruct r, s; cbn [loc_of_shr_record round_nearest_even orb];
    try destruct (Z.even m); lia.
Qed.

(** [repr m e] is the double [m * 2^e] for a mantissa [m >= 0]. *)
Lemma binary_round_aux_bounds (mx ex : Z) (lx : location) (B cap : Z) :
  0 <= mx -> -1074 <= cap < 0 -> ex <= cap -> 0 < B <= 2 ^ (cap + 52) ->
  mx + inexact_loc lx <= B * 2 ^ (- ex) ->
  exists (n m : Z),
    0 <= n /\ ex + n <= cap /\ 0 <= m /\
    mx / 2 ^ n <= m /\
    (forall B', mx + inexact_loc lx <= B' * 2 ^ n -> m <= B') /\
    binary_round_aux prec emax false mx ex lx = repr m (ex + n).
Proof.
  intros Hm Hcap He HB Hub. unfold binary_round_aux.
  destruct (shr_fexp_bounds mx ex lx B cap Hm Hcap He HB Hub)
    as (n1 & Hn1 & He1 & Hs1 & Hd1 & Hu1).
  destruct (shr_fexp prec emax mx ex lx) as [b1 e1]. cbn [fst snd] in *.
  subst e1.
  pose proof (pow2_pos n1 Hn1) as Hp1.
  assert (Hb1 : 0 <= shr_m b1) by (rewrite Hd1; apply Z.div_pos; lia).
  pose proof (round_nearest_even_bounds b1 Hb1) as [Hr0 Hr1].
  set (m2 := round_nearest_even (shr_m b1) (loc_of_shr_record b1)) in *.
  assert (Hub2 : m2 + inexact_loc loc_Exact <= B * 2 ^ (- (ex + n1))).
  { cbn [inexact_loc]. rewrite Z.add_0_r.
    apply Z.le_trans with (shr_m b1 + inexact_rec b1); [exact Hr1 |].
    apply Hu1. rewrite <- Z.mul_assoc, <- Z.pow_add_r by lia.
    replace (- (ex + n1) + n1) with (- ex) by lia. exact Hub. }
  destruct (shr_fexp_bounds m2 (ex + n1) loc_Exact B cap ltac:(lia) Hcap He1
              HB Hub2) as (n2 & Hn2 & He2 & Hs2 & Hd2 & Hu2).
  destruct (shr_fexp prec emax m2 (ex + n1) loc_Exact) as [b3 e3].
  cbn [fst snd] in *. subst e3.
  pose proof (pow2_pos n2 Hn2) as Hp2.
  assert (Hb3 : 0 <= shr_m b3) by (rewrite Hd2; apply Z.div_pos; lia).
  assert (Hi3 : 0 <= inexact_rec b3)
    by (unfold inexact_rec; destruct (shr_r b3 || shr_s b3); lia).
  exists (n1 + n2), (shr_m b3).
  split; [lia |]. split; [lia |]. split; [exact Hb3 |].
  rewrite Z.pow_add_r by lia.
  split; [| split].
  - rewrite Hd2, <- Z.div_div by lia. apply Z.div_le_mono; [lia |].
    rewrite <- Hd1. exact Hr0.
  - intros B' HB'.
    assert (shr_m b3 + inexact_rec b3 <= B'); [| lia].
    apply Hu2. cbn [inexact_loc]. rewrite Z.add_0_r.
    apply Z.le_trans with (shr_m b1 + inexact_rec b1); [exact Hr1 |].
    apply Hu1. lia.
  - replace (ex + (n1 + n2)) with (ex + n1 + n2) by lia.
    destruct (shr_m b3) as [| m | m] eqn:Em; [reflexivity | | lia].
    replace (ex + n1 + n2 <=? emax - prec) with true
      by (symmetry; apply Z.leb_le; unfold emax, prec; lia).
    reflexivity.
Qed.

(* --------------------------------------------------------------------- *)
(** ** Integers are exact                                                  *)
(* --------------------------------------------------------------------- *)

(** A mantissa of 53 bits with an exponent in range is left as it is. *)
Lemma binary_round_aux_canonical (s : bool) (m : positive) (e : Z) :
  Zpos (digits2_pos m) = 53 -> -1074 <= e <= 971 ->
  binary_round_aux prec emax s (Zpos m) e loc_Exact = S754_finite s m e.
Proof.
  intros Hd He.
  assert (Hs : shr_fexp prec emax (Zpos m) e loc_Exact
               = (Build_shr_record (Zpos m) false false, e)).
  { unfold shr_fexp. cbn [Zdigits2 shr_record_of_loc]. rewrite Hd.
    replace (fexp prec emax (53 + e) - e) with 0
      by (unfold fexp, emin, prec, emax; lia).
    reflexivity. }
  unfold binary_round_aux. rewrite Hs.
  cbn [shr_m loc_of_shr_record round_nearest_even]. rewrite Hs.
  cbn [shr_m].
  replace (e <=? emax - prec) with true
    by (symmetry; apply Z.leb_le; unfold emax, prec; lia).
  reflexivity.
Qed.

(** The double of a positive integer below 2^53: a 53-bit mantissa [m] and
    an exponent [e] in [-52, 0] with [m = n * 2^(-e)]. *)
Lemma Z2SF_pos (n : Z) :
  0 < n < 2 ^ 53 ->
  exists (m : positive) (e : Z),
    Z2SF n = S754_finite false m e /\
    Zpos (digits2_pos m) = 53 /\ -52 <= e <= 0 /\ Zpos m = n * 2 ^ (- e).
Proof.
  intros [Hn0 Hn]. destruct n as [| p | p]; try lia.
  unfold Z2SF. cbn [binary_normalize]. unfold binary_round.
  assert (Hd : 1 <= Zpos (digits2_pos p) <= 53).
  { split; [lia |].
    exact (Zdigits2_le (Zpos p) 53 ltac:(lia) ltac:(lia) Hn). }
  replace (fexp prec emax (Zpos (digits2_pos p) + 0))
    with (Zpos (digits2_pos p) - 53)
    by (unfold fexp, emin, prec, emax; lia).
  unfold shl_align.
  destruct (Zpos (digits2_pos p) - 53 - 0) as [| k | k] eqn:Ek; try lia.
  - exists p, 0. split; [| split; [lia | split; [lia |]]].
    + replace (Zpos (digits2_pos p) - 53) with 0 by lia.
      apply binary_round_aux_canonical; lia.
    + cbn. lia.
  - exists (Pos.iter xO p k), (Zpos (digits2_pos p) - 53).
    split; [| split; [| split; [lia |]]].
    + apply binary_round_aux_canonical; [| lia].
      rewrite digits2_iter_xO. lia.
    + rewrite digits2_iter_xO. lia.
    + rewrite iter_xO_mul. f_equal. f_equal. lia.
Qed.

Lemma Z2SF_0 : Z2SF 0 = S754_zero false.
Proof. reflexivity. Qed.

(* --------------------------------------------------------------------- *)
(** ** The ratio of two counters and its percentage                        *)
(* --------------------------------------------------------------------- *)

Lemma new_location_inexact (n r : Z) :
  inexact_loc (new_location n r) = if r =? 0 then 0 else 1.
Proof.
  unfold new_location, new_location_even, new_location_odd.
  destruct (Z.even n), (r =? 0); reflexivity.
Qed.

(** [c / t] for integer counters [0 < c <= t < 2^53]: a double [m * 2^e]
    with [e <= -52], at most 1, within [2^e] of the quotient. *)
Lemma div_counters_bounds (c t : Z) :
  0 < c <= t -> t < 2 ^ 53 ->
  exists (m e : Z),
    div (Z2SF c) (Z2SF t) = repr m e /\
    e <= -52 /\ 0 <= m <= 2 ^ (- e) /\
    (m - 1) * t <= c * 2 ^ (- e) <= (m + 1) * t.
Proof.
  intros [Hc Hct] Ht.
  destruct (Z2SF_pos c ltac:(lia)) as (mc & ec & -> & Hdc & Hec & Hmc).
  destruct (Z2SF_pos t ltac:(lia)) as (mt & et & -> & Hdt & Het & Hmt).
  (* the smaller counter has the smaller exponent *)
  assert (Hecet : ec <= et).
  { destruct (Z_le_gt_dec ec et) as [Hle | Hgt]; [exact Hle | exfalso].
    pose proof (digits2_pos_lower mc) as Hlo.
    pose proof (digits2_pos_upper mt) as Hhi.
    rewrite Hdc in Hlo. rewrite Hdt in Hhi.
    change (2 ^ (53 - 1)) with 4503599627370496 in Hlo.
    change (2 ^ 53) with 9007199254740992 in Hhi.
    assert (Hsplit : 2 ^ (- et) = 2 ^ (- ec) * 2 ^ (ec - et)).
    { rewrite <- Z.pow_add_r by lia. f_equal. lia. }
    assert (Hge2 : 2 ^ 1 <= 2 ^ (ec - et)) by (apply Z.pow_le_mono_r; lia).
    rewrite Z.pow_1_r in Hge2.
    pose proof (pow2_pos (- ec) ltac:(lia)) as Hpc.
    rewrite Hmt, Hsplit in Hhi. rewrite Hmc in Hlo. nia. }
  unfold div. cbn [SFdiv xorb]. unfold SFdiv_core_binary.
  cbn [Zdigits2]. rewrite Hdc, Hdt.
  replace (Z.min (fexp prec emax (53 + ec - (53 + et))) (ec - et))
    with (ec - et - 53) by (unfold fexp, emin, prec, emax; lia).
  replace (ec - et - (ec - et - 53)) with 53 by lia.
  cbv iota. rewrite Z.shiftl_mul_pow2 by lia.
  pose proof (Z_div_mod (Zpos mc * 2 ^ 53) (Zpos mt) ltac:(lia)) as Hdm.
  destruct (Z.div_eucl (Zpos mc * 2 ^ 53) (Zpos mt)) as [q r].
  destruct Hdm as [Hq Hr].
  set (e' := ec - et - 53) in *.
  set (G := 2 ^ (- et)) in *.
  set (K := 2 ^ (- ec + 53)) in *.
  pose proof (pow2_pos (- et) ltac:(lia)) as HG. fold G in HG.
  pose proof (pow2_pos (- ec + 53) ltac:(lia)) as HK. fold K in HK.
  assert (HKG : K = 2 ^ (- e') * G).
  { unfold K, G, e'. rewrite <- Z.pow_add_r by lia. f_equal. lia. }
  assert (Hm' : Zpos mc * 2 ^ 53 = c * K).
  { rewrite Hmc. unfold K. rewrite Z.pow_add_r by lia. ring. }
  pose proof (pow2_pos (- e') ltac:(unfold e'; lia)) as HE.
  (* c * 2^(-e') = t * (q + r / mt) *)
  assert (Hkey : c * 2 ^ (- e') * G = t * G * q + r).
  { rewrite <- Hmt, <- Hq, Hm', HKG. ring. }
  assert (Hq0 : 0 <= q) by nia.
  assert (Hub : q + inexact_loc (new_location (Zpos mt) r) <= 1 * 2 ^ (- e')).
  { rewrite new_location_inexact. rewrite Hmt in Hr.
    destruct (Z.eqb_spec r 0); nia. }
  destruct (binary_round_aux_bounds q e' (new_location (Zpos mt) r) 1 (-52)
              Hq0 ltac:(lia) ltac:(unfold e'; lia) ltac:(cbn; lia) Hub)
    as (n & m & Hn & Hen & Hm0 & Hlo & Hup & ->).
  pose proof (pow2_pos n Hn) as Hpn.
  assert (HEn : 2 ^ (- e') = 2 ^ (- (e' + n)) * 2 ^ n).
  { rewrite <- Z.pow_add_r by lia. f_equal. lia. }
  pose proof (pow2_pos (- (e' + n)) ltac:(lia)) as HF.
  set (F := 2 ^ (- (e' + n))) in *.
  exists m, (e' + n). split; [reflexivity |]. split; [exact Hen |].
  assert (Hm1 : m <= F).
  { apply Hup. rewrite <- HEn. lia. }
  split; [lia |].
  (* the truncation is below the quotient, the result at most one above *)
  pose proof (Z.mul_div_le q (2 ^ n) Hpn) as Hfloor.
  pose proof (Z.mul_succ_div_gt q (2 ^ n) Hpn) as Hceil.
  assert (Hm2 : (m - 1) * 2 ^ n <= q).
  { assert (m <= q / 2 ^ n + 1); [| nia].
    apply Hup. rewrite new_location_inexact. destruct (r =? 0); nia. }
  assert (Hm3 : q + 1 <= (m + 1) * 2 ^ n) by nia.
  rewrite Hmt in Hr. rewrite HEn in Hkey.
  split.
  - (* (m - 1) * t <= c * F *)
    assert ((m - 1) * t * (2 ^ n * G) <= c * F * (2 ^ n * G)); [nia |].
    apply (Z.mul_le_mono_pos_r _ _ (2 ^ n * G)); [nia | assumption].
  - assert (c * F * (2 ^ n * G) <= (m + 1) * t * (2 ^ n * G)); [nia |].
    apply (Z.mul_le_mono_pos_r _ _ (2 ^ n * G)); [nia | assumption].
Qed.

Lemma Z2SF_100 : Z2SF 100 = S754_finite false 7036874417766400 (-46).
Proof. reflexivity. Qed.

(** [x * 100] for a ratio [x = m * 2^e] of at most 1: a double [m' * 2^e']
    with [e' <= -45], at most 100, within [2^e'] of the product. *)
Lemma mul_100_bounds (m e : Z) :
  0 <= m <= 2 ^ (- e) -> e <= -52 ->
  exists (m' e' : Z),
    mul (repr m e) (Z2SF 100) = repr m' e' /\
    e' <= -45 /\ 0 <= m' <= 100 * 2 ^ (- e') /\
    (m' - 1) * 2 ^ (- e) <= 100 * m * 2 ^ (- e') <= (m' + 1) * 2 ^ (- e).
Proof.
  intros [Hm0 Hm1] He. rewrite Z2SF_100.
  pose proof (pow2_pos (- e) ltac:(lia)) as HE.
  destruct m as [| p | p]; [| | lia].
  - exists 0, (-45). split; [reflexivity |]. cbn. lia.
  - cbn [repr]. unfold mul. cbn [SFmul xorb].
    assert (Hub : Zpos (p * 7036874417766400) + inexact_loc loc_Exact
                  <= 100 * 2 ^ (- (e + -46))).
    { cbn [inexact_loc]. replace (- (e + -46)) with (46 + - e) by lia.
      rewrite Z.pow_add_r by lia. change (2 ^ 46) with 70368744177664.
      rewrite Pos2Z.inj_mul. nia. }
    destruct (binary_round_aux_bounds (Zpos (p * 7036874417766400))
                (e + -46) loc_Exact 100 (-45) ltac:(lia) ltac:(lia)
                ltac:(lia) ltac:(cbn; lia) Hub)
      as (n & m' & Hn & Hen & Hm0' & Hlo & Hup & ->).
    cbn [inexact_loc] in Hup. rewrite Pos2Z.inj_mul in Hlo, Hup.
    pose proof (pow2_pos n Hn) as Hpn.
    pose proof (pow2_pos (- (e + -46 + n)) ltac:(lia)) as HF.
    set (F := 2 ^ (- (e + -46 + n))) in *.
    set (X := Zpos p * 7036874417766400) in *.
    assert (HEF : 2 ^ (- e) * 70368744177664 = F * 2 ^ n).
    { unfold F. change 70368744177664 with (2 ^ 46).
      rewrite <- !Z.pow_add_r by lia. f_equal. lia. }
    exists m', (e + -46 + n). split; [reflexivity |]. split; [exact Hen |].
    pose proof (Z.mul_div_le X (2 ^ n) Hpn) as Hfloor.
    pose proof (Z.mul_succ_div_gt X (2 ^ n) Hpn) as Hceil.
    assert (Hu1 : m' <= 100 * F).
    { apply Hup. unfold X. nia. }
    assert (Hu2 : (m' - 1) * 2 ^ n <= X).
    { assert (m' <= X / 2 ^ n + 1); [| nia]. apply Hup. nia. }
    assert (Hl2 : X + 1 <= (m' + 1) * 2 ^ n) by nia.
    split; [lia |]. split.
    + assert ((m' - 1) * 2 ^ (- e) * 70368744177664
              <= 100 * Zpos p * F * 70368744177664); [| lia].
      rewrite <- Z.mul_assoc, HEF. unfold X in Hu2. nia.
    + assert (100 * Zpos p * F * 70368744177664
              <= (m' + 1) * 2 ^ (- e) * 70368744177664); [| lia].
      rewrite <- (Z.mul_assoc (m' + 1)), HEF. unfold X in Hl2. nia.
Qed.

(** [Math.round] of a non-negative double with a negative exponent. *)
Lemma Math_round_repr (m e : Z) :
  0 <= m -> e < 0 ->
  Math_round (repr m e) = Z2SF ((2 * m + 2 ^ (- e)) / (2 * 2 ^ (- e))).
Proof.
  intros Hm He. pose proof (pow2_pos (- e) ltac:(lia)) as HE.
  destruct m as [| p | p]; [| | lia].
  - cbn [repr Math_round]. rewrite Z.mul_0_r, Z.add_0_l.
    rewrite Z.div_small by lia. reflexivity.
  - cbn [repr Math_round]. destruct (Z.leb_spec 0 e); [lia |].
    unfold round_half_up. cbn [cond_Zopp].
    replace (2 ^ (1 - e)) with (2 * 2 ^ (- e))
      by (replace (1 - e) with (1 + - e) by lia;
          rewrite Z.pow_add_r by lia; reflexivity).
    destruct (Z.eqb_spec ((2 * Zpos p + 2 ^ (- e)) / (2 * 2 ^ (- e))) 0)
      as [-> | _]; reflexivity.
Qed.

(** The arithmetic behind the percentage: a double [P = mp / EP] within
    [1 / EP] of [100 * D], for a double [D = md / ED] within [1 / ED] of
    [c / t], rounds like [100 * c / t] does, except that at a half it may
    round down. *)
Lemma round_percent_close (c t md ED mp EP : Z) :
  0 <= c -> 0 < t < 2 ^ 32 ->
  2 ^ 52 <= ED -> 2 ^ 45 <= EP ->
  (md - 1) * t <= c * ED <= (md + 1) * t ->
  (mp - 1) * ED <= 100 * md * EP <= (mp + 1) * ED ->
  let n := (2 * mp + EP) / (2 * EP) in
  let R := round_percent_exact c t in
  R - 1 <= n <= R /\
  (if (2 * (100 * c) + t) mod (2 * t) =? 0 then True else n = R).
Proof.
  intros Hc Ht HED HEP [HD1 HD2] [HP1 HP2]. cbn zeta.
  unfold round_percent_exact.
  set (A := 2 * (100 * c) + t).
  set (n := (2 * mp + EP) / (2 * EP)).
  set (R := A / (2 * t)).
  assert (HED' : 0 < ED) by lia. assert (HEP' : 0 < EP) by lia.
  pose proof (Z.mul_div_le (2 * mp + EP) (2 * EP) ltac:(lia)) as Hn1.
  pose proof (Z.mul_succ_div_gt (2 * mp + EP) (2 * EP) ltac:(lia)) as Hn2.
  fold n in Hn1, Hn2.
  pose proof (Z.mul_div_le A (2 * t) ltac:(lia)) as HR1.
  pose proof (Z.mul_succ_div_gt A (2 * t) ltac:(lia)) as HR2.
  fold R in HR1, HR2.
  (* the margin: the two rounding errors are far below 1 / (2 t) *)
  assert (Hmargin : 200 * t * EP + 2 * t * ED < EP * ED).
  { assert (200 * t * 2 < ED) by lia.
    assert (2 * t * 2 < EP) by lia. nia. }
  (* P <= x + eps and P >= x - eps, multiplied out *)
  assert (Hup : mp * t * ED <= 100 * c * ED * EP + 100 * t * EP + t * ED).
  { assert (mp * ED <= 100 * md * EP + ED) by lia.
    assert (md * t <= c * ED + t) by lia. nia. }
  assert (Hlo : 100 * c * ED * EP <= mp * t * ED + 100 * t * EP + t * ED).
  { assert (100 * md * EP <= mp * ED + ED) by lia.
    assert (c * ED <= md * t + t) by lia. nia. }
  assert (Hle : n <= R).
  { apply Z.div_le_lower_bound; [lia |].
    assert (2 * t * n * (EP * ED) < (A + 1) * (EP * ED)); [| nia].
    assert (2 * EP * n * (t * ED) <= (2 * mp + EP) * (t * ED)) by nia.
    unfold A. nia. }
  assert (Hge : forall k, 2 * t * k <= A - (if A mod (2 * t) =? 0 then 0 else 1)
                          -> k <= n + (if A mod (2 * t) =? 0 then 1 else 0)).
  { intros k Hk.
    destruct (Z_le_gt_dec k (n + (if A mod (2 * t) =? 0 then 1 else 0)))
      as [Hok | Hbad]; [exact Hok | exfalso].
    assert ((2 * mp + EP) * (t * ED) < 2 * EP * (n + 1) * (t * ED)) by nia.
    destruct (A mod (2 * t) =? 0).
    - assert (2 * t * (n + 2) <= A) by nia. unfold A in *. nia.
    - assert (2 * t * (n + 1) <= A - 1) by nia. unfold A in *. nia. }
  specialize (Hge R).
  destruct (Z.eqb_spec (A mod (2 * t)) 0) as [Hhalf | Hnot].
  - split; [| exact I]. split; [| exact Hle].
    assert (R <= n + 1); [| lia]. apply Hge. lia.
  - assert (HRlt : 2 * t * R <= A - 1).
    { pose proof (Z.div_mod A (2 * t) ltac:(lia)) as Hdm. fold R in Hdm.
      pose proof (Z.mod_pos_bound A (2 * t) ltac:(lia)). lia. }
    specialize (Hge HRlt). split; lia.
Qed.

End NumberFacts.
(* ===================================================================== *)
(** * More facts about JavaScript numbers                                  *)
(* ===================================================================== *)

Module NumberMoreFacts.
Import JSNumber NumberFacts.
Local Open Scope Z_scope.

(** [x / x] is exactly 1 for every finite non-zero double. *)
Lemma div_self (s : bool) (m : positive) (e : Z) :
  div (S754_finite s m e) (S754_finite s m e) = Z2SF 1.
Proof.
  unfold div. cbn [SFdiv]. unfold SFdiv_core_binary.
  replace (Zdigits2 (Zpos m) + e - (Zdigits2 (Zpos m) + e)) with 0 by lia.
  replace (e - e) with 0 by lia.
  change (Z.min (fexp prec emax 0) 0) with (-53).
  change (0 - -53) with 53. cbv iota.
  rewrite Z.shiftl_mul_pow2 by lia.
  assert (Hq : fst (Z.div_eucl (Zpos m * 2 ^ 53) (Zpos m)) = 2 ^ 53).
  { change (Zpos m * 2 ^ 53 / Zpos m = 2 ^ 53).
    rewrite Z.mul_comm. apply Z.div_mul. lia. }
  assert (Hr : snd (Z.div_eucl (Zpos m * 2 ^ 53) (Zpos m)) = 0).
  { change ((Zpos m * 2 ^ 53) mod Zpos m = 0).
    rewrite Z.mul_comm. apply Z.mod_mul. lia. }
  destruct (Z.div_eucl (Zpos m * 2 ^ 53) (Zpos m)) as [q r].
  cbn [fst snd] in Hq, Hr. subst q r.
  assert (Hloc : new_location (Zpos m) 0 = loc_Exact).
  { unfold new_location, new_location_even, new_location_odd.
    destruct (Z.even (Zpos m)); reflexivity. }
  rewrite Hloc.
  destruct s; reflexivity.
Qed.

Lemma div_zero_finite (s : bool) (m : positive) (e : Z) :
  div (Z2SF 0) (S754_finite s m e) = S754_zero s.
Proof. destruct s; reflexivity. Qed.

Lemma gt_finite_zero (m : positive) (e : Z) :
  gt (S754_finite false m e) (Z2SF 0) = true.
Proof. reflexivity. Qed.

(** [>=] composes above a positive finite double. *)
Lemma ge_trans_finite (mx : positive) (ex : Z) (y z : Number) :
  ge y (S754_finite false mx ex) = true -> ge z y = true ->
  ge z (S754_finite false mx ex) = true.
Proof.
  unfold ge, SFleb.
  destruct y as [sy | sy | | sy my ey]; cbn [SFcompare];
    try discriminate.
  - destruct sy; [discriminate |]. intros _.
    destruct z as [sz | sz | | sz mz ez]; cbn [SFcompare];
      try discriminate.
    destruct sz; [discriminate | reflexivity].
  - destruct sy; [discriminate |]. intros Hxy.
    destruct z as [sz | sz | | sz mz ez]; cbn [SFcompare];
      try discriminate.
    + destruct sz; [discriminate | reflexivity].
    + destruct sz; [discriminate |].
      fold (Pos.compare mx my) in Hxy. fold (Pos.compare my mz).
      fold (Pos.compare mx mz).
      destruct (Z.compare_spec ex ey) as [Hxe | Hxe | Hxe];
        destruct (Z.compare_spec ey ez) as [Hye | Hye | Hye];
        try discriminate;
        destruct (Z.compare_spec ex ez) as [Hze | Hze | Hze];
        try lia; try reflexivity.
      destruct (Pos.compare_spec mx my); try discriminate;
        destruct (Pos.compare_spec my mz); try discriminate;
        destruct (Pos.compare_spec mx mz); try lia; reflexivity.
Qed.

End NumberMoreFacts.

(* ===================================================================== *)
(** * Facts about the progress router                                      *)
(* ===================================================================== *)

Module ProgressFacts.
Import JSNumber NumberFacts ProgressRoutes Fixtures.

(* --------------------------------------------------------------------- *)
(** ** The counters, stated on the data                                    *)
(* --------------------------------------------------------------------- *)

Lemma fold_total_lectures (l : list CourseModule) (acc : nat) :
  fold_left (fun totalLectures module => totalLectures + length (lectures module))
            l acc
  = acc + sum_list (map (fun m => length (lectures m)) l).
Proof.
  revert acc. induction l as [| m l IH]; intros acc; cbn [fold_left map sum_list].
  - lia.
  - rewrite IH. cbn. lia.
Qed.

Lemma countTotalLectures_spec (course : Course) :
  countTotalLectures course = total_lectures course.
Proof. unfold countTotalLectures. rewrite fold_total_lectures. reflexivity. Qed.

Lemma fold_completed_inner (l : list LectureProgress) (acc : nat) :
  fold_left (fun completedLectures lectureProgress =>
               if lp_completed lectureProgress
               then S completedLectures else completedLectures) l acc
  = acc + length (List.filter lp_completed l).
Proof.
  revert acc. induction l as [| lp l IH]; intros acc; cbn [fold_left List.filter].
  - cbn. lia.
  - rewrite IH. destruct (lp_completed lp); cbn [length]; lia.
Qed.

Lemma fold_completed_outer (mods : list ModuleProgress) (acc : nat) :
  fold_left
    (fun completedLectures moduleProgress =>
       fold_left
         (fun completedLectures lectureProgress =>
            if lp_completed lectureProgress
            then S completedLectures else completedLectures)
         (lecturesProgress moduleProgress) completedLectures)
    mods acc
  = acc + completed_entries mods.
Proof.
  unfold completed_entries, lecture_entries.
  revert acc. induction mods as [| mp mods IH]; intros acc;
    cbn [fold_left flat_map].
  - cbn. lia.
  - rewrite IH, fold_completed_inner, List.filter_app, length_app. lia.
Qed.

Lemma countCompletedLectures_spec (mods : list ModuleProgress) :
  countCompletedLectures mods = completed_entries mods.
Proof. unfold countCompletedLectures. rewrite fold_completed_outer. lia. Qed.

(* --------------------------------------------------------------------- *)
(** ** Range of the percentage                                            *)
(* --------------------------------------------------------------------- *)

(** The percentage of [c] completed lectures out of [t], for [c <= t] and
    fewer than 2^32 lectures: an integer between 0 and 100, equal to the
    exact rounding of [100 * c / t] unless that value lies exactly halfway
    between two integers, where it is the exact rounding or one less. *)
Lemma percentageOf_close (c t : nat) :
  c <= t -> (Z.of_nat t < 2 ^ 32)%Z ->
  exists n : Z,
    percentageOf c t = Z2SF n /\
    (0 <= n <= 100)%Z /\
    (round_percent_exact (Z.of_nat c) (Z.of_nat t) - 1 <= n
       <= round_percent_exact (Z.of_nat c) (Z.of_nat t))%Z /\
    (if ((2 * (100 * Z.of_nat c) + Z.of_nat t) mod (2 * Z.of_nat t) =? 0)%Z
     then True
     else n = round_percent_exact (Z.of_nat c) (Z.of_nat t)).
Proof.
  intros Hct Ht. unfold percentageOf.
  destruct (Nat.ltb_spec 0 t) as [Hpos | Hz].
  - destruct (Nat.eq_dec c 0) as [-> | Hc].
    + exists 0%Z.
      assert (HR : round_percent_exact (Z.of_nat 0) (Z.of_nat t) = 0%Z).
      { unfold round_percent_exact. apply Z.div_small. lia. }
      rewrite HR. split; [| split; [lia | split; [lia |]]].
      * destruct (Z2SF_pos (Z.of_nat t) ltac:(lia)) as (m & e & -> & _).
        reflexivity.
      * destruct (Z.eqb_spec ((2 * (100 * Z.of_nat 0) + Z.of_nat t)
                                mod (2 * Z.of_nat t)) 0);
          [exact I | reflexivity].
    + destruct (div_counters_bounds (Z.of_nat c) (Z.of_nat t)
                  ltac:(lia) ltac:(lia)) as (m & e & -> & He & Hm & Hd).
      destruct (mul_100_bounds m e Hm He) as (m' & e' & -> & He' & Hm' & Hp).
      rewrite Math_round_repr by lia.
      assert (HED : (2 ^ 52 <= 2 ^ (- e))%Z) by (apply Z.pow_le_mono_r; lia).
      assert (HEP : (2 ^ 45 <= 2 ^ (- e'))%Z) by (apply Z.pow_le_mono_r; lia).
      pose proof (round_percent_close (Z.of_nat c) (Z.of_nat t) m (2 ^ (- e))
                    m' (2 ^ (- e')) ltac:(lia) ltac:(lia) HED HEP Hd Hp)
        as [Hn Hhalf].
      cbn zeta in Hn, Hhalf.
      set (n := ((2 * m' + 2 ^ (- e')) / (2 * 2 ^ (- e')))%Z) in *.
      exists n. split; [reflexivity |].
      split; [| split; [exact Hn | exact Hhalf]].
      split.
      * unfold n. apply Z.div_pos; lia.
      * assert (round_percent_exact (Z.of_nat c) (Z.of_nat t) < 101)%Z;
          [| lia].
        unfold round_percent_exact. apply Z.div_lt_upper_bound; lia.
  - assert (t = 0) as -> by lia. assert (c = 0) as -> by lia.
    exists 0%Z. split; [reflexivity |]. split; [lia |].
    change (round_percent_exact (Z.of_nat 0) (Z.of_nat 0)) with 0%Z.
    split; [lia | exact I].
Qed.

Lemma length_course_keys (course : Course) :
  length (course_keys course) = total_lectures course.
Proof.
  unfold course_keys, total_lectures.
  induction (modules course) as [| m l IH]; cbn [flat_map map sum_list];
    [reflexivity |].
  rewrite length_app, length_map, IH. reflexivity.
Qed.

Lemma length_progress_keys (mods : list ModuleProgress) :
  length (progress_keys mods) = length (lecture_entries mods).
Proof.
  unfold progress_keys, lecture_entries.
  induction mods as [| mp l IH]; cbn [flat_map]; [reflexivity |].
  rewrite !length_app, length_map, IH. reflexivity.
Qed.

Lemma valid_progress_count (course : Course) (progress : Progress) :
  valid_progress course progress = true ->
  completed_entries (modulesProgress progress) <= total_lectures course.
Proof.
  unfold valid_progress. intros H. apply bool_decide_eq_true in H.
  destruct H as [Hnd Hsub].
  rewrite <- length_course_keys.
  apply Nat.le_trans with (length (progress_keys (modulesProgress progress))).
  - rewrite length_progress_keys. unfold completed_entries.
    apply List.filter_length_le.
  - apply submseteq_length, NoDup_submseteq; assumption.
Qed.

(* --------------------------------------------------------------------- *)
(** ** calculateProgressStats                                             *)
(* --------------------------------------------------------------------- *)

(** C2 (as amended). For every course and progress record,
    [calculateProgressStats] returns as [totalLecturesCount] the sum of the
    lecture counts of the course's modules, as [completedLecturesCount] the
    number of lecture-progress entries present in the record with
    [completed = true], and as [progressPercentage] the value of
    [Math.round] at the double [(completed / total) * 100] (division, then
    multiplication, each rounded to binary64), or 0 when the total is 0.
    When the completed entries are at most the total and the total is
    below 2^32, that value is the nearest integer to
    [100 * completed / total] (not its truncation), except that a value
    lying exactly halfway between two integers may be rounded down. *)
Theorem calculateProgressStats_percentage (now : Z) (course : Course)
    (progress : Progress) :
  let s := calculateProgressStats now course progress in
  let c := completed_entries (modulesProgress progress) in
  let t := total_lectures course in
  stats_totalLecturesCount s = t /\
  stats_completedLecturesCount s = c /\
  stats_progressPercentage s =
    (if t =? 0 then Z2SF 0
     else Math_round (mul (div (Z2SF (Z.of_nat c)) (Z2SF (Z.of_nat t)))
                          (Z2SF 100))) /\
  (if (c <=? t) && (Z.of_nat t <? 2 ^ 32)%Z
   then exists n : Z,
       stats_progressPercentage s = Z2SF n /\
       (round_percent_exact (Z.of_nat c) (Z.of_nat t) - 1 <= n
          <= round_percent_exact (Z.of_nat c) (Z.of_nat t))%Z /\
       (if ((2 * (100 * Z.of_nat c) + Z.of_nat t) mod (2 * Z.of_nat t) =? 0)%Z
        then True
        else n = round_percent_exact (Z.of_nat c) (Z.of_nat t))
   else True).
Proof.
  cbn zeta. unfold calculateProgressStats.
  cbn [stats_totalLecturesCount stats_completedLecturesCount
       stats_progressPercentage].
  rewrite countTotalLectures_spec, countCompletedLectures_spec.
  split; [reflexivity |]. split; [reflexivity |]. split.
  - unfold percentageOf. destruct (total_lectures course); reflexivity.
  - destruct (Nat.leb_spec (completed_entries (modulesProgress progress))
                           (total_lectures course)) as [Hle | _];
      [| exact I].
    destruct (Z.ltb_spec (Z.of_nat (total_lectures course)) (2 ^ 32))
      as [Hlt | _]; [| exact I].
    cbn [andb].
    destruct (percentageOf_close _ _ Hle Hlt) as (n & Hn & _ & Hr & Hh).
    exists n. split; [exact Hn |]. split; [exact Hr | exact Hh].
Qed.

(** C2, counterexample. With 23 of 40 lectures completed the exact value of
    100 * 23 / 40 is 57.5, which rounds to 58; the code divides first, gets
    the double just below 57.5, and returns 57. *)
Lemma percentage_not_exact_rounding :
  let s := calculateProgressStats 2 course40 progress_23_of_40 in
  stats_completedLecturesCount s = 23 /\
  stats_totalLecturesCount s = 40 /\
  round_percent_exact 23 40 = 58%Z /\
  stats_progressPercentage s = Z2SF 57 /\
  stats_progressPercentage s <> Z2SF (round_percent_exact 23 40).
Proof.
  cbn zeta. repeat split; try (vm_compute; reflexivity).
  vm_compute. discriminate.
Qed.

(** C5 (as amended). For a valid input (the entries of the record are keyed
    by distinct lectures of the course, and the course has fewer than 2^32
    lectures) [progressPercentage] is an integer between 0 and 100. It is
    [Math.round] of the double [(completed / total) * 100], which is the
    exact rounding of [100 * completed / total] to the nearest integer
    whenever that value is not exactly halfway between two integers; at a
    half it is the exact rounding or one less. *)
Theorem progressPercentage_in_range (now : Z) (course : Course)
    (progress : Progress) :
  valid_progress course progress = true ->
  (Z.of_nat (total_lectures course) < 2 ^ 32)%Z ->
  let s := calculateProgressStats now course progress in
  let c := Z.of_nat (completed_entries (modulesProgress progress)) in
  let t := Z.of_nat (total_lectures course) in
  exists n : Z,
    stats_progressPercentage s = Z2SF n /\
    (0 <= n <= 100)%Z /\
    (round_percent_exact c t - 1 <= n <= round_percent_exact c t)%Z /\
    (if ((2 * (100 * c) + t) mod (2 * t) =? 0)%Z then True
     else n = round_percent_exact c t).
Proof.
  intros Hvalid Hsmall. cbn zeta. unfold calculateProgressStats.
  cbn [stats_progressPercentage].
  rewrite countTotalLectures_spec, countCompletedLectures_spec.
  apply percentageOf_close; [| exact Hsmall].
  apply valid_progress_count, Hvalid.
Qed.

Lemma progressPercentage_in_range_witness :
  valid_progress course6 progress_3_of_6 = true /\
  exists n : Z,
    stats_progressPercentage (calculateProgressStats 2 course6 progress_3_of_6)
    = Z2SF n /\
    (0 <= n <= 100)%Z /\
    (round_percent_exact 3 6 - 1 <= n <= round_percent_exact 3 6)%Z /\
    n = round_percent_exact 3 6.
Proof.
  split; [vm_compute; reflexivity |].
  destruct (progressPercentage_in_range 2 course6 progress_3_of_6)
    as (n & Hn & Hr & Hc & Hh); [vm_compute; reflexivity
                                 | vm_compute; reflexivity |].
  exists n. repeat split; try assumption; try apply Hr; try apply Hc.
Defined.

(** Validity matters for the range: a record that holds more completed
    entries than the course has lectures yields a percentage above 100. *)
Example stale_entries_exceed_100 :
  valid_progress course1 progress_stale = false /\
  stats_progressPercentage (calculateProgressStats 2 course1 progress_stale)
  = Z2SF 200.
Proof. split; vm_compute; reflexivity. Qed.

(** C5, counterexample. A valid record (each entry a distinct lecture of the
    course) with 115 of 200 lectures completed: 100 * 115 / 200 = 57.5
    rounds to 58, the code returns 57. *)
Lemma valid_record_not_exact_rounding :
  let s := calculateProgressStats 2 course200 progress_115_of_200 in
  valid_progress course200 progress_115_of_200 = true /\
  stats_completedLecturesCount s = 115 /\
  stats_totalLecturesCount s = 200 /\
  round_percent_exact 115 200 = 58%Z /\
  stats_progressPercentage s = Z2SF 57 /\
  stats_progressPercentage s <> Z2SF (round_percent_exact 115 200).
Proof.
  cbn zeta. repeat split; try (vm_compute; reflexivity).
  vm_compute. discriminate.
Qed.

(** The six-lecture course of the specification with three lectures
    completed: count 3, percentage 50, not complete. *)
Example three_of_six :
  calculateProgressStats 2 course6 progress_3_of_6
  = {| stats_completedLecturesCount := 3;
       stats_totalLecturesCount := 6;
       stats_progressPercentage := Z2SF 50;
       stats_completed := false;
       stats_completedAt := None |}.
Proof. vm_compute. reflexivity. Qed.

(** A course without lectures: percentage 0, never complete. *)
Lemma no_lecture_no_completion (now : Z) (course : Course)
    (progress : Progress) :
  total_lectures course = 0 ->
  stats_progressPercentage (calculateProgressStats now course progress)
    = Z2SF 0 /\
  stats_completed (calculateProgressStats now course progress) = false.
Proof.
  intros Hz. unfold calculateProgressStats, percentageOf.
  cbn [stats_progressPercentage stats_completed].
  rewrite countTotalLectures_spec, Hz. split; reflexivity.
Qed.

(** C6 (as amended). The returned [completedAt] is the current time whenever
    the computed [completed] flag is true, and null otherwise; the flag is
    true when the course has a lecture and as many entries are completed as
    the course has lectures. The cached fields of the record, its previous
    [completed] and [completedAt] among them, have no influence. *)
Theorem completedAt_follows_completed (now : Z) (course : Course)
    (u c u' c' : string) (mods : list ModuleProgress) (n t n' t' : nat)
    (p p' : Number) (b b' : bool) (d d' : option Z) :
  let s := calculateProgressStats now course (mkProgress u c mods n t p b d) in
  stats_completedAt s = (if stats_completed s then Some now else None) /\
  stats_completed s =
    ((0 <? total_lectures course)
     && (completed_entries mods =? total_lectures course)) /\
  calculateProgressStats now course (mkProgress u' c' mods n' t' p' b' d') = s.
Proof.
  cbn zeta. unfold calculateProgressStats.
  cbn [stats_completedAt stats_completed modulesProgress].
  rewrite countTotalLectures_spec, countCompletedLectures_spec.
  repeat split.
Qed.

(** C6, counterexample. A record that is already complete (flag set,
    completion stamped at time 1) recomputed at time 2: no transition takes
    place, yet [completedAt] is the fresh time 2 and not null. *)
Lemma completedAt_refreshed_when_already_complete :
  completed progress_complete = true /\
  completedAt progress_complete = Some 1%Z /\
  stats_completed (calculateProgressStats 2 course1 progress_complete) = true /\
  stats_completedAt (calculateProgressStats 2 course1 progress_complete)
  = Some 2%Z.
Proof. repeat split. Qed.

(* --------------------------------------------------------------------- *)
(** ** initializeProgress                                                 *)
(* --------------------------------------------------------------------- *)

Lemma newModuleProgress_mirrors (m : CourseModule) :
  mirrors_module m (newModuleProgress (module_id m) m).
Proof.
  unfold mirrors_module, newModuleProgress. cbn.
  repeat split. induction (lectures m) as [| l ls IH]; cbn.
  - constructor.
  - constructor; [repeat split | exact IH].
Qed.

Lemma initialProgress_mirrors (course : Course) (uid cid : string) :
  Forall2 mirrors_module (modules course)
          (modulesProgress (initialProgress course uid cid)).
Proof.
  unfold initialProgress. cbn [modulesProgress].
  induction (modules course) as [| m ms IH]; cbn [map]; constructor;
    [apply newModuleProgress_mirrors | exact IH].
Qed.

(** C9 (as amended). For a key (userId, courseId) with no progress record,
    [initializeProgress] succeeds: it builds one module-progress entry per
    module and one lecture-progress entry per lecture of the course, in
    order, every [completed] false and every [completedAt] null, stores
    the record under the key and returns it; [completedLecturesCount] and
    [progressPercentage] are 0, [completed] is false, [completedAt] is
    null, and [totalLecturesCount] is the number of lectures of the
    course. *)
Theorem initializeProgress_mirror (course : Course) (uid cid : string)
    (db : gmap (string * string) Progress) :
  db !! (uid, cid) = None ->
  exists (p : Progress) (db' : gmap (string * string) Progress),
    initializeProgress course uid cid db = Some (p, db') /\
    db' !! (uid, cid) = Some p /\
    userId p = uid /\ courseId p = cid /\
    Forall2 mirrors_module (modules course) (modulesProgress p) /\
    completedLecturesCount p = 0 /\
    totalLecturesCount p = total_lectures course /\
    progressPercentage p = Z2SF 0 /\
    completed p = false /\
    completedAt p = None.
Proof.
  intros Hfree. unfold initializeProgress. rewrite Hfree.
  eexists _, _. split; [reflexivity |].
  split; [apply lookup_insert_eq |].
  split; [reflexivity |]. split; [reflexivity |].
  split; [apply initialProgress_mirrors |].
  split; [reflexivity |]. split; [apply countTotalLectures_spec |].
  repeat split.
Qed.

Lemma initializeProgress_mirror_witness :
  exists (p : Progress) (db' : gmap (string * string) Progress),
    initializeProgress course6 "u" "c" ∅ = Some (p, db') /\
    db' !! ("u", "c") = Some p /\
    userId p = "u" /\ courseId p = "c" /\
    Forall2 mirrors_module (modules course6) (modulesProgress p) /\
    completedLecturesCount p = 0 /\
    totalLecturesCount p = total_lectures course6 /\
    progressPercentage p = Z2SF 0 /\
    completed p = false /\
    completedAt p = None.
Proof.
  apply (initializeProgress_mirror course6 "u" "c" ∅). reflexivity.
Defined.

(** C9, counterexample. For a course of one lecture and an empty
    collection, the record that is stored has [totalLecturesCount = 1]. *)
Lemma initializeProgress_total_not_zero :
  (∅ : gmap (string * string) Progress) !! ("u", "c") = None /\
  exists (p : Progress) (db' : gmap (string * string) Progress),
    initializeProgress course1 "u" "c" ∅ = Some (p, db') /\
    db' !! ("u", "c") = Some p /\
    totalLecturesCount p = 1 /\ totalLecturesCount p <> 0.
Proof.
  split; [reflexivity |]. eexists _, _. split; [reflexivity |].
  split; [reflexivity |]. split; [reflexivity | discriminate].
Qed.

(* --------------------------------------------------------------------- *)
(** ** findIndex                                                          *)
(* --------------------------------------------------------------------- *)

Section FindIndex.
Context {A : Type} (f : A -> bool).

Lemma findIndex_Some_lookup (l : list A) (i : nat) :
  findIndex f l = Some i -> exists x, l !! i = Some x /\ f x = true.
Proof.
  revert i. induction l as [| y l IH]; intros i; cbn [findIndex];
    [discriminate |].
  destruct (f y) eqn:Ey.
  - intros [= <-]. exists y. split; [reflexivity | exact Ey].
  - destruct (findIndex f l) as [k |]; cbn; [| discriminate].
    intros [= <-]. destruct (IH k eq_refl) as (x & Hx & Hfx).
    exists x. split; assumption.
Qed.

(** Overwriting the found element with another one that satisfies the
    predicate leaves the index unchanged. *)
Lemma findIndex_insert (l : list A) (i : nat) (y : A) :
  findIndex f l = Some i -> f y = true ->
  findIndex f (<[i := y]> l) = Some i.
Proof.
  revert i. induction l as [| x l IH]; intros i; cbn [findIndex];
    [discriminate |].
  destruct (f x) eqn:Ex.
  - intros [= <-] Hy. change (<[0 := y]> (x :: l)) with (y :: l).
    cbn [findIndex]. rewrite Hy. reflexivity.
  - destruct (findIndex f l) as [k |] eqn:Ek; cbn [fmap option_fmap option_map];
      [| discriminate].
    intros [= <-] Hy.
    change (<[S k := y]> (x :: l)) with (x :: <[k := y]> l).
    cbn [findIndex]. rewrite Ex, (IH k eq_refl Hy). reflexivity.
Qed.

(** When nothing is found, an element pushed at the end and overwritten by
    one that satisfies the predicate is found at the old length. *)
Lemma findIndex_push (l : list A) (x y : A) :
  findIndex f l = None -> f y = true ->
  findIndex f (<[length l := y]> (l ++ [x])) = Some (length l).
Proof.
  induction l as [| z l IH]; cbn [findIndex]; intros Hnone Hy.
  - cbn. rewrite Hy. reflexivity.
  - destruct (f z) eqn:Ez; [discriminate |].
    destruct (findIndex f l) eqn:Ek; [discriminate |].
    change (<[length (z :: l) := y]> ((z :: l) ++ [x]))
      with (z :: <[length l := y]> (l ++ [x])).
    cbn [findIndex length]. rewrite Ez, (IH eq_refl Hy). reflexivity.
Qed.

Lemma lookup_push (l : list A) (x : A) :
  (l ++ [x]) !! (length (l ++ [x]) - 1) = Some x.
Proof.
  rewrite length_app. cbn [length].
  replace (length l + 1 - 1) with (length l) by lia.
  apply list_lookup_middle. reflexivity.
Qed.

End FindIndex.

(** Overwriting one entry changes the number of completed entries by the
    change of its flag. *)
Lemma filter_length_insert (l : list LectureProgress) (j : nat)
    (x y : LectureProgress) :
  l !! j = Some x ->
  length (List.filter lp_completed (<[j := y]> l)) + flag x
  = length (List.filter lp_completed l) + flag y.
Proof.
  unfold flag. revert j. induction l as [| z l IH]; intros j; [discriminate |].
  destruct j as [| j].
  - intros [= ->]. change (<[0 := y]> (x :: l)) with (y :: l).
    cbn [List.filter].
    destruct (lp_completed x), (lp_completed y); cbn [length]; lia.
  - intros Hj. change (<[S j := y]> (z :: l)) with (z :: <[j := y]> l).
    cbn [List.filter]. cbn in Hj. specialize (IH j Hj).
    destruct (lp_completed z); cbn [length]; lia.
Qed.

Lemma completed_entries_insert (mods : list ModuleProgress) (i : nat)
    (mp mp' : ModuleProgress) :
  mods !! i = Some mp ->
  completed_entries (<[i := mp']> mods)
    + length (List.filter lp_completed (lecturesProgress mp))
  = completed_entries mods
    + length (List.filter lp_completed (lecturesProgress mp')).
Proof.
  unfold completed_entries, lecture_entries.
  revert i. induction mods as [| z mods IH]; intros i; [discriminate |].
  destruct i as [| i]; intros Hi.
  - injection Hi as ->. change (<[0 := mp']> (mp :: mods)) with (mp' :: mods).
    cbn [flat_map]. rewrite !List.filter_app, !length_app. lia.
  - cbn in Hi. change (<[S i := mp']> (z :: mods)) with (z :: <[i := mp']> mods).
    cbn [flat_map]. rewrite !List.filter_app, !length_app.
    specialize (IH i Hi). lia.
Qed.

(* --------------------------------------------------------------------- *)
(** ** The toggle handler                                                 *)
(* --------------------------------------------------------------------- *)

Lemma refreshStats_modulesProgress (now : Z) (course : Course) (p : Progress)
    (mods : list ModuleProgress) :
  modulesProgress (refreshStats now course (setModulesProgress p mods)) = mods.
Proof. reflexivity. Qed.

Lemma refreshStats_count (now : Z) (course : Course) (p : Progress)
    (mods : list ModuleProgress) :
  completedLecturesCount (refreshStats now course (setModulesProgress p mods))
  = completed_entries mods.
Proof.
  unfold refreshStats, calculateProgressStats.
  cbn [completedLecturesCount stats_completedLecturesCount modulesProgress
       setModulesProgress].
  apply countCompletedLectures_spec.
Qed.







(** The module-progress entry the handler works on: found, or pushed. *)
Lemma module_slot (module : CourseModule) (mid : string)
    (mods : list ModuleProgress) :
  let fm := fun mp => String.eqb (moduleId mp) mid in
  exists (mods1 : list ModuleProgress) (idx : nat) (mp : ModuleProgress),
    match findIndex fm mods with
    | Some i => (mods, i)
    | None => (mods ++ [newModuleProgress mid module],
               length (mods ++ [newModuleProgress mid module]) - 1)
    end = (mods1, idx) /\
    mods1 !! idx = Some mp /\ fm mp = true /\
    forall y, fm y = true -> findIndex fm (<[idx := y]> mods1) = Some idx.
Proof.
  intros fm. destruct (findIndex fm mods) as [i |] eqn:Hi.
  - destruct (findIndex_Some_lookup fm _ _ Hi) as (mp & Hmp & Hfm).
    exists mods, i, mp. repeat split; try assumption.
    intros y Hy. apply findIndex_insert; assumption.
  - exists (mods ++ [newModuleProgress mid module]),
           (length (mods ++ [newModuleProgress mid module]) - 1),
           (newModuleProgress mid module).
    split; [reflexivity |]. split; [apply lookup_push |].
    split; [apply String.eqb_refl |].
    intros y Hy. rewrite length_app. cbn [length].
    replace (length mods + 1 - 1) with (length mods) by lia.
    apply findIndex_push; assumption.
Qed.

(** The lecture-progress entry the handler works on: found, or pushed. *)
Lemma lecture_slot (lid : string) (lps : list LectureProgress) :
  let fl := fun lp => String.eqb (lectureId lp) lid in
  exists (lps1 : list LectureProgress) (idx : nat) (lp : LectureProgress),
    match findIndex fl lps with
    | Some j => (lps, j)
    | None => (lps ++ [newLectureProgress lid],
               length (lps ++ [newLectureProgress lid]) - 1)
    end = (lps1, idx) /\
    lps1 !! idx = Some lp.
Proof.
  intros fl. destruct (findIndex fl lps) as [j |] eqn:Hj.
  - destruct (findIndex_Some_lookup fl _ _ Hj) as (lp & Hlp & _).
    exists lps, j, lp. split; [reflexivity | exact Hlp].
  - exists (lps ++ [newLectureProgress lid]),
           (length (lps ++ [newLectureProgress lid]) - 1),
           (newLectureProgress lid).
    split; [reflexivity | apply lookup_push].
Qed.

(** [applyToggle] never fails, and the entry of the module in the document
    it returns is rolled up from the entries that entry holds. *)
Lemma applyToggle_rollup (now : Z) (course : Course) (module : CourseModule)
    (mid lid : string) (p : Progress) :
  exists (b : bool) (p' : Progress) (mp : ModuleProgress),
    applyToggle now course module mid lid p = Some (b, p') /\
    consistent p' /\
    findModuleProgress mid p' = Some mp /\
    mp_completed mp = forallb lp_completed (lecturesProgress mp) /\
    mp_completedAt mp
    = (if forallb lp_completed (lecturesProgress mp) then Some now else None).
Proof.
  unfold applyToggle.
  destruct (module_slot module mid (modulesProgress p))
    as (mods1 & idx & mp & -> & Hmp & Hfm & Hfind).
  rewrite Hmp.
  destruct (lecture_slot lid (lecturesProgress mp))
    as (lps1 & jdx & lp & -> & Hlp).
  rewrite Hlp.
  set (lps2 := <[jdx := toggleLectureProgress now lp]> lps1).
  exists (lp_completed (toggleLectureProgress now lp)),
         (refreshStats now course
            (setModulesProgress p (<[idx := rollUpModule now mp lps2]> mods1))),
         (rollUpModule now mp lps2).
  split; [reflexivity |].
  split; [unfold consistent; rewrite refreshStats_count; reflexivity |].
  split; [| split; reflexivity].
  unfold findModuleProgress. rewrite refreshStats_modulesProgress.
  rewrite (Hfind (rollUpModule now mp lps2) Hfm). cbn [mbind option_bind].
  apply list_lookup_insert_eq. exact (lookup_lt_Some _ _ _ Hmp).
Qed.

(** "Get or create" always yields a record. *)
Lemma getOrCreateProgress_total (course : Course) (uid cid : string)
    (db : gmap (string * string) Progress) :
  exists (p : Progress) (db1 : gmap (string * string) Progress),
    getOrCreateProgress course uid cid db = Some (p, db1).
Proof.
  unfold getOrCreateProgress, initializeProgress.
  destruct (db !! (uid, cid)) as [p |]; eexists _, _; reflexivity.
Qed.


Lemma toggleLecture_consistent (now : Z) (enrollment : bool)
    (course : option Course) (uid cid mid lid : string)
    (db : gmap (string * string) Progress) (p' : Progress) :
  body (fst (toggleLecture now enrollment course uid cid mid lid db)) = Some p' ->
  consistent p' /\
  snd (toggleLecture now enrollment course uid cid mid lid db) !! (uid, cid)
  = Some p'.
Proof.
  unfold toggleLecture. destruct enrollment; cbn [negb]; [| discriminate].
  destruct course as [course |]; [| discriminate].
  destruct (findIndex _ (modules course)) as [k |]; [| discriminate].
  destruct (modules course !! k) as [module |]; [| discriminate].
  destruct (findIndex _ (lectures module)); [| discriminate].
  destruct (getOrCreateProgress_total course uid cid db) as (p & db1 & ->).
  destruct (applyToggle_rollup now course module mid lid p)
    as (b & q & mp & -> & Hcons & _).
  cbn [fst snd body]. intros [= <-].
  split; [exact Hcons | apply lookup_insert_eq].
Qed.



(** Module "a" of the six-lecture course has three lectures; a record whose
    entry for "a" holds only the first one reports the module complete as
    soon as that one is toggled. *)
Example module_complete_with_missing_entries :
  (findModuleProgress "a" <$>
     body (fst (toggleLecture 7 true (Some course6) "u" "c" "a" "a00"
                  {[ ("u", "c") := progress_partial ]})))
  = Some (Some {| moduleId := "a"; mp_completed := true;
                  mp_completedAt := Some 7%Z;
                  lecturesProgress :=
                    [{| lectureId := "a00"; lp_completed := true;
                        lp_completedAt := Some 7%Z |}] |}).
Proof. vm_compute. reflexivity. Qed.

End ProgressFacts.

(* ===================================================================== *)
(** * Facts about quiz grading and letter grades                           *)
(* ===================================================================== *)

Module SubmissionFacts.
Import JSNumber SubmissionRoutes Fixtures.

(* --------------------------------------------------------------------- *)
(** ** The question map                                                    *)
(* --------------------------------------------------------------------- *)

Lemma fold_insert_Some (qs : list Question) (m : gmap string Question)
    (k : string) (q : Question) :
  fold_left (fun questionsMap q => <[q_id q := q]> questionsMap) qs m !! k
    = Some q ->
  (In q qs /\ q_id q = k) \/ m !! k = Some q.
Proof.
  revert m. induction qs as [| x qs IH]; intros m; cbn [fold_left].
  - intros H. right. exact H.
  - intros H. destruct (IH _ H) as [[Hin Hk] | Hm].
    + left. split; [right; exact Hin | exact Hk].
    + destruct (String.eqb_spec (q_id x) k) as [Heq | Hne].
      * rewrite Heq, lookup_insert_eq in Hm. injection Hm as <-.
        left. split; [left; reflexivity | exact Heq].
      * rewrite lookup_insert_ne in Hm by exact Hne. right. exact Hm.
Qed.

Lemma fold_insert_None (qs : list Question) (m : gmap string Question)
    (k : string) :
  (forall q, In q qs -> q_id q <> k) ->
  fold_left (fun questionsMap q => <[q_id q := q]> questionsMap) qs m !! k
  = m !! k.
Proof.
  revert m. induction qs as [| x qs IH]; intros m Hno; cbn [fold_left].
  - reflexivity.
  - rewrite IH by (intros q Hq; apply Hno; right; exact Hq).
    apply lookup_insert_ne, Hno. left. reflexivity.
Qed.

(** [questionsMap.get(id)] returns a question of the assignment with that
    identifier, and nothing when no question has it. *)
Lemma buildQuestionsMap_Some (qs : list Question) (k : string) (q : Question) :
  buildQuestionsMap qs !! k = Some q -> In q qs /\ q_id q = k.
Proof.
  unfold buildQuestionsMap. intros H.
  destruct (fold_insert_Some _ _ _ _ H) as [Hq | He]; [exact Hq |].
  rewrite lookup_empty in He. discriminate.
Qed.

Lemma buildQuestionsMap_None (qs : list Question) (k : string) :
  (forall q, In q qs -> q_id q <> k) -> buildQuestionsMap qs !! k = None.
Proof.
  intros Hno. unfold buildQuestionsMap.
  rewrite fold_insert_None by exact Hno. apply lookup_empty.
Qed.

(* --------------------------------------------------------------------- *)
(** ** The grading loop                                                    *)
(* --------------------------------------------------------------------- *)

Lemma gradeAnswer_gradable (a : Assignment) (st : GradeState)
    (sa : StudentAnswer) :
  gradeAnswer (buildQuestionsMap (questions a)) st sa
  = match gradable a sa with
    | Some q => gradeStep st sa q
    | None => st
    end.
Proof.
  unfold gradeAnswer, gradable.
  destruct (buildQuestionsMap (questions a) !! questionId sa) as [q |];
    [| reflexivity].
  destruct (is_multiple_choice (q_type q)); reflexivity.
Qed.

Lemma gradeAnswers_app (a : Assignment) (xs ys : list StudentAnswer) :
  gradeAnswers a (xs ++ ys)
  = fold_left (gradeAnswer (buildQuestionsMap (questions a))) ys
              (gradeAnswers a xs).
Proof. unfold gradeAnswers. apply fold_left_app. Qed.

(** The loop from any state, in terms of the answers that are graded. *)
Lemma fold_gradeAnswer_spec (a : Assignment) (answers : list StudentAnswer) :
  forall st : GradeState,
    let st' := fold_left (gradeAnswer (buildQuestionsMap (questions a)))
                         answers st in
    let G := answered_mcq a answers in
    totalQuestionPoints st'
    = fold_left add (map (fun p => pointsForQuestion (snd p)) G)
                (totalQuestionPoints st) /\
    earnedQuestionPoints st'
    = fold_left add
        (map (fun p => pointsForQuestion (snd p))
             (List.filter (fun p => isCorrect (fst p) (snd p)) G))
        (earnedQuestionPoints st) /\
    gradedAnswers st' = gradedAnswers st ++ map graded_entry G.
Proof.
  induction answers as [| sa answers IH]; intros st; cbn zeta.
  - cbn. rewrite app_nil_r. repeat split.
  - cbn [fold_left]. rewrite gradeAnswer_gradable.
    unfold answered_mcq. cbn [omap list_omap].
    fold (answered_mcq a answers).
    destruct (gradable a sa) as [q |] eqn:Hq; cbn [mbind option_bind].
    + destruct (IH (gradeStep st sa q)) as (Ht & He & Hg).
      rewrite Ht, He, Hg. cbn [map List.filter fst snd fold_left].
      unfold gradeStep at 1 2 3.
      cbn [totalQuestionPoints earnedQuestionPoints gradedAnswers].
      destruct (isCorrect sa q); cbn [map fold_left snd];
        rewrite <- app_assoc; repeat split.
    + apply IH.
Qed.

Lemma gradeAnswers_spec (a : Assignment) (answers : list StudentAnswer) :
  let st := gradeAnswers a answers in
  let G := answered_mcq a answers in
  totalQuestionPoints st = total_points_of G /\
  earnedQuestionPoints st = earned_points_of G /\
  gradedAnswers st = map graded_entry G.
Proof.
  destruct (fold_gradeAnswer_spec a answers initialGradeState)
    as (Ht & He & Hg).
  cbn zeta. unfold gradeAnswers. rewrite Ht, He, Hg. repeat split.
Qed.

(** Nothing is graded when the assignment has no multiple-choice
    question. *)
Lemma answered_mcq_all_written (a : Assignment) (answers : list StudentAnswer) :
  forallb (fun q => negb (is_multiple_choice (q_type q))) (questions a) = true ->
  answered_mcq a answers = [].
Proof.
  intros Hall. unfold answered_mcq.
  induction answers as [| sa answers IH]; [reflexivity |].
  cbn [omap list_omap]. rewrite IH. unfold gradable.
  destruct (buildQuestionsMap (questions a) !! questionId sa) as [q |] eqn:Hq;
    [| reflexivity].
  apply buildQuestionsMap_Some in Hq. destruct Hq as [Hin _].
  rewrite forallb_forall in Hall. specialize (Hall q Hin).
  destruct (is_multiple_choice (q_type q)); [discriminate | reflexivity].
Qed.


(** An answer that is not gradable leaves the loop where it was. *)
Lemma gradeAnswers_skip (a : Assignment) (before after : list StudentAnswer)
    (sa : StudentAnswer) :
  gradable a sa = None ->
  gradeAnswers a (before ++ sa :: after) = gradeAnswers a (before ++ after).
Proof.
  intros Hg. rewrite !gradeAnswers_app. cbn [fold_left].
  rewrite gradeAnswer_gradable, Hg. reflexivity.
Qed.

(** An answer to a question the assignment does not have is skipped. *)
Example stray_answer_skipped :
  autoGradeQuiz quiz [right_q1; stray; wrong_q2]
  = autoGradeQuiz quiz [right_q1; wrong_q2].
Proof.
  unfold autoGradeQuiz.
  change [right_q1; stray; wrong_q2] with ([right_q1] ++ stray :: [wrong_q2]).
  rewrite (gradeAnswers_skip quiz [right_q1] [wrong_q2] stray eq_refl).
  reflexivity.
Qed.

(** C3. An answer whose [questionId] is the identifier of no question of
    the assignment, or whose question is of type written, changes nothing:
    the three accumulators after the loop, and the object returned, are the
    same as if the answer were not in the list. No error is signalled. *)
Theorem ungradable_answer_skipped (a : Assignment)
    (before after : list StudentAnswer) (sa : StudentAnswer) :
  (forall q, In q (questions a) -> q_id q <> questionId sa) \/
  (exists q, buildQuestionsMap (questions a) !! questionId sa = Some q /\
             q_type q = written) ->
  gradeAnswers a (before ++ sa :: after) = gradeAnswers a (before ++ after) /\
  autoGradeQuiz a (before ++ sa :: after) = autoGradeQuiz a (before ++ after).
Proof.
  intros Hskip.
  assert (Hg : gradable a sa = None).
  { unfold gradable. destruct Hskip as [Hno | (q & Hq & Hw)].
    - rewrite (buildQuestionsMap_None _ _ Hno). reflexivity.
    - rewrite Hq, Hw. reflexivity. }
  pose proof (gradeAnswers_skip a before after sa Hg) as Hst.
  split; [exact Hst |]. unfold autoGradeQuiz. rewrite Hst. reflexivity.
Qed.

Lemma ungradable_answer_skipped_witness :
  gradeAnswers quiz ([right_q1] ++ essay_q3 :: [wrong_q2])
    = gradeAnswers quiz ([right_q1] ++ [wrong_q2]) /\
  autoGradeQuiz quiz ([right_q1] ++ essay_q3 :: [wrong_q2])
    = autoGradeQuiz quiz ([right_q1] ++ [wrong_q2]).
Proof.
  apply (ungradable_answer_skipped quiz [right_q1] [wrong_q2] essay_q3).
  right. eexists. split; reflexivity.
Defined.



(** The quiz of the specification: 100 points, two multiple-choice
    questions of one point, one of them answered correctly. *)
Example quiz_half_right :
  let r := autoGradeQuiz quiz [right_q1; wrong_q2; essay_q3] in
  r_percentage r = Z2SF 50 /\ r_earnedPoints r = Z2SF 50 /\
  r_totalPoints r = Z2SF 100 /\ length (r_gradedAnswers r) = 2.
Proof. vm_compute. repeat split. Qed.

(* --------------------------------------------------------------------- *)
(** ** Letter grades                                                       *)
(* --------------------------------------------------------------------- *)

(** The if-chain of [getLetterGrade] is the table read from the top. *)
Lemma getLetterGrade_first_match (p : Number) :
  getLetterGrade p = first_match p grade_table.
Proof. reflexivity. Qed.

(** The hook computes the same letter as [getLetterGrade]. *)
Lemma preSaveLetterGrade_letter (this : Submission) (g : Grade) (p : Number) :
  grade this = Some g -> g_percentage g = Some p ->
  preSaveLetterGrade this
  = {| grade := Some (setLetterGrade g (getLetterGrade p));
       status := status this |}.
Proof.
  intros Hg Hp. unfold preSaveLetterGrade, getLetterGrade. rewrite Hg, Hp.
  repeat (destruct (ge p _); [reflexivity |]). reflexivity.
Qed.

(** C4. Saving a submission whose grade has a percentage [p] stores the
    letter that the fixed thresholds give for [p], read from the top with
    the first match winning (97 A+, 93 A, 90 A-, 87 B+, 83 B, 80 B-, 77 C+,
    73 C, 70 C-, 67 D+, 60 D, otherwise F), whatever letter the grade held
    before and leaving the other fields as they were; [getLetterGrade]
    computes the same letter. 92.999 and 90 map to A-, 59.9 maps to F. *)
Theorem letterGrade_derived_on_save (st : string) (pts : option Number)
    (old : option string) (at' : option Z) (by' : option string)
    (p : Number) :
  preSaveLetterGrade
    {| grade := Some {| g_points := pts; g_percentage := Some p;
                        letterGrade := old; gradedAt := at';
                        gradedBy := by' |};
       status := st |}
  = {| grade := Some {| g_points := pts; g_percentage := Some p;
                        letterGrade := Some (first_match p grade_table);
                        gradedAt := at'; gradedBy := by' |};
       status := st |} /\
  getLetterGrade p = first_match p grade_table /\
  first_match (decimal 92999 1000) grade_table = "A-" /\
  first_match (Z2SF 90) grade_table = "A-" /\
  first_match (decimal 599 10) grade_table = "F".
Proof.
  split; [| repeat split].
  erewrite preSaveLetterGrade_letter; [| reflexivity | reflexivity].
  rewrite getLetterGrade_first_match. reflexivity.
Qed.

(** A grade without a percentage is saved as it is. *)
Lemma preSaveLetterGrade_no_percentage (this : Submission) (g : Grade) :
  grade this = Some g -> g_percentage g = None ->
  preSaveLetterGrade this = this.
Proof.
  intros Hg Hp. unfold preSaveLetterGrade. rewrite Hg, Hp. reflexivity.
Qed.

(** The two handlers that write a percentage save the letter derived from
    it. *)
Lemma gradeSubmission_letterGrade (now : Z) (grader : string)
    (pts total : Number) (submission : Submission) :
  (g ← grade (gradeSubmission now grader pts total submission); letterGrade g)
  = Some (getLetterGrade (mul (div pts total) (Z2SF 100))).
Proof.
  unfold gradeSubmission.
  erewrite preSaveLetterGrade_letter; [| reflexivity | reflexivity].
  reflexivity.
Qed.

Lemma createAutoGraded_letterGrade (now : Z) (student : string)
    (a : Assignment) (answers : list StudentAnswer) :
  (g ← grade (createAutoGraded now student a answers); letterGrade g)
  = Some (getLetterGrade (r_percentage (autoGradeQuiz a answers))).
Proof.
  unfold createAutoGraded.
  erewrite preSaveLetterGrade_letter; [| reflexivity | reflexivity].
  reflexivity.
Qed.

End SubmissionFacts.

(* ===================================================================== *)
(** * More facts about the progress router                                 *)
(* ===================================================================== *)

Module ProgressMoreFacts.
Import JSNumber NumberFacts ProgressRoutes ProgressHandlers Fixtures MoreFixtures.
Import ProgressFacts.

(* --------------------------------------------------------------------- *)
(** ** Which requests the toggle handler lets through                      *)
(* --------------------------------------------------------------------- *)

(** The handler in three cases: refused, or accepted on the record it got
    or created. *)
Lemma toggleLecture_cases (now : Z) (enrollment : bool)
    (course : option Course) (uid cid mid lid : string)
    (db : gmap (string * string) Progress) :
  if toggleAccepted enrollment course mid lid
  then exists (c : Course) (module : CourseModule) (p : Progress)
              (db1 : gmap (string * string) Progress) (b : bool)
              (p' : Progress),
      course = Some c /\
      (In module (modules c) /\ module_id module = mid /\
       In lid (map lecture_id (lectures module))) /\
      getOrCreateProgress c uid cid db = Some (p, db1) /\
      applyToggle now c module mid lid p = Some (b, p') /\
      toggleLecture now enrollment course uid cid mid lid db
      = (mkResponse 200 (if b then "Lecture marked as complete"
                         else "Lecture unmarked") (Some p'),
         <[(uid, cid) := p']> db1)
  else exists (code : nat) (msg : string),
      (code = 403 \/ code = 404) /\
      toggleLecture now enrollment course uid cid mid lid db
      = (mkResponse code msg None, db).
Proof.
  unfold toggleAccepted, toggleLecture, courseHasLecture.
  destruct enrollment; cbn [negb andb];
    [| exists 403, "You are not enrolled in this course"; auto].
  destruct course as [c |]; [| exists 404, "Course not found"; auto].
  destruct (findIndex _ (modules c)) as [k |] eqn:Hk;
    [| exists 404, "Module not found in course"; auto].
  destruct (findIndex_Some_lookup _ _ _ Hk) as (module & Hmod & Hmid).
  rewrite Hmod.
  destruct (findIndex _ (lectures module)) as [k' |] eqn:Hk';
    [| exists 404, "Lecture not found in module"; auto].
  destruct (findIndex_Some_lookup _ _ _ Hk') as (lec & Hlec & Hlid).
  destruct (getOrCreateProgress_total c uid cid db) as (p & db1 & Hg).
  destruct (applyToggle_rollup now c module mid lid p)
    as (b & p' & mp & Ht & _).
  exists c, module, p, db1, b, p'. rewrite Hg, Ht.
  apply String.eqb_eq in Hmid, Hlid.
  split; [reflexivity |]. split; [| auto].
  split; [apply list_elem_of_In; eapply list_elem_of_lookup_2; exact Hmod |].
  split; [exact Hmid |].
  apply in_map_iff. exists lec. split; [exact Hlid |].
  apply list_elem_of_In. eapply list_elem_of_lookup_2. exact Hlec.
Qed.

Lemma getOrCreateProgress_frame (c : Course) (uid cid : string)
    (db db1 : gmap (string * string) Progress) (p : Progress) :
  getOrCreateProgress c uid cid db = Some (p, db1) ->
  db1 !! (uid, cid) = Some p /\
  delete (uid, cid) db1 = delete (uid, cid) db /\
  (db !! (uid, cid) = None -> p = initialProgress c uid cid) /\
  (forall q, db !! (uid, cid) = Some q -> p = q /\ db1 = db).
Proof.
  unfold getOrCreateProgress, initializeProgress.
  destruct (db !! (uid, cid)) as [q |] eqn:Hq; intros [= <- <-].
  - split; [exact Hq |]. split; [reflexivity |].
    split; [discriminate |]. intros q' [= <-]. split; reflexivity.
  - split; [apply lookup_insert_eq |]. split; [apply delete_insert_eq |].
    split; [reflexivity |]. discriminate.
Qed.


(** X2. No handler of the router touches a record other than the one of
    the (userId, courseId) it is called for: with that key removed, the
    collection after the toggle, the query, the initialisation or the
    reset is the collection before. *)
Theorem handlers_frame (now : Z) (role : Role) (enrollment : bool)
    (course : option Course) (uid cid mid lid : string)
    (db : gmap (string * string) Progress) :
  delete (uid, cid)
         (snd (toggleLecture now enrollment course uid cid mid lid db))
    = delete (uid, cid) db /\
  delete (uid, cid) (snd (getCourseProgress role enrollment course uid cid db))
    = delete (uid, cid) db /\
  delete (uid, cid) (snd (initializeRoute enrollment course uid cid db))
    = delete (uid, cid) db /\
  delete (uid, cid) (snd (resetProgress uid cid db)) = delete (uid, cid) db.
Proof.
  split; [| split; [| split]].
  - pose proof (toggleLecture_cases now enrollment course uid cid mid lid db)
      as H.
    destruct (toggleAccepted enrollment course mid lid).
    + destruct H as (c & module & p & db1 & b & p' & _ & _ & Hg & _ & ->).
      cbn [snd]. rewrite delete_insert_eq.
      apply (getOrCreateProgress_frame _ _ _ _ _ _ Hg).
    + destruct H as (code & msg & _ & ->). reflexivity.
  - unfold getCourseProgress. destruct course as [c |]; [| reflexivity].
    destruct (is_student role && negb enrollment); [reflexivity |].
    destruct (getOrCreateProgress c uid cid db) as [[p db1] |] eqn:Hg;
      [| reflexivity].
    cbn [snd]. apply (getOrCreateProgress_frame _ _ _ _ _ _ Hg).
  - unfold initializeRoute, initializeProgress.
    destruct (negb enrollment); [reflexivity |].
    destruct (db !! (uid, cid)) eqn:Hdb; [reflexivity |].
    destruct course as [c |]; [| reflexivity].
    cbn [snd]. apply delete_insert_eq.
  - unfold resetProgress. destruct (db !! (uid, cid)); [| reflexivity].
    cbn [snd]. apply delete_id, lookup_delete_eq.
Qed.

(* --------------------------------------------------------------------- *)
(** ** Query, initialisation and reset                                     *)
(* --------------------------------------------------------------------- *)

(** X3. GET /course/:courseId is idempotent: asked again on the collection
    it left, it gives the same answer and leaves the same collection. A
    record that exists is returned as it is and nothing is written; when
    there is none and the request is let in (the course exists, and a
    student is enrolled), the record returned is the all-incomplete mirror
    of the course, stored under the key. *)
Theorem getCourseProgress_idempotent (role : Role) (enrollment : bool)
    (course : option Course) (uid cid : string)
    (db : gmap (string * string) Progress) :
  let r := getCourseProgress role enrollment course uid cid db in
  getCourseProgress role enrollment course uid cid (snd r) = r /\
  match db !! (uid, cid), course with
  | Some p, Some _ =>
      snd r = db /\
      (if is_student role && negb enrollment then status (fst r) = 403
       else fst r = mkResponse 200 "Progress retrieved successfully" (Some p))
  | None, Some c =>
      if is_student role && negb enrollment
      then status (fst r) = 403 /\ snd r = db
      else r = (mkResponse 200 "Progress retrieved successfully"
                           (Some (initialProgress c uid cid)),
                <[(uid, cid) := initialProgress c uid cid]> db)
  | _, None => status (fst r) = 404 /\ snd r = db
  end.
Proof.
  cbn zeta. unfold getCourseProgress, getOrCreateProgress, initializeProgress.
  destruct course as [c |];
    [| split; [reflexivity | destruct (db !! (uid, cid)); auto]].
  destruct (is_student role && negb enrollment) eqn:Hrole.
  - cbn [snd].
    split; [reflexivity | destruct (db !! (uid, cid)); auto].
  - destruct (db !! (uid, cid)) as [p |] eqn:Hdb.
    + cbn [snd fst]. rewrite Hdb. auto.
    + cbn [snd fst]. rewrite lookup_insert_eq. auto.
Qed.

(** X4. POST /initialize/:courseId never overwrites: for an enrolled student
    a record that exists is answered with 200 and left as it is (whether
    or not the course still exists); otherwise the mirror of the course is
    stored and answered with 201. Called a second time it answers 200 with
    the record of the first call and writes nothing. *)
Theorem initializeRoute_keeps_existing (course : option Course)
    (uid cid : string) (db : gmap (string * string) Progress) :
  let r := initializeRoute true course uid cid db in
  match db !! (uid, cid), course with
  | Some p, _ => r = (mkResponse 200 "Progress already exists" (Some p), db)
  | None, Some c =>
      r = (mkResponse 201 "Progress initialized successfully"
                      (Some (initialProgress c uid cid)),
           <[(uid, cid) := initialProgress c uid cid]> db) /\
      initializeRoute true course uid cid (snd r)
      = (mkResponse 200 "Progress already exists"
                    (Some (initialProgress c uid cid)), snd r)
  | None, None => r = (mkResponse 404 "Course not found" None, db)
  end.
Proof.
  cbn zeta. unfold initializeRoute, initializeProgress. cbn [negb].
  destruct (db !! (uid, cid)) as [p |] eqn:Hdb; [reflexivity |].
  destruct course as [c |]; [| reflexivity].
  cbn [snd]. rewrite lookup_insert_eq. split; reflexivity.
Qed.

(** X5. DELETE /course/:courseId answers 200 when the record exists and 404
    when it does not; afterwards there is no record under the key, and
    the next query of an enrolled student gets the all-incomplete mirror of
    the course: whatever the record held before the reset is gone. *)
Theorem resetProgress_then_query (role : Role) (c : Course)
    (uid cid : string) (db : gmap (string * string) Progress) :
  let r := resetProgress uid cid db in
  status (fst r) = match db !! (uid, cid) with Some _ => 200 | None => 404 end /\
  snd r !! (uid, cid) = None /\
  getCourseProgress role true (Some c) uid cid (snd r)
  = (mkResponse 200 "Progress retrieved successfully"
                (Some (initialProgress c uid cid)),
     <[(uid, cid) := initialProgress c uid cid]> db).
Proof.
  cbn zeta. unfold resetProgress, getCourseProgress.
  rewrite andb_false_r. unfold getOrCreateProgress, initializeProgress.
  destruct (db !! (uid, cid)) as [p |] eqn:Hdb; cbn [fst snd status].
  - rewrite lookup_delete_eq, insert_delete_eq. auto.
  - rewrite Hdb. auto.
Qed.

(* --------------------------------------------------------------------- *)
(** ** The toggle, entry by entry                                          *)
(* --------------------------------------------------------------------- *)

Section FindFirst.
Context {A : Type}.
Implicit Types (f g : A -> bool) (l : list A).

(** [findIndex] followed by the indexing is [Array.prototype.find]. *)
Lemma findIndex_find f l : findIndex f l ≫= (l !!.) = List.find f l.
Proof.
  induction l as [| x l IH]; [reflexivity |]. cbn [findIndex List.find].
  destruct (f x); [reflexivity |]. rewrite <- IH.
  destruct (findIndex f l); reflexivity.
Qed.

Lemma find_of_index f l (i : nat) (z : A) :
  findIndex f l = Some i -> l !! i = Some z -> List.find f l = Some z.
Proof.
  intros Hi Hz. rewrite <- findIndex_find, Hi. exact Hz.
Qed.

Lemma findIndex_None_find f l : findIndex f l = None -> List.find f l = None.
Proof.
  intros Hi. rewrite <- findIndex_find, Hi. reflexivity.
Qed.

Lemma find_insert_out g l (i : nat) (x y : A) :
  l !! i = Some x -> g x = false -> g y = false ->
  List.find g (<[i := y]> l) = List.find g l.
Proof.
  revert i. induction l as [| a l IH]; intros [| i] Hx Hgx Hgy;
    try discriminate.
  - injection Hx as ->. cbn. rewrite Hgx, Hgy. reflexivity.
  - change (<[S i := y]> (a :: l)) with (a :: <[i := y]> l).
    cbn [List.find]. rewrite (IH i Hx Hgx Hgy). reflexivity.
Qed.

Lemma find_app_out g l (x : A) :
  g x = false -> List.find g (l ++ [x]) = List.find g l.
Proof.
  intros Hg. induction l as [| a l IH]; cbn; [rewrite Hg; reflexivity |].
  rewrite IH. reflexivity.
Qed.

Lemma find_None_not_In g l :
  List.find g l = None -> forall x, In x l -> g x = false.
Proof.
  intros H x Hx. exact (List.find_none g l H x Hx).
Qed.

(** The slot the handler works on: the first element accepted by [f], or
    the element it pushes when there is none. Writing an accepted element
    into the slot leaves the slot where it is, and changes nothing for a
    search that rejects what [f] accepts. *)
Lemma slot_spec f l (new : A) :
  f new = true ->
  exists (l1 : list A) (idx : nat) (x : A),
    match findIndex f l with
    | Some i => (l, i)
    | None => (l ++ [new], length (l ++ [new]) - 1)
    end = (l1, idx) /\
    l1 !! idx = Some x /\ f x = true /\
    (List.find f l = Some x /\ l1 = l \/
     List.find f l = None /\ x = new /\ l1 = l ++ [new] /\ idx = length l) /\
    forall y, f y = true ->
      findIndex f (<[idx := y]> l1) = Some idx /\
      List.find f (<[idx := y]> l1) = Some y /\
      forall g, (forall z, f z = true -> g z = false) ->
        List.find g (<[idx := y]> l1) = List.find g l.
Proof.
  intros Hnew. destruct (findIndex f l) as [i |] eqn:Hi.
  - destruct (findIndex_Some_lookup f _ _ Hi) as (x & Hx & Hfx).
    exists l, i, x. split; [reflexivity |]. split; [exact Hx |].
    split; [exact Hfx |].
    split; [left; split; [exact (find_of_index _ _ _ _ Hi Hx) | reflexivity] |].
    intros y Hy.
    pose proof (findIndex_insert f l i y Hi Hy) as Hi'.
    split; [exact Hi' |].
    split.
    + apply (find_of_index _ _ _ _ Hi').
      apply list_lookup_insert_eq. exact (lookup_lt_Some _ _ _ Hx).
    + intros g Hg. apply (find_insert_out g l i x y Hx); auto.
  - exists (l ++ [new]), (length (l ++ [new]) - 1), new.
    assert (Hlen : length (l ++ [new]) - 1 = length l)
      by (rewrite length_app; cbn [length]; lia).
    split; [reflexivity |]. split; [apply lookup_push |].
    split; [exact Hnew |].
    split; [right; split; [exact (findIndex_None_find _ _ Hi) | auto] |].
    intros y Hy. rewrite Hlen.
    pose proof (findIndex_push f l new y Hi Hy) as Hi'.
    split; [exact Hi' |].
    split.
    + apply (find_of_index _ _ _ _ Hi').
      apply list_lookup_insert_eq. rewrite length_app. cbn [length]. lia.
    + intros g Hg.
      rewrite (find_insert_out g (l ++ [new]) (length l) new y);
        [apply find_app_out | | |]; auto.
      rewrite <- Hlen. apply lookup_push.
Qed.

End FindFirst.

Lemma findLectureProgress_find (mid lid : string) (p : Progress) :
  findLectureProgress mid lid p
  = (mp ← List.find (fun mp => String.eqb (moduleId mp) mid)
                     (modulesProgress p);
     List.find (fun lp => String.eqb (lectureId lp) lid)
               (lecturesProgress mp)).
Proof.
  unfold findLectureProgress. rewrite <- findIndex_find.
  destruct (findIndex _ (modulesProgress p)) as [i |]; [| reflexivity].
  cbn [mbind option_bind].
  destruct (modulesProgress p !! i) as [mp |]; [| reflexivity].
  cbn [mbind option_bind]. apply findIndex_find.
Qed.

Lemma findModuleProgress_find (mid : string) (p : Progress) :
  findModuleProgress mid p
  = List.find (fun mp => String.eqb (moduleId mp) mid) (modulesProgress p).
Proof. apply findIndex_find. Qed.

Lemma eqb_other (a b c : string) :
  b <> c -> String.eqb a b = true -> String.eqb a c = false.
Proof.
  intros Hne Hb. apply String.eqb_eq in Hb. subst a.
  apply String.eqb_neq. exact Hne.
Qed.

(** A fresh mirror holds only untouched entries. *)
Lemma find_new_lecture (lid : string) (ls : list Lecture)
    (lp : LectureProgress) :
  List.find (fun lp => String.eqb (lectureId lp) lid)
            (map (fun lecture => newLectureProgress (lecture_id lecture)) ls)
  = Some lp ->
  lp = newLectureProgress lid.
Proof.
  intros H. apply List.find_some in H. destruct H as [Hin Heq].
  apply in_map_iff in Hin. destruct Hin as (l & <- & _).
  cbn in Heq. apply String.eqb_eq in Heq. rewrite Heq. reflexivity.
Qed.

Lemma initialProgress_find (c : Course) (uid cid mid lid : string)
    (lp : LectureProgress) :
  findLectureProgress mid lid (initialProgress c uid cid) = Some lp ->
  lp = newLectureProgress lid.
Proof.
  rewrite findLectureProgress_find. cbn [modulesProgress initialProgress].
  destruct (List.find _ (map _ (modules c))) as [mp |] eqn:Hmp;
    [| discriminate].
  apply List.find_some in Hmp. destruct Hmp as [Hin _].
  apply in_map_iff in Hin. destruct Hin as (m & <- & _).
  cbn [mbind option_bind lecturesProgress newModuleProgress].
  apply find_new_lecture.
Qed.

(** [applyToggle] spelled out: the module slot, the lecture slot, and the
    record it returns. *)
Lemma applyToggle_shape (now : Z) (course : Course) (module : CourseModule)
    (mid lid : string) (p : Progress) :
  let fm := fun mp => String.eqb (moduleId mp) mid in
  let fl := fun lp => String.eqb (lectureId lp) lid in
  exists (mods1 : list ModuleProgress) (i : nat) (mp : ModuleProgress)
         (lps1 : list LectureProgress) (j : nat) (lp : LectureProgress),
    let lps2 := <[j := toggleLectureProgress now lp]> lps1 in
    let mods2 := <[i := rollUpModule now mp lps2]> mods1 in
    applyToggle now course module mid lid p
    = Some (negb (lp_completed lp),
            refreshStats now course (setModulesProgress p mods2)) /\
    mods1 !! i = Some mp /\ fm mp = true /\
    (List.find fm (modulesProgress p) = Some mp /\ mods1 = modulesProgress p \/
     List.find fm (modulesProgress p) = None /\
     mp = newModuleProgress mid module /\
     mods1 = modulesProgress p ++ [newModuleProgress mid module] /\
     i = length (modulesProgress p)) /\
    List.find fm mods2 = Some (rollUpModule now mp lps2) /\
    (forall g, (forall z, fm z = true -> g z = false) ->
       List.find g mods2 = List.find g (modulesProgress p)) /\
    lps1 !! j = Some lp /\ fl lp = true /\
    (List.find fl (lecturesProgress mp) = Some lp /\
     lps1 = lecturesProgress mp \/
     List.find fl (lecturesProgress mp) = None /\
     lp = newLectureProgress lid /\
     lps1 = lecturesProgress mp ++ [newLectureProgress lid] /\
     j = length (lecturesProgress mp)) /\
    List.find fl lps2 = Some (toggleLectureProgress now lp) /\
    (forall g, (forall z, fl z = true -> g z = false) ->
       List.find g lps2 = List.find g (lecturesProgress mp)).
Proof.
  intros fm fl. unfold applyToggle. fold fm. fold fl.
  destruct (slot_spec fm (modulesProgress p) (newModuleProgress mid module)
              (String.eqb_refl mid))
    as (mods1 & i & mp & -> & Hmp & Hfm & Hmcase & Hmw).
  rewrite Hmp.
  destruct (slot_spec fl (lecturesProgress mp) (newLectureProgress lid)
              (String.eqb_refl lid))
    as (lps1 & j & lp & -> & Hlp & Hfl & Hlcase & Hlw).
  exists mods1, i, mp, lps1, j, lp. cbn zeta.
  rewrite Hlp.
  destruct (Hmw (rollUpModule now mp
                   (<[j := toggleLectureProgress now lp]> lps1)) Hfm)
    as (_ & Hm1 & Hm2).
  destruct (Hlw (toggleLectureProgress now lp) Hfl) as (_ & Hl1 & Hl2).
  repeat (split; [first [reflexivity | assumption] |]). assumption.
Qed.

Lemma filter_new_lectures (ls : list Lecture) :
  List.filter lp_completed
    (map (fun lecture => newLectureProgress (lecture_id lecture)) ls) = [].
Proof. induction ls as [| l ls IH]; [reflexivity | exact IH]. Qed.

Lemma completed_entries_push (mods : list ModuleProgress)
    (mp : ModuleProgress) :
  completed_entries (mods ++ [mp])
  = completed_entries mods
    + length (List.filter lp_completed (lecturesProgress mp)).
Proof.
  unfold completed_entries, lecture_entries.
  rewrite flat_map_app, List.filter_app, length_app. cbn [flat_map].
  rewrite app_nil_r. reflexivity.
Qed.

(** The state of the addressed lecture before the toggle, read from the
    record: an entry that is missing counts as not completed. *)
Lemma applyToggle_flip (now : Z) (course : Course) (module : CourseModule)
    (mid lid : string) (p : Progress) :
  let was := match findLectureProgress mid lid p with
             | Some lp => lp_completed lp
             | None => false
             end in
  exists p' : Progress,
    applyToggle now course module mid lid p = Some (negb was, p') /\
    findLectureProgress mid lid p'
    = Some {| lectureId := lid; lp_completed := negb was;
              lp_completedAt := if was then None else Some now |} /\
    completedLecturesCount p' + (if was then 1 else 0)
    = completed_entries (modulesProgress p) + (if was then 0 else 1).
Proof.
  destruct (applyToggle_shape now course module mid lid p)
    as (mods1 & i & mp & lps1 & j & lp & Happ & Hmp & Hfm & Hmcase & Hm1 & _
        & Hlp & Hfl & Hlcase & Hl1 & _).
  cbn zeta in *.
  assert (Hwas : match findLectureProgress mid lid p with
                 | Some lp => lp_completed lp
                 | None => false
                 end = lp_completed lp).
  { rewrite findLectureProgress_find.
    destruct Hmcase as [[-> _] | (-> & -> & _)]; cbn [mbind option_bind].
    - destruct Hlcase as [[-> _] | (-> & -> & _)]; reflexivity.
    - destruct Hlcase as [[Hl _] | (_ & -> & _)]; [| reflexivity].
      cbn [lecturesProgress newModuleProgress] in Hl.
      rewrite (find_new_lecture _ _ _ Hl). reflexivity. }
  cbn zeta. rewrite Hwas.
  eexists. split; [exact Happ |]. split.
  - rewrite findLectureProgress_find, refreshStats_modulesProgress, Hm1.
    cbn [mbind option_bind lecturesProgress rollUpModule]. rewrite Hl1.
    unfold toggleLectureProgress. apply String.eqb_eq in Hfl. rewrite Hfl.
    destruct (lp_completed lp); reflexivity.
  - rewrite refreshStats_count.
    pose proof (completed_entries_insert mods1 i mp
                  (rollUpModule now mp
                     (<[j := toggleLectureProgress now lp]> lps1)) Hmp) as H1.
    cbn [lecturesProgress rollUpModule] in H1.
    pose proof (filter_length_insert lps1 j lp (toggleLectureProgress now lp)
                  Hlp) as H2.
    assert (H3 : length (List.filter lp_completed lps1)
                 = length (List.filter lp_completed (lecturesProgress mp))).
    { destruct Hlcase as [[_ ->] | (_ & _ & -> & _)]; [reflexivity |].
      rewrite List.filter_app, length_app. cbn. lia. }
    assert (H4 : completed_entries mods1
                 = completed_entries (modulesProgress p)).
    { destruct Hmcase as [[_ ->] | (_ & -> & -> & _)]; [reflexivity |].
      rewrite completed_entries_push.
      cbn [lecturesProgress newModuleProgress].
      rewrite filter_new_lectures. cbn. lia. }
    unfold flag in H2.
    change (lp_completed (toggleLectureProgress now lp))
      with (negb (lp_completed lp)) in H2.
    destruct (lp_completed lp); cbn [negb] in *; lia.
Qed.

(** What a search for another lecture finds after the toggle. *)
Lemma applyToggle_frame (now : Z) (course : Course) (module : CourseModule)
    (mid lid mid2 lid2 : string) (p p' : Progress) (b : bool) :
  (mid2, lid2) <> (mid, lid) ->
  applyToggle now course module mid lid p = Some (b, p') ->
  findLectureProgress mid2 lid2 p' = findLectureProgress mid2 lid2 p \/
  findLectureProgress mid2 lid2 p = None /\
  findLectureProgress mid2 lid2 p' = Some (newLectureProgress lid2).
Proof.
  intros Hne Happ.
  destruct (applyToggle_shape now course module mid lid p)
    as (mods1 & i & mp & lps1 & j & lp & Happ' & Hmp & Hfm & Hmcase & Hm1
        & Hm2 & Hlp & Hfl & Hlcase & Hl1 & Hl2).
  cbn zeta in *. rewrite Happ' in Happ. injection Happ as _ <-.
  rewrite !findLectureProgress_find, refreshStats_modulesProgress.
  destruct (String.eqb_spec mid2 mid) as [-> | Hmid].
  - assert (Hlid : lid <> lid2) by congruence.
    rewrite Hm1. cbn [mbind option_bind lecturesProgress rollUpModule].
    rewrite (Hl2 (fun lp => String.eqb (lectureId lp) lid2))
      by (intros z Hz; exact (eqb_other _ _ _ Hlid Hz)).
    destruct Hmcase as [[-> _] | (-> & -> & _)]; cbn [mbind option_bind];
      [left; reflexivity |].
    cbn [lecturesProgress newModuleProgress].
    destruct (List.find _ (map _ (lectures module))) as [lp2 |] eqn:Hfind;
      [| left; reflexivity].
    right. rewrite (find_new_lecture _ _ _ Hfind). auto.
  - left.
    rewrite (Hm2 (fun mp => String.eqb (moduleId mp) mid2));
      [reflexivity |].
    intros z Hz. apply (eqb_other _ mid); [congruence | exact Hz].
Qed.



(** X7. A toggle leaves every other lecture of the student as it was: for
    a lecture other than the addressed one, the entry found afterwards is
    the entry found before; the only entries that appear are untouched
    ones (not completed, no time), created along with a module entry or a
    record that did not exist. Whether another lecture counts as completed
    therefore never changes. *)
Theorem toggleLecture_other_lectures (now : Z) (enrollment : bool)
    (course : option Course) (uid cid mid lid mid2 lid2 : string)
    (db : gmap (string * string) Progress) :
  (mid2, lid2) <> (mid, lid) ->
  let db' := snd (toggleLecture now enrollment course uid cid mid lid db) in
  (lectureState db' uid cid mid2 lid2 = lectureState db uid cid mid2 lid2 \/
   lectureState db uid cid mid2 lid2 = None /\
   lectureState db' uid cid mid2 lid2 = Some (newLectureProgress lid2)) /\
  lectureCompleted db' uid cid mid2 lid2
  = lectureCompleted db uid cid mid2 lid2.
Proof.
  intros Hne. cbn zeta.
  assert (Hstate :
    lectureState
      (snd (toggleLecture now enrollment course uid cid mid lid db))
      uid cid mid2 lid2 = lectureState db uid cid mid2 lid2 \/
    lectureState db uid cid mid2 lid2 = None /\
    lectureState
      (snd (toggleLecture now enrollment course uid cid mid lid db))
      uid cid mid2 lid2 = Some (newLectureProgress lid2)).
  { pose proof (toggleLecture_cases now enrollment course uid cid mid lid db)
      as H.
    destruct (toggleAccepted enrollment course mid lid).
    - destruct H as (c & module & p & db1 & b & p' & _ & _ & Hg & Ht & ->).
      destruct (getOrCreateProgress_frame _ _ _ _ _ _ Hg)
        as (_ & _ & Hnew & Hold).
      cbn [snd]. unfold lectureState. rewrite lookup_insert_eq.
      cbn [mbind option_bind].
      pose proof (applyToggle_frame _ _ _ _ _ _ _ _ _ _ Hne Ht) as Hf.
      destruct (db !! (uid, cid)) as [q |] eqn:Hdb; cbn [mbind option_bind].
      + destruct (Hold q eq_refl) as [-> _]. exact Hf.
      + rewrite (Hnew eq_refl) in Hf.
        destruct Hf as [Hf | [_ Hf]]; [| right; auto].
        rewrite Hf.
        destruct (findLectureProgress mid2 lid2 (initialProgress c uid cid))
          as [lp |] eqn:Hlp; [| left; reflexivity].
        right. rewrite (initialProgress_find _ _ _ _ _ _ Hlp). auto.
    - destruct H as (code & msg & _ & ->). left. reflexivity. }
  split; [exact Hstate |].
  unfold lectureCompleted.
  destruct Hstate as [-> | [-> ->]]; reflexivity.
Qed.

Lemma toggleLecture_other_lectures_witness :
  lectureCompleted
    (snd (toggleLecture 7 true (Some course6) "u" "c" "a" "a01"
            {[ ("u", "c") := progress_3_of_6 ]})) "u" "c" "b" "b00"
  = lectureCompleted {[ ("u", "c") := progress_3_of_6 ]} "u" "c" "b" "b00".
Proof.
  apply (toggleLecture_other_lectures 7 true (Some course6) "u" "c" "a" "a01"
           "b" "b00" {[ ("u", "c") := progress_3_of_6 ]}).
  discriminate.
Defined.

(* --------------------------------------------------------------------- *)
(** ** The statistics: ends of the scale, order, completion                *)
(* --------------------------------------------------------------------- *)

Lemma round_percent_exact_full (t : Z) :
  (0 < t)%Z ->
  round_percent_exact t t = 100%Z /\
  ((2 * (100 * t) + t) mod (2 * t) <> 0)%Z.
Proof.
  intros Ht. unfold round_percent_exact.
  replace (2 * (100 * t) + t)%Z with (t + 100 * (2 * t))%Z by lia.
  rewrite Z.div_add, Z.mod_add, Z.div_small, Z.mod_small by lia. lia.
Qed.

Lemma round_percent_exact_none (t : Z) :
  (0 < t)%Z ->
  round_percent_exact 0 t = 0%Z /\
  ((2 * (100 * 0) + t) mod (2 * t) <> 0)%Z.
Proof.
  intros Ht. unfold round_percent_exact. cbn [Z.mul Z.add].
  rewrite Z.div_small, Z.mod_small by lia. lia.
Qed.

Lemma percentageOf_full (t : nat) :
  0 < t -> (Z.of_nat t < 2 ^ 32)%Z -> percentageOf t t = Z2SF 100.
Proof.
  intros Ht Hbig.
  destruct (percentageOf_close t t (le_n t) Hbig) as (n & -> & _ & _ & Htie).
  destruct (round_percent_exact_full (Z.of_nat t) ltac:(lia)) as [He Hm].
  apply Z.eqb_neq in Hm. rewrite Hm in Htie. rewrite Htie, He. reflexivity.
Qed.

Lemma percentageOf_none (t : nat) :
  (Z.of_nat t < 2 ^ 32)%Z -> percentageOf 0 t = Z2SF 0.
Proof.
  intros Hbig. destruct t as [| t]; [reflexivity |].
  destruct (percentageOf_close 0 (S t) ltac:(lia) Hbig)
    as (n & -> & _ & _ & Htie).
  destruct (round_percent_exact_none (Z.of_nat (S t)) ltac:(lia)) as [He Hm].
  apply Z.eqb_neq in Hm. change (Z.of_nat 0) with 0%Z in Htie.
  rewrite Hm in Htie. rewrite Htie, He. reflexivity.
Qed.

Lemma percentageOf_le (c1 c2 t : nat) :
  c1 <= c2 -> c2 <= t -> (Z.of_nat t < 2 ^ 32)%Z ->
  exists n1 n2 : Z,
    percentageOf c1 t = Z2SF n1 /\ percentageOf c2 t = Z2SF n2 /\
    (0 <= n1 <= n2)%Z /\ (n2 <= 100)%Z.
Proof.
  intros H12 H2t Hbig.
  destruct (percentageOf_close c2 t H2t Hbig)
    as (n2 & E2 & R2 & [L2 U2] & T2).
  destruct (Nat.eq_dec c1 c2) as [-> | Hne].
  { exists n2, n2. repeat split; first [assumption | lia]. }
  destruct (percentageOf_close c1 t ltac:(lia) Hbig)
    as (n1 & E1 & R1 & [L1 U1] & _).
  exists n1, n2. split; [exact E1 |]. split; [exact E2 |].
  split; [| lia]. split; [lia |].
  unfold round_percent_exact in *.
  set (t' := Z.of_nat t) in *. set (a := Z.of_nat c1) in *.
  set (b := Z.of_nat c2) in *.
  assert (Ht : (0 < t')%Z) by lia.
  assert (Hab : (a < b)%Z) by lia.
  destruct (Z.eqb_spec ((2 * (100 * b) + t') mod (2 * t')) 0) as [Hm | Hm].
  - assert (Hdiv : (2 * (100 * b) + t'
                    = 2 * t' * ((2 * (100 * b) + t') / (2 * t')))%Z).
    { pose proof (Z.div_mod (2 * (100 * b) + t') (2 * t') ltac:(lia)). lia. }
    assert (Hlt : ((2 * (100 * a) + t') / (2 * t')
                   < (2 * (100 * b) + t') / (2 * t'))%Z).
    { apply Z.div_lt_upper_bound; lia. }
    lia.
  - subst n2.
    assert (Hle : ((2 * (100 * a) + t') / (2 * t')
                   <= (2 * (100 * b) + t') / (2 * t'))%Z).
    { apply Z.div_le_mono; lia. }
    lia.
Qed.

(** X8. The two ends of the scale, for a course of fewer than 2^32
    lectures: when [calculateProgressStats] reports the course completed
    the percentage is exactly 100, and when no entry is completed it is
    exactly 0; the binary64 division and product lose nothing there. *)
Theorem percentage_at_the_ends (now : Z) (course : Course)
    (progress : Progress) :
  (Z.of_nat (total_lectures course) < 2 ^ 32)%Z ->
  let s := calculateProgressStats now course progress in
  (stats_completed s = true -> stats_progressPercentage s = Z2SF 100) /\
  (stats_completedLecturesCount s = 0 -> stats_progressPercentage s = Z2SF 0).
Proof.
  intros Hbig. cbn zeta.
  unfold calculateProgressStats.
  cbn [stats_completed stats_progressPercentage stats_completedLecturesCount].
  rewrite countTotalLectures_spec, countCompletedLectures_spec. split.
  - intros H. apply andb_true_iff in H. destruct H as [Hpos Heq].
    apply Nat.ltb_lt in Hpos. apply Nat.eqb_eq in Heq. rewrite Heq.
    apply percentageOf_full; assumption.
  - intros ->. apply percentageOf_none. exact Hbig.
Qed.

Lemma percentage_at_the_ends_witness :
  stats_progressPercentage (calculateProgressStats 2 course1 progress_complete)
  = Z2SF 100.
Proof.
  apply (percentage_at_the_ends 2 course1 progress_complete);
    [vm_compute | ]; reflexivity.
Defined.

(** X9. The percentage follows the count: of two records of the same
    course (fewer than 2^32 lectures), the one with at least as many
    completed entries, and no more than the course has lectures, gets a
    percentage at least as large; both are integers from 0 to 100. The
    rounding of the double never reverses the order. *)
Theorem percentage_monotone (now1 now2 : Z) (course : Course)
    (progress1 progress2 : Progress) :
  completed_entries (modulesProgress progress1)
    <= completed_entries (modulesProgress progress2) ->
  completed_entries (modulesProgress progress2) <= total_lectures course ->
  (Z.of_nat (total_lectures course) < 2 ^ 32)%Z ->
  exists n1 n2 : Z,
    stats_progressPercentage (calculateProgressStats now1 course progress1)
    = Z2SF n1 /\
    stats_progressPercentage (calculateProgressStats now2 course progress2)
    = Z2SF n2 /\
    (0 <= n1 <= n2)%Z /\ (n2 <= 100)%Z.
Proof.
  intros H12 H2t Hbig. unfold calculateProgressStats.
  cbn [stats_progressPercentage].
  rewrite countTotalLectures_spec, !countCompletedLectures_spec.
  apply percentageOf_le; assumption.
Qed.

Lemma percentage_monotone_witness :
  exists n1 n2 : Z,
    stats_progressPercentage (calculateProgressStats 1 course6 progress_partial)
    = Z2SF n1 /\
    stats_progressPercentage (calculateProgressStats 2 course6 progress_3_of_6)
    = Z2SF n2 /\
    (0 <= n1 <= n2)%Z /\ (n2 <= 100)%Z.
Proof.
  apply (percentage_monotone 1 2 course6 progress_partial progress_3_of_6);
    vm_compute; first [lia | reflexivity | discriminate].
Defined.

(** The converse of both ends fails: 199 of 200 lectures show as 100 %
    without the course being completed, and 1 of 201 shows as 0 %. *)
Example full_percentage_without_completion :
  let s := calculateProgressStats 2 course200 progress_199_of_200 in
  stats_completedLecturesCount s = 199 /\
  stats_totalLecturesCount s = 200 /\
  stats_progressPercentage s = Z2SF 100 /\
  stats_completed s = false /\
  percentageOf 1 201 = Z2SF 0.
Proof. vm_compute. repeat split; reflexivity. Qed.

(* --------------------------------------------------------------------- *)
(** ** What "completed" means                                              *)
(* --------------------------------------------------------------------- *)

Lemma elem_of_progress_keys (mods : list ModuleProgress)
    (k : string * string) :
  k ∈ progress_keys mods <->
  exists mp, mp ∈ mods /\ fst k = moduleId mp /\
             snd k ∈ map lectureId (lecturesProgress mp).
Proof.
  unfold progress_keys. rewrite list_elem_of_In, in_flat_map. split.
  - intros (mp & Hmp & Hk). exists mp.
    apply in_map_iff in Hk. destruct Hk as (lp & <- & Hlp). cbn [fst snd].
    split; [apply list_elem_of_In; exact Hmp |]. split; [reflexivity |].
    apply list_elem_of_In, in_map. exact Hlp.
  - intros (mp & Hmp & Hm & Hl). exists mp.
    split; [apply list_elem_of_In; exact Hmp |].
    apply list_elem_of_In, in_map_iff in Hl. destruct Hl as (lp & Hl & Hlp).
    apply in_map_iff. exists lp. split; [| exact Hlp].
    destruct k as [m l]. cbn in *. congruence.
Qed.

Lemma elem_of_course_keys (course : Course) (k : string * string) :
  k ∈ course_keys course <->
  exists m, m ∈ modules course /\ fst k = module_id m /\
            snd k ∈ map lecture_id (lectures m).
Proof.
  unfold course_keys. rewrite list_elem_of_In, in_flat_map. split.
  - intros (m & Hm & Hk). exists m.
    apply in_map_iff in Hk. destruct Hk as (l & <- & Hl). cbn [fst snd].
    split; [apply list_elem_of_In; exact Hm |]. split; [reflexivity |].
    apply list_elem_of_In, in_map. exact Hl.
  - intros (m & Hm & Hmid & Hl). exists m.
    split; [apply list_elem_of_In; exact Hm |].
    apply list_elem_of_In, in_map_iff in Hl. destruct Hl as (l & Hl & Hin).
    apply in_map_iff. exists l. split; [| exact Hin].
    destruct k as [a b]. cbn in *. congruence.
Qed.

(** Keys built from distinct outer and inner identifiers are distinct. *)
Lemma NoDup_keys {A B : Type} (ka : A -> string) (kb : B -> string)
    (sub : A -> list B) (l : list A) :
  NoDup (map ka l) ->
  Forall (fun a => NoDup (map kb (sub a))) l ->
  NoDup (flat_map (fun a => map (fun b => (ka a, kb b)) (sub a)) l).
Proof.
  induction l as [| a l IH]; intros Hka Hkb; [constructor |].
  cbn [flat_map]. cbn [map] in Hka.
  apply NoDup_cons in Hka. destruct Hka as [Ha Hl].
  apply Forall_cons in Hkb. destruct Hkb as [Hsa Hsl].
  apply NoDup_app. split; [| split; [| exact (IH Hl Hsl)]].
  - clear - Hsa. induction (sub a) as [| b bs IHb]; [constructor |].
    cbn [map] in *. apply NoDup_cons in Hsa. destruct Hsa as [Hb Hbs].
    apply NoDup_cons. split; [| exact (IHb Hbs)].
    intros Hin. apply Hb. apply list_elem_of_In in Hin.
    apply in_map_iff in Hin. destruct Hin as (b' & Heq & Hb').
    injection Heq as Heq. rewrite <- Heq.
    apply list_elem_of_In, in_map. exact Hb'.
  - intros x Hx Hx'. apply Ha.
    apply list_elem_of_In, in_map_iff in Hx. destruct Hx as (b & <- & _).
    apply list_elem_of_In, in_flat_map in Hx'.
    destruct Hx' as (a' & Ha' & Hin).
    apply in_map_iff in Hin. destruct Hin as (b' & Heq & _).
    injection Heq as Heq _. rewrite <- Heq.
    apply list_elem_of_In, in_map. exact Ha'.
Qed.

Lemma course_ok_NoDup (course : Course) :
  course_ok course -> NoDup (course_keys course).
Proof. intros [H1 H2]. apply NoDup_keys; assumption. Qed.

Lemma record_ok_valid (course : Course) (progress : Progress) :
  record_ok course progress -> valid_progress course progress = true.
Proof.
  intros (H1 & H2 & H3). apply bool_decide_eq_true. split; [| exact H3].
  apply NoDup_keys; assumption.
Qed.

Lemma length_completed_keys (mods : list ModuleProgress) :
  length (completed_keys mods) = completed_entries mods.
Proof.
  unfold completed_keys, completed_entries, lecture_entries.
  induction mods as [| mp mods IH]; [reflexivity |].
  cbn [flat_map]. rewrite List.filter_app, !length_app, length_map, IH.
  reflexivity.
Qed.

Lemma completed_keys_sub (mods : list ModuleProgress) :
  completed_keys mods ⊆+ progress_keys mods.
Proof.
  unfold completed_keys, progress_keys.
  induction mods as [| mp mods IH]; [constructor |].
  cbn [flat_map]. apply submseteq_app; [| exact IH].
  apply sublist_submseteq.
  induction (lecturesProgress mp) as [| lp lps IHl]; [constructor |].
  cbn [List.filter]. destruct (lp_completed lp); cbn [map].
  - apply sublist_skip. exact IHl.
  - apply sublist_cons. exact IHl.
Qed.

Lemma stats_completed_eq (now : Z) (course : Course) (progress : Progress) :
  stats_completed (calculateProgressStats now course progress)
  = (0 <? total_lectures course)
    && (completed_entries (modulesProgress progress)
        =? total_lectures course).
Proof.
  unfold calculateProgressStats. cbn [stats_completed].
  rewrite countTotalLectures_spec, countCompletedLectures_spec. reflexivity.
Qed.

Lemma completed_keys_in_course (course : Course) (progress : Progress) :
  valid_progress course progress = true ->
  completed_keys (modulesProgress progress) ⊆+ course_keys course.
Proof.
  unfold valid_progress. intros H. apply bool_decide_eq_true in H.
  destruct H as [Hnd Hsub].
  etransitivity; [apply completed_keys_sub |].
  apply NoDup_submseteq; assumption.
Qed.

Lemma stats_completed_sound (now : Z) (course : Course)
    (progress : Progress) :
  valid_progress course progress = true ->
  stats_completed (calculateProgressStats now course progress) = true ->
  completed_keys (modulesProgress progress) ≡ₚ course_keys course.
Proof.
  intros Hvalid H. rewrite stats_completed_eq in H.
  apply andb_true_iff in H. destruct H as [_ Heq]. apply Nat.eqb_eq in Heq.
  apply submseteq_length_Permutation;
    [apply completed_keys_in_course; exact Hvalid |].
  rewrite length_completed_keys, length_course_keys. lia.
Qed.

Lemma stats_completed_complete (now : Z) (course : Course)
    (progress : Progress) :
  valid_progress course progress = true ->
  course_ok course -> 0 < total_lectures course ->
  (forall k, k ∈ course_keys course ->
             k ∈ completed_keys (modulesProgress progress)) ->
  stats_completed (calculateProgressStats now course progress) = true.
Proof.
  intros Hvalid Hok Hpos Hall. rewrite stats_completed_eq.
  apply andb_true_iff. split; [apply Nat.ltb_lt; exact Hpos |].
  apply Nat.eqb_eq. apply Nat.le_antisymm.
  - apply valid_progress_count. exact Hvalid.
  - rewrite <- length_course_keys, <- length_completed_keys.
    apply submseteq_length, NoDup_submseteq;
      [apply course_ok_NoDup; exact Hok | exact Hall].
Qed.

(** X10. What a completed course means. For a record that is valid for the
    course (entries keyed by distinct lectures of the course),
    [calculateProgressStats] reports the course completed only if the
    completed entries are exactly the lectures of the course, each once: no
    lecture lacks an entry and no entry is incomplete. When moreover the
    identifiers of the course are distinct, it reports it completed as
    soon as the course has a lecture and every lecture has a completed
    entry. *)
Theorem completed_means_every_lecture (now : Z) (course : Course)
    (progress : Progress) :
  valid_progress course progress = true ->
  let s := calculateProgressStats now course progress in
  (stats_completed s = true ->
   completed_keys (modulesProgress progress) ≡ₚ course_keys course) /\
  (course_ok course -> 0 < total_lectures course ->
   (forall k, k ∈ course_keys course ->
              k ∈ completed_keys (modulesProgress progress)) ->
   stats_completed s = true).
Proof.
  intros Hvalid. cbn zeta. split.
  - apply stats_completed_sound. exact Hvalid.
  - apply stats_completed_complete. exact Hvalid.
Qed.

Lemma completed_means_every_lecture_witness :
  completed_keys (modulesProgress progress_complete) ≡ₚ course_keys course1.
Proof.
  apply (completed_means_every_lecture 2 course1 progress_complete);
    reflexivity.
Defined.

(* --------------------------------------------------------------------- *)
(** ** Well-formed records stay well formed                                *)
(* --------------------------------------------------------------------- *)

Lemma map_insert_same {A B : Type} (f : A -> B) (l : list A) (i : nat)
    (x y : A) :
  l !! i = Some x -> f y = f x -> map f (<[i := y]> l) = map f l.
Proof.
  revert i. induction l as [| a l IH]; intros [| i] Hx Hf; try discriminate.
  - injection Hx as ->. cbn. rewrite Hf. reflexivity.
  - change (<[S i := y]> (a :: l)) with (a :: <[i := y]> l).
    cbn [map]. rewrite (IH i Hx Hf). reflexivity.
Qed.

Lemma elem_of_insert_inv {A : Type} (l : list A) (i : nat) (y z : A) :
  z ∈ <[i := y]> l -> z = y \/ z ∈ l.
Proof.
  revert i. induction l as [| a l IH]; intros [| i] Hz.
  - exact (or_intror Hz).
  - exact (or_intror Hz).
  - change (<[0 := y]> (a :: l)) with (y :: l) in Hz.
    apply elem_of_cons in Hz. destruct Hz as [-> | Hz]; [left; reflexivity |].
    right. apply list_elem_of_further. exact Hz.
  - change (<[S i := y]> (a :: l)) with (a :: <[i := y]> l) in Hz.
    apply elem_of_cons in Hz. destruct Hz as [-> | Hz].
    + right. apply list_elem_of_here.
    + destruct (IH i Hz) as [-> | Hz']; [left; reflexivity |].
      right. apply list_elem_of_further. exact Hz'.
Qed.

Lemma find_None_fresh {A : Type} (key : A -> string) (l : list A)
    (id : string) :
  List.find (fun a => String.eqb (key a) id) l = None ->
  id ∉ map key l.
Proof.
  intros Hnone Hin. apply list_elem_of_In, in_map_iff in Hin.
  destruct Hin as (a & Ha & Hin).
  pose proof (List.find_none _ _ Hnone a Hin) as Hf. cbn in Hf.
  rewrite Ha, String.eqb_refl in Hf. discriminate.
Qed.

Lemma NoDup_snoc_fresh (l : list string) (id : string) :
  NoDup l -> id ∉ l -> NoDup (l ++ [id]).
Proof.
  intros Hl Hid. apply NoDup_app. split; [exact Hl |]. split.
  - intros x Hx Hx'. apply list_elem_of_singleton in Hx'. subst x.
    exact (Hid Hx).
  - apply NoDup_singleton.
Qed.

Lemma initialProgress_record_ok (course : Course) (uid cid : string) :
  course_ok course -> record_ok course (initialProgress course uid cid).
Proof.
  intros [Hm Hl]. unfold record_ok, entries_ok.
  cbn [modulesProgress initialProgress].
  split; [| split].
  - rewrite map_map. exact Hm.
  - apply Forall_map. cbn [lecturesProgress newModuleProgress].
    eapply Forall_impl; [exact Hl |].
    intros m Hnd. cbn beta. rewrite map_map. exact Hnd.
  - intros k Hk. apply elem_of_progress_keys in Hk.
    destruct Hk as (mp & Hmp & Hfst & Hsnd).
    apply list_elem_of_In, in_map_iff in Hmp.
    destruct Hmp as (m & <- & Hin).
    cbn [moduleId lecturesProgress newModuleProgress] in Hfst, Hsnd.
    rewrite map_map in Hsnd.
    apply elem_of_course_keys. exists m.
    split; [apply list_elem_of_In; exact Hin | auto].
Qed.

(** The entries with the entry of a module of the course pushed. *)
Lemma entries_ok_push (course : Course) (module : CourseModule)
    (mods : list ModuleProgress) :
  course_ok course -> In module (modules course) ->
  entries_ok course mods ->
  List.find (fun mp => String.eqb (moduleId mp) (module_id module)) mods
  = None ->
  entries_ok course (mods ++ [newModuleProgress (module_id module) module]).
Proof.
  intros [_ Hl] Hin (H1 & H2 & H3) Hnone. split; [| split].
  - rewrite map_app. apply NoDup_snoc_fresh; [exact H1 |].
    apply find_None_fresh. exact Hnone.
  - apply Forall_app. split; [exact H2 |]. apply Forall_singleton.
    cbn [lecturesProgress newModuleProgress]. rewrite map_map.
    rewrite List.Forall_forall in Hl. exact (Hl module Hin).
  - intros k Hk. apply elem_of_progress_keys in Hk.
    destruct Hk as (mp & Hmp & Hfst & Hsnd).
    apply elem_of_app in Hmp. destruct Hmp as [Hmp | Hmp].
    + apply H3, elem_of_progress_keys. exists mp. auto.
    + apply list_elem_of_singleton in Hmp. subst mp.
      cbn [moduleId lecturesProgress newModuleProgress] in Hfst, Hsnd.
      rewrite map_map in Hsnd.
      apply elem_of_course_keys. exists module.
      split; [apply list_elem_of_In; exact Hin | auto].
Qed.

(** The entries with one module entry replaced by one of the same module
    whose lecture entries are those of the old one, possibly followed by a
    lecture of that module in the course. *)
Lemma entries_ok_insert (course : Course) (module : CourseModule)
    (lid : string) (mods : list ModuleProgress) (i : nat)
    (mp mp' : ModuleProgress) :
  In module (modules course) ->
  In lid (map lecture_id (lectures module)) ->
  entries_ok course mods ->
  mods !! i = Some mp ->
  moduleId mp' = moduleId mp ->
  moduleId mp = module_id module ->
  (map lectureId (lecturesProgress mp')
   = map lectureId (lecturesProgress mp) \/
   (lid ∉ map lectureId (lecturesProgress mp)) /\
   map lectureId (lecturesProgress mp')
   = map lectureId (lecturesProgress mp) ++ [lid]) ->
  entries_ok course (<[i := mp']> mods).
Proof.
  intros Hin Hlid (H1 & H2 & H3) Hmp Hid Hmid Hcase.
  pose proof (Forall_lookup_1 _ _ _ _ H2 Hmp) as Hnd. cbn beta in Hnd.
  assert (Hkeys : forall l, l ∈ map lectureId (lecturesProgress mp') ->
                            (moduleId mp, l) ∈ course_keys course).
  { intros l Hl.
    assert (Hl' : l ∈ map lectureId (lecturesProgress mp) \/ l = lid).
    { destruct Hcase as [<- | [_ Heq]]; [left; exact Hl |].
      rewrite Heq in Hl. apply elem_of_app in Hl.
      destruct Hl as [Hl | Hl]; [left; exact Hl |].
      right. apply list_elem_of_singleton in Hl. exact Hl. }
    destruct Hl' as [Hl' | ->].
    - apply H3, elem_of_progress_keys. exists mp.
      split; [exact (list_elem_of_lookup_2 _ _ _ Hmp) | auto].
    - apply elem_of_course_keys. exists module.
      split; [apply list_elem_of_In; exact Hin |].
      split; [exact Hmid | apply list_elem_of_In; exact Hlid]. }
  split; [| split].
  - rewrite (map_insert_same moduleId mods i mp mp' Hmp Hid). exact H1.
  - apply Forall_insert; [exact H2 |].
    destruct Hcase as [-> | [Hfresh ->]]; [exact Hnd |].
    apply NoDup_snoc_fresh; assumption.
  - intros k Hk. apply elem_of_progress_keys in Hk.
    destruct Hk as (mp0 & Hmp0 & Hfst & Hsnd).
    destruct (elem_of_insert_inv _ _ _ _ Hmp0) as [-> | Hold].
    + destruct k as [m l]. cbn [fst snd] in Hfst, Hsnd.
      rewrite Hfst, Hid. apply Hkeys. exact Hsnd.
    + apply H3, elem_of_progress_keys. exists mp0. auto.
Qed.

Lemma applyToggle_record_ok (now : Z) (course : Course)
    (module : CourseModule) (lid : string) (p p' : Progress) (b : bool) :
  course_ok course -> In module (modules course) ->
  In lid (map lecture_id (lectures module)) ->
  record_ok course p ->
  applyToggle now course module (module_id module) lid p = Some (b, p') ->
  record_ok course p'.
Proof.
  intros Hok Hin Hlid Hrec Happ.
  destruct (applyToggle_shape now course module (module_id module) lid p)
    as (mods1 & i & mp & lps1 & j & lp & Happ' & Hmp & Hfm & Hmcase & _ & _
        & Hlp & Hfl & Hlcase & _ & _).
  cbn zeta in *. rewrite Happ' in Happ. injection Happ as _ <-.
  unfold record_ok. rewrite refreshStats_modulesProgress.
  apply String.eqb_eq in Hfm.
  assert (Hok1 : entries_ok course mods1).
  { destruct Hmcase as [[_ ->] | (Hnone & _ & -> & _)]; [exact Hrec |].
    apply entries_ok_push; assumption. }
  apply (entries_ok_insert course module lid mods1 i mp); try assumption.
  - reflexivity.
  - cbn [lecturesProgress rollUpModule].
    rewrite (map_insert_same lectureId lps1 j lp (toggleLectureProgress now lp)
               Hlp eq_refl).
    destruct Hlcase as [[_ ->] | (Hnone & _ & -> & _)]; [left; reflexivity |].
    right. split; [apply find_None_fresh; exact Hnone |].
    rewrite map_app. reflexivity.
Qed.

(** X11. The router keeps records well formed. For a course whose module
    identifiers are distinct and whose lecture identifiers are distinct
    within each module: if the record of the student (when there is one)
    has distinct module entries, distinct lecture entries within each, and
    only entries of lectures of the course, then so has the record stored
    after the toggle, after the query and after the initialisation,
    whatever the request and whether it was accepted; such a record is
    valid for the course, with at most as many completed entries as the
    course has lectures. *)
Theorem router_keeps_records_ok (now : Z) (role : Role) (enrollment : bool)
    (c : Course) (uid cid mid lid : string)
    (db : gmap (string * string) Progress) :
  course_ok c ->
  (forall q, db !! (uid, cid) = Some q -> record_ok c q) ->
  forall (db' : gmap (string * string) Progress) (p' : Progress),
    db' = snd (toggleLecture now enrollment (Some c) uid cid mid lid db) \/
    db' = snd (getCourseProgress role enrollment (Some c) uid cid db) \/
    db' = snd (initializeRoute enrollment (Some c) uid cid db) ->
    db' !! (uid, cid) = Some p' ->
    record_ok c p' /\ valid_progress c p' = true /\
    completed_entries (modulesProgress p') <= total_lectures c.
Proof.
  intros Hok Hdb db' p' Hcase Hp'.
  assert (Hrec : record_ok c p').
  { assert (Hgot : forall p db1,
               getOrCreateProgress c uid cid db = Some (p, db1) ->
               record_ok c p).
    { intros p db1 Hg.
      destruct (getOrCreateProgress_frame _ _ _ _ _ _ Hg)
        as (_ & _ & Hnew & Hold).
      destruct (db !! (uid, cid)) as [q |] eqn:Hq.
      - destruct (Hold q eq_refl) as [-> _]. apply Hdb. reflexivity.
      - rewrite (Hnew eq_refl). apply initialProgress_record_ok. exact Hok. }
    destruct Hcase as [-> | [-> | ->]].
    - pose proof (toggleLecture_cases now enrollment (Some c) uid cid mid lid
                    db) as H.
      destruct (toggleAccepted enrollment (Some c) mid lid).
      + destruct H as (c0 & module & p & db1 & b & p'' & Hc
                       & (Hin & Hmid & Hlid) & Hg & Ht & Heq).
        injection Hc as <-. rewrite Heq in Hp'. cbn [snd] in Hp'.
        rewrite lookup_insert_eq in Hp'. injection Hp' as <-.
        subst mid.
        exact (applyToggle_record_ok _ _ _ _ _ _ _ Hok Hin Hlid
                 (Hgot _ _ Hg) Ht).
      + destruct H as (code & msg & _ & Heq). rewrite Heq in Hp'.
        apply Hdb. exact Hp'.
    - unfold getCourseProgress in Hp'.
      destruct (is_student role && negb enrollment);
        [apply Hdb; exact Hp' |].
      destruct (getOrCreateProgress c uid cid db) as [[p db1] |] eqn:Hg;
        [| apply Hdb; exact Hp'].
      cbn [snd] in Hp'.
      destruct (getOrCreateProgress_frame _ _ _ _ _ _ Hg) as (Hp & _).
      rewrite Hp in Hp'. injection Hp' as <-. exact (Hgot _ _ eq_refl).
    - unfold initializeRoute, initializeProgress in Hp'.
      destruct (negb enrollment); [apply Hdb; exact Hp' |].
      destruct (db !! (uid, cid)) as [q |] eqn:Hq;
        [apply Hdb; rewrite <- Hq; exact Hp' |].
      cbn [snd] in Hp'. rewrite lookup_insert_eq in Hp'.
      injection Hp' as <-. apply initialProgress_record_ok. exact Hok. }
  split; [exact Hrec |].
  pose proof (record_ok_valid _ _ Hrec) as Hvalid.
  split; [exact Hvalid | apply valid_progress_count; exact Hvalid].
Qed.

Lemma router_keeps_records_ok_witness :
  exists p' : Progress,
    snd (toggleLecture 7 true (Some course6) "u" "c" "a" "a01"
           {[ ("u", "c") := progress_3_of_6 ]}) !! ("u", "c") = Some p' /\
    valid_progress course6 p' = true.
Proof.
  eexists. split; [vm_compute; reflexivity |].
  eapply (router_keeps_records_ok 7 student true course6 "u" "c" "a" "a01"
            {[ ("u", "c") := progress_3_of_6 ]}).
  - split; apply (bool_decide_eq_true_1 _); vm_compute; reflexivity.
  - intros q Hq. rewrite lookup_singleton_eq in Hq. injection Hq as <-.
    repeat split; apply (bool_decide_eq_true_1 _); vm_compute; reflexivity.
  - left. reflexivity.
  - vm_compute. reflexivity.
Defined.

Lemma NoDup_map_inj_on {A : Type} (key : A -> string) (l : list A)
    (a b : A) :
  NoDup (map key l) -> In a l -> In b l -> key a = key b -> a = b.
Proof.
  induction l as [| x l IH]; intros Hnd Ha Hb Hkey; [contradiction |].
  cbn [map] in Hnd. apply NoDup_cons in Hnd. destruct Hnd as [Hx Hl].
  destruct Ha as [-> | Ha], Hb as [-> | Hb].
  - reflexivity.
  - exfalso. apply Hx. rewrite Hkey. apply list_elem_of_In, in_map. exact Hb.
  - exfalso. apply Hx. rewrite <- Hkey.
    apply list_elem_of_In, in_map. exact Ha.
  - exact (IH Hl Ha Hb Hkey).
Qed.

(** In a well-formed record, the completed keys are the lectures whose
    entry the handler's search finds completed. *)
Lemma completed_key_found (course : Course) (p : Progress) (m l : string) :
  record_ok course p ->
  (m, l) ∈ completed_keys (modulesProgress p) <->
  match findLectureProgress m l p with
  | Some lp => lp_completed lp
  | None => false
  end = true.
Proof.
  intros (Hm & Hl & _). rewrite findLectureProgress_find.
  unfold completed_keys. rewrite list_elem_of_In, in_flat_map. split.
  - intros (mp & Hmp & Hin). apply in_map_iff in Hin.
    destruct Hin as (lp & Heq & Hlp). injection Heq as <- <-.
    apply List.filter_In in Hlp. destruct Hlp as [Hlp Hdone].
    destruct (List.find _ (modulesProgress p)) as [mp' |] eqn:Hfind.
    + apply List.find_some in Hfind. destruct Hfind as [Hmp' Heq].
      apply String.eqb_eq in Heq.
      rewrite (NoDup_map_inj_on moduleId _ mp' mp Hm Hmp' Hmp Heq).
      cbn [mbind option_bind].
      destruct (List.find _ (lecturesProgress mp)) as [lp' |] eqn:Hfind'.
      * apply List.find_some in Hfind'. destruct Hfind' as [Hlp' Heq'].
        apply String.eqb_eq in Heq'.
        rewrite List.Forall_forall in Hl.
        rewrite (NoDup_map_inj_on lectureId _ lp' lp (Hl mp Hmp) Hlp' Hlp
                   Heq').
        exact Hdone.
      * pose proof (List.find_none _ _ Hfind' lp Hlp) as Hf. cbn in Hf.
        rewrite String.eqb_refl in Hf. discriminate.
    + pose proof (List.find_none _ _ Hfind mp Hmp) as Hf. cbn in Hf.
      rewrite String.eqb_refl in Hf. discriminate.
  - destruct (List.find _ (modulesProgress p)) as [mp |] eqn:Hfind;
      [| discriminate].
    cbn [mbind option_bind].
    destruct (List.find _ (lecturesProgress mp)) as [lp |] eqn:Hfind';
      [| discriminate].
    intros Hdone.
    apply List.find_some in Hfind, Hfind'.
    destruct Hfind as [Hmp Heq], Hfind' as [Hlp Heq'].
    apply String.eqb_eq in Heq, Heq'.
    exists mp. split; [exact Hmp |]. apply in_map_iff. exists lp.
    split; [congruence |]. apply List.filter_In. auto.
Qed.

Lemma course_keys_nonempty (c : Course) (k : string * string) :
  k ∈ course_keys c -> 0 < total_lectures c.
Proof.
  intros Hk. rewrite <- length_course_keys.
  destruct (course_keys c); [| cbn; lia].
  apply elem_of_nil in Hk. contradiction.
Qed.

(** X12. When the course is marked completed. In a course with distinct
    identifiers, after an accepted toggle on a well-formed record (or on
    no record yet), the stored record is marked completed exactly when
    every lecture of the course counts as completed for the student; its
    completion time is then the time of this call (also when the course
    was completed before) and null otherwise, its total is the number of
    lectures of the course, and its percentage is the one of its own
    counters. *)
Theorem toggle_marks_course_completed (now : Z) (enrollment : bool)
    (c : Course) (uid cid mid lid : string)
    (db : gmap (string * string) Progress) :
  course_ok c ->
  (forall q, db !! (uid, cid) = Some q -> record_ok c q) ->
  toggleAccepted enrollment (Some c) mid lid = true ->
  let db' := snd (toggleLecture now enrollment (Some c) uid cid mid lid db) in
  exists p' : Progress,
    db' !! (uid, cid) = Some p' /\
    (completed p' = true <->
     forall m l, (m, l) ∈ course_keys c ->
                 lectureCompleted db' uid cid m l = true) /\
    completedAt p' = (if completed p' then Some now else None) /\
    totalLecturesCount p' = total_lectures c /\
    progressPercentage p'
    = percentageOf (completedLecturesCount p') (totalLecturesCount p').
Proof.
  intros Hok Hdb Hacc. cbn zeta.
  pose proof (toggleLecture_cases now enrollment (Some c) uid cid mid lid db)
    as H.
  rewrite Hacc in H.
  destruct H as (c0 & module & p & db1 & b & p' & Hc & (Hin & Hmid & Hlid)
                 & Hg & Ht & ->).
  injection Hc as <-. subst mid. cbn [snd].
  assert (Hp : record_ok c p).
  { destruct (getOrCreateProgress_frame _ _ _ _ _ _ Hg)
      as (_ & _ & Hnew & Hold).
    destruct (db !! (uid, cid)) as [q |] eqn:Hq.
    - destruct (Hold q eq_refl) as [-> _]. apply Hdb. reflexivity.
    - rewrite (Hnew eq_refl). apply initialProgress_record_ok. exact Hok. }
  pose proof (applyToggle_record_ok _ _ _ _ _ _ _ Hok Hin Hlid Hp Ht) as Hp'.
  pose proof (record_ok_valid _ _ Hp') as Hvalid.
  assert (Hpos : 0 < total_lectures c).
  { apply (course_keys_nonempty c (module_id module, lid)).
    apply elem_of_course_keys. exists module.
    split; [apply list_elem_of_In; exact Hin |].
    split; [reflexivity | apply list_elem_of_In; exact Hlid]. }
  destruct (applyToggle_shape now c module (module_id module) lid p)
    as (mods1 & i & mp & lps1 & j & lp & Happ & _).
  cbn zeta in Happ. rewrite Happ in Ht. injection Ht as _ <-.
  eexists. split; [apply lookup_insert_eq |].
  set (p0 := setModulesProgress p _) in *.
  split; [| split; [| split]].
  - change (completed (refreshStats now c p0))
      with (stats_completed (calculateProgressStats now c p0)).
    assert (Hfound : forall m l,
               lectureCompleted
                 (<[(uid, cid) := refreshStats now c p0]> db1) uid cid m l
               = true
               <-> (m, l) ∈ completed_keys (modulesProgress p0)).
    { intros m l. unfold lectureCompleted, lectureState.
      rewrite lookup_insert_eq. cbn [mbind option_bind].
      symmetry. exact (completed_key_found c _ m l Hp'). }
    split.
    + intros Hdone m l Hk. apply Hfound.
      pose proof (stats_completed_sound now c p0 Hvalid Hdone) as Hperm.
      rewrite Hperm. exact Hk.
    + intros Hall.
      apply (stats_completed_complete now c p0 Hvalid Hok Hpos).
      intros [m l] Hk. apply Hfound, Hall, Hk.
  - reflexivity.
  - cbn. apply countTotalLectures_spec.
  - reflexivity.
Qed.

Lemma toggle_marks_course_completed_witness :
  exists p' : Progress,
    snd (toggleLecture 7 true (Some course6) "u" "c" "a" "a01"
           {[ ("u", "c") := progress_3_of_6 ]}) !! ("u", "c") = Some p' /\
    totalLecturesCount p' = 6.
Proof.
  destruct (toggle_marks_course_completed 7 true course6 "u" "c" "a" "a01"
              {[ ("u", "c") := progress_3_of_6 ]})
    as (p' & Hp' & _ & _ & Htotal & _).
  - split; apply (bool_decide_eq_true_1 _); vm_compute; reflexivity.
  - intros q Hq. rewrite lookup_singleton_eq in Hq. injection Hq as <-.
    repeat split; apply (bool_decide_eq_true_1 _); vm_compute; reflexivity.
  - reflexivity.
  - exists p'. split; [exact Hp' | exact Htotal].
Defined.

(* --------------------------------------------------------------------- *)
(** ** Runs of toggles                                                     *)
(* --------------------------------------------------------------------- *)

(** One call, seen from any lecture: the addressed lecture flips when the
    call is accepted, and nothing else changes. *)
Lemma toggleLecture_completed_step (now : Z) (enrollment : bool)
    (course : option Course) (uid cid mid lid m l : string)
    (db : gmap (string * string) Progress) :
  lectureCompleted
    (snd (toggleLecture now enrollment course uid cid mid lid db))
    uid cid m l
  = xorb (lectureCompleted db uid cid m l)
         (toggleAccepted enrollment course mid lid
          && bool_decide ((mid, lid) = (m, l))).
Proof.
  pose proof (toggleLecture_cases now enrollment course uid cid mid lid db)
    as H.
  destruct (toggleAccepted enrollment course mid lid); cbn [andb].
  - destruct H as (c & module & p & db1 & b & p' & _ & _ & Hg & Ht & ->).
    destruct (getOrCreateProgress_frame _ _ _ _ _ _ Hg)
      as (_ & _ & Hnew & Hold).
    assert (Hbefore : forall m' l',
               lectureCompleted db uid cid m' l'
               = match findLectureProgress m' l' p with
                 | Some lp => lp_completed lp
                 | None => false
                 end).
    { intros m' l'. unfold lectureCompleted, lectureState.
      destruct (db !! (uid, cid)) as [q |] eqn:Hdb; cbn [mbind option_bind].
      - destruct (Hold q eq_refl) as [-> _]. reflexivity.
      - rewrite (Hnew eq_refl).
        destruct (findLectureProgress m' l' (initialProgress c uid cid))
          as [lp |] eqn:Hlp; [| reflexivity].
        rewrite (initialProgress_find _ _ _ _ _ _ Hlp). reflexivity. }
    rewrite Hbefore. cbn [snd]. unfold lectureCompleted, lectureState.
    rewrite lookup_insert_eq. cbn [mbind option_bind].
    destruct (decide ((mid, lid) = (m, l))) as [Heq | Hne].
    + rewrite (bool_decide_eq_true_2 _ Heq). injection Heq as <- <-.
      destruct (applyToggle_flip now c module mid lid p)
        as (p'' & Ht' & Hstate & _).
      cbn zeta in *. rewrite Ht in Ht'. injection Ht' as _ <-.
      rewrite Hstate. cbn [lp_completed]. rewrite xorb_true_r. reflexivity.
    + rewrite (bool_decide_eq_false_2 _ Hne), xorb_false_r.
      assert (Hne' : (m, l) <> (mid, lid)) by congruence.
      destruct (applyToggle_frame _ _ _ _ _ _ _ _ _ _ Hne' Ht)
        as [-> | [-> ->]]; reflexivity.
  - destruct H as (code & msg & _ & ->). cbn [snd].
    rewrite xorb_false_r. reflexivity.
Qed.


Lemma toggleLecture_record_ok (now : Z) (enrollment : bool) (c : Course)
    (uid cid mid lid : string) (db : gmap (string * string) Progress) :
  course_ok c ->
  (forall q, db !! (uid, cid) = Some q -> record_ok c q) ->
  forall q,
    snd (toggleLecture now enrollment (Some c) uid cid mid lid db)
      !! (uid, cid) = Some q ->
    record_ok c q.
Proof.
  intros Hok Hdb q Hq.
  pose proof (toggleLecture_cases now enrollment (Some c) uid cid mid lid db)
    as H.
  destruct (toggleAccepted enrollment (Some c) mid lid).
  - destruct H as (c0 & module & p & db1 & b & p' & Hc
                   & (Hin & Hmid & Hlid) & Hg & Ht & Heq).
    injection Hc as <-. rewrite Heq in Hq. cbn [snd] in Hq.
    rewrite lookup_insert_eq in Hq. injection Hq as <-. subst mid.
    refine (applyToggle_record_ok _ _ _ _ p _ _ Hok Hin Hlid _ Ht).
    destruct (getOrCreateProgress_frame _ _ _ _ _ _ Hg)
      as (_ & _ & Hnew & Hold).
    destruct (db !! (uid, cid)) as [q0 |] eqn:Hq0.
    + destruct (Hold q0 eq_refl) as [-> _]. apply Hdb. reflexivity.
    + rewrite (Hnew eq_refl). apply initialProgress_record_ok. exact Hok.
  - destruct H as (code & msg & _ & Heq). rewrite Heq in Hq.
    apply Hdb. exact Hq.
Qed.

Lemma runToggles_record_ok (enrollment : bool) (c : Course)
    (uid cid : string) (calls : list (Z * (string * string)))
    (db : gmap (string * string) Progress) :
  course_ok c ->
  (forall q, db !! (uid, cid) = Some q -> record_ok c q) ->
  forall q,
    runToggles enrollment (Some c) uid cid calls db !! (uid, cid) = Some q ->
    record_ok c q.
Proof.
  intros Hok. unfold runToggles. revert db.
  induction calls as [| [now [mid lid]] calls IH]; intros db Hdb;
    [exact Hdb |].
  cbn [fold_left fst snd]. apply IH.
  apply toggleLecture_record_ok; assumption.
Qed.

(** A run that addresses each lecture at most once, all calls accepted:
    the lectures addressed are flipped, the others keep their state. *)
Lemma runToggles_once (c : Course) (uid cid m l : string)
    (calls : list (Z * (string * string)))
    (db : gmap (string * string) Progress) :
  NoDup (map snd calls) ->
  Forall (fun call => toggleAccepted true (Some c) (fst (snd call))
                                     (snd (snd call)) = true) calls ->
  lectureCompleted (runToggles true (Some c) uid cid calls db) uid cid m l
  = xorb (lectureCompleted db uid cid m l)
         (bool_decide ((m, l) ∈ map snd calls)).
Proof.
  unfold runToggles. revert db.
  induction calls as [| [now [mid lid]] calls IH]; intros db Hnd Hacc.
  - cbn. rewrite xorb_false_r. reflexivity.
  - cbn [map snd] in Hnd. apply NoDup_cons in Hnd. destruct Hnd as [Hx Hnd].
    apply Forall_cons in Hacc. destruct Hacc as [Ha Hacc].
    cbn [fst snd] in Ha.
    cbn [fold_left fst snd map]. rewrite (IH _ Hnd Hacc).
    rewrite toggleLecture_completed_step, Ha. cbn [andb].
    destruct (decide ((mid, lid) = (m, l))) as [Heq | Hne].
    + rewrite (bool_decide_eq_true_2 _ Heq). injection Heq as -> ->.
      rewrite (bool_decide_eq_false_2 _ Hx).
      rewrite (bool_decide_eq_true_2 ((m, l) ∈ (m, l) :: map snd calls))
        by apply list_elem_of_here.
      rewrite xorb_false_r. reflexivity.
    + rewrite (bool_decide_eq_false_2 _ Hne), xorb_false_r. f_equal.
      apply bool_decide_ext. rewrite elem_of_cons. split; [auto |].
      intros [Heq | Hin]; [congruence | exact Hin].
Qed.

Lemma findIndex_exists {A : Type} (f : A -> bool) (l : list A) (x : A) :
  In x l -> f x = true ->
  exists i y, findIndex f l = Some i /\ l !! i = Some y /\ f y = true /\
              In y l.
Proof.
  intros Hin Hf. destruct (findIndex f l) as [i |] eqn:Hi.
  - destruct (findIndex_Some_lookup f _ _ Hi) as (y & Hy & Hfy).
    exists i, y. repeat split; try assumption.
    apply list_elem_of_In. exact (list_elem_of_lookup_2 _ _ _ Hy).
  - pose proof (findIndex_None_find f l Hi) as Hnone.
    rewrite (List.find_none _ _ Hnone x Hin) in Hf. discriminate.
Qed.

Lemma courseHasLecture_of_key (c : Course) (m l : string) :
  course_ok c -> (m, l) ∈ course_keys c -> courseHasLecture c m l = true.
Proof.
  intros [Hm _] Hk. apply elem_of_course_keys in Hk.
  destruct Hk as (mm & Hmm & Hid & Hl). cbn [fst snd] in Hid, Hl.
  apply list_elem_of_In in Hmm.
  apply list_elem_of_In, in_map_iff in Hl. destruct Hl as (lec & Hlec & Hin).
  unfold courseHasLecture.
  destruct (findIndex_exists (fun mod' => String.eqb (module_id mod') m)
              (modules c) mm Hmm)
    as (i & mm' & -> & -> & Hid' & Hmm');
    [subst m; apply String.eqb_refl |].
  apply String.eqb_eq in Hid'.
  assert (mm' = mm)
    by (apply (NoDup_map_inj_on module_id (modules c)); congruence).
  subst mm'.
  destruct (findIndex_exists (fun lec' => String.eqb (lecture_id lec') l)
              (lectures mm) lec Hin)
    as (j & lec' & -> & _); [subst l; apply String.eqb_refl |].
  reflexivity.
Qed.

(** What the toggle stores: a well-formed record whose cached statistics
    are those of its own entries at the time of the call. *)
Lemma toggleLecture_stored (now : Z) (c : Course)
    (uid cid mid lid : string) (db : gmap (string * string) Progress) :
  course_ok c ->
  (forall q, db !! (uid, cid) = Some q -> record_ok c q) ->
  toggleAccepted true (Some c) mid lid = true ->
  exists p' : Progress,
    snd (toggleLecture now true (Some c) uid cid mid lid db) !! (uid, cid)
    = Some p' /\
    record_ok c p' /\ refreshStats now c p' = p'.
Proof.
  intros Hok Hdb Hacc.
  pose proof (toggleLecture_record_ok now true c uid cid mid lid db Hok Hdb)
    as Hrec.
  pose proof (toggleLecture_cases now true (Some c) uid cid mid lid db) as H.
  rewrite Hacc in H.
  destruct H as (c0 & module & p & db1 & b & p' & Hc & _ & _ & Ht & Heq).
  injection Hc as <-. rewrite Heq in Hrec |- *. cbn [snd] in *.
  exists p'. split; [apply lookup_insert_eq |].
  split; [apply Hrec, lookup_insert_eq |].
  destruct (applyToggle_shape now c module mid lid p)
    as (mods1 & i & mp & lps1 & j & lp & Happ & _).
  cbn zeta in Happ. rewrite Happ in Ht. injection Ht as _ <-.
  reflexivity.
Qed.

(** X22. Toggling every lecture once completes the course. For a course
    with distinct identifiers and at least one but fewer than 2^32
    lectures, and an enrolled student without a record: after a run of
    calls that addresses every lecture of the course exactly once, in any
    order, the stored record is marked completed, at the time of the last
    call, with all lectures counted and a percentage of exactly 100, and
    every lecture of the course counts as completed. *)
Theorem toggling_every_lecture_completes (c : Course) (uid cid : string)
    (calls : list (Z * (string * string)))
    (db : gmap (string * string) Progress) :
  course_ok c ->
  0 < total_lectures c ->
  (Z.of_nat (total_lectures c) < 2 ^ 32)%Z ->
  db !! (uid, cid) = None ->
  map snd calls ≡ₚ course_keys c ->
  exists p' : Progress,
    runToggles true (Some c) uid cid calls db !! (uid, cid) = Some p' /\
    completed p' = true /\
    completedAt p' = fst <$> last calls /\
    completedLecturesCount p' = total_lectures c /\
    totalLecturesCount p' = total_lectures c /\
    progressPercentage p' = Z2SF 100 /\
    forall m l, (m, l) ∈ course_keys c ->
      lectureCompleted (runToggles true (Some c) uid cid calls db)
                       uid cid m l = true.
Proof.
  intros Hok Hpos Hbig Hfresh Hperm.
  assert (Hnd : NoDup (map snd calls)).
  { rewrite Hperm. apply course_ok_NoDup. exact Hok. }
  assert (Hacc : Forall (fun call =>
                           toggleAccepted true (Some c) (fst (snd call))
                                          (snd (snd call)) = true) calls).
  { apply List.Forall_forall. intros [now [m l]] Hin. cbn [fst snd].
    apply courseHasLecture_of_key; [exact Hok |].
    rewrite <- Hperm. apply list_elem_of_In, in_map_iff.
    exists (now, (m, l)). split; [reflexivity | exact Hin]. }
  assert (Hall : forall m l, (m, l) ∈ course_keys c ->
             lectureCompleted (runToggles true (Some c) uid cid calls db)
                              uid cid m l = true).
  { intros m l Hk. rewrite (runToggles_once c uid cid m l calls db Hnd Hacc).
    rewrite <- Hperm in Hk. rewrite (bool_decide_eq_true_2 _ Hk).
    unfold lectureCompleted, lectureState. rewrite Hfresh. reflexivity. }
  destruct (exists_last (l := calls)) as (calls0 & [now [mid lid]] & Hcalls).
  { intros ->. apply Permutation_length in Hperm.
    rewrite length_course_keys in Hperm. cbn in Hperm. lia. }
  assert (Hrun : runToggles true (Some c) uid cid calls db
                 = snd (toggleLecture now true (Some c) uid cid mid lid
                          (runToggles true (Some c) uid cid calls0 db))).
  { rewrite Hcalls. unfold runToggles. rewrite fold_left_app. reflexivity. }
  assert (Hdb0 : forall q,
             runToggles true (Some c) uid cid calls0 db !! (uid, cid)
             = Some q -> record_ok c q).
  { apply runToggles_record_ok; [exact Hok |].
    intros q Hq. rewrite Hfresh in Hq. discriminate. }
  assert (Hlast : toggleAccepted true (Some c) mid lid = true).
  { rewrite List.Forall_forall in Hacc.
    apply (Hacc (now, (mid, lid))). rewrite Hcalls.
    apply in_or_app. right. left. reflexivity. }
  destruct (toggleLecture_stored now c uid cid mid lid _ Hok Hdb0 Hlast)
    as (p' & Hp' & Hrec & Hfix).
  rewrite <- Hrun in Hp'.
  exists p'. split; [exact Hp' |].
  assert (Hdone : stats_completed (calculateProgressStats now c p') = true).
  { apply stats_completed_complete;
      [apply record_ok_valid; exact Hrec | exact Hok | exact Hpos |].
    intros [m l] Hk. apply (completed_key_found c p' m l Hrec).
    specialize (Hall m l Hk). unfold lectureCompleted, lectureState in Hall.
    rewrite Hp' in Hall. exact Hall. }
  pose proof Hdone as Hcount. rewrite stats_completed_eq in Hcount.
  apply andb_true_iff in Hcount. destruct Hcount as [_ Hcount].
  apply Nat.eqb_eq in Hcount.
  assert (Hc : completed p'
               = stats_completed (calculateProgressStats now c p'))
    by (rewrite <- Hfix at 1; reflexivity).
  assert (Hat : completedAt p'
                = if stats_completed (calculateProgressStats now c p')
                  then Some now else None)
    by (rewrite <- Hfix at 1; reflexivity).
  assert (Hcnt : completedLecturesCount p'
                 = completed_entries (modulesProgress p'))
    by (rewrite <- Hfix at 1; apply refreshStats_count).
  assert (Htot : totalLecturesCount p' = total_lectures c)
    by (rewrite <- Hfix at 1; apply countTotalLectures_spec).
  assert (Hpct : progressPercentage p'
                 = percentageOf (completed_entries (modulesProgress p'))
                                (total_lectures c)).
  { rewrite <- Hfix at 1. cbn.
    rewrite countTotalLectures_spec, countCompletedLectures_spec.
    reflexivity. }
  rewrite Hc, Hat, Hcnt, Htot, Hpct, Hdone, Hcount.
  split; [reflexivity |].
  split; [rewrite Hcalls, last_snoc; reflexivity |].
  split; [reflexivity |]. split; [reflexivity |].
  split; [apply percentageOf_full; assumption | exact Hall].
Qed.

Lemma toggling_every_lecture_completes_witness :
  exists p' : Progress,
    runToggles true (Some course6) "u" "c"
      [(1, ("b", "b02")); (2, ("a", "a00")); (3, ("a", "a02"));
       (4, ("b", "b00")); (5, ("a", "a01")); (6, ("b", "b01"))]%Z ∅
      !! ("u", "c") = Some p' /\
    completed p' = true /\ completedAt p' = Some 6%Z /\
    progressPercentage p' = Z2SF 100.
Proof.
  destruct (toggling_every_lecture_completes course6 "u" "c"
              [(1, ("b", "b02")); (2, ("a", "a00")); (3, ("a", "a02"));
               (4, ("b", "b00")); (5, ("a", "a01")); (6, ("b", "b01"))]%Z ∅)
    as (p' & Hp' & Hdone & Hat & _ & _ & Hpct & _).
  - split; apply (bool_decide_eq_true_1 _); vm_compute; reflexivity.
  - vm_compute. lia.
  - vm_compute. reflexivity.
  - reflexivity.
  - apply (bool_decide_eq_true_1 _). vm_compute. reflexivity.
  - exists p'. auto.
Defined.

End ProgressMoreFacts.

(* ===================================================================== *)
(** * More facts about quiz grading and letter grades                      *)
(* ===================================================================== *)

Module SubmissionMoreFacts.
Import JSNumber NumberFacts NumberMoreFacts SubmissionRoutes SubmissionDocs.
Import Fixtures MoreFixtures SubmissionFacts.

(* --------------------------------------------------------------------- *)
(** ** Which answers are right                                             *)
(* --------------------------------------------------------------------- *)

(** X13. An answer is marked correct only when it is a number and equal, as
    a number, to the correct option of the question. A string (even the
    digits of the right index), a boolean, null and undefined are never
    correct, NaN is never correct, and a question that has no correct
    option cannot be answered correctly. *)
Theorem isCorrect_iff (sa : StudentAnswer) (q : Question) :
  (isCorrect sa q = true <->
   exists x y : Number,
     answer sa = JsNumber x /\ correctOption q = Some y /\
     strict_eq_num x y = true) /\
  (isCorrect sa q = true ->
   answer sa <> JsNumber S754_nan /\ correctOption q <> None /\
   correctOption q <> Some S754_nan).
Proof.
  unfold isCorrect, strict_neq.
  destruct (answer sa) as [| | b | x | s] eqn:Ha,
           (correctOption q) as [y |] eqn:Hq; cbn;
    (split; [split |]); try discriminate;
    try (intros (x' & y' & Hx & Hy & _); discriminate).
  - intros H. exists x, y. auto.
  - intros (x' & y' & Hx & Hy & H).
    injection Hx as <-. injection Hy as <-. exact H.
  - intros H. repeat split; try discriminate.
    + intros Hnan. injection Hnan as ->. discriminate.
    + intros Hnan. injection Hnan as ->.
      unfold strict_eq_num, SFeqb in H. destruct x; discriminate.
Qed.

(* --------------------------------------------------------------------- *)
(** ** All right, all wrong                                                *)
(* --------------------------------------------------------------------- *)

Lemma filter_none {A : Type} (f : A -> bool) (l : list A) :
  forallb (fun x => negb (f x)) l = true -> List.filter f l = [].
Proof.
  induction l as [| x l IH]; [reflexivity |]. cbn.
  destruct (f x); [discriminate |]. exact IH.
Qed.

(** X14. The two ends of a quiz, whatever the points of the questions: when
    the points of the graded answers add up to a finite positive double,
    the percentage is exactly 100 (letter A+) if every graded answer is
    correct, and exactly 0 (letter F) if none is. Only the answers that
    are graded count: a question left unanswered takes nothing off. *)
Theorem autoGradeQuiz_all_or_nothing (a : Assignment)
    (answers : list StudentAnswer) (m : positive) (e : Z) :
  let G := answered_mcq a answers in
  let r := autoGradeQuiz a answers in
  total_points_of G = S754_finite false m e ->
  (forallb (fun p => isCorrect (fst p) (snd p)) G = true ->
   r_percentage r = Z2SF 100 /\ getLetterGrade (r_percentage r) = "A+" /\
   r_earnedPoints r = mul (Z2SF 1) (totalPoints a)) /\
  (forallb (fun p => negb (isCorrect (fst p) (snd p))) G = true ->
   r_percentage r = Z2SF 0 /\ getLetterGrade (r_percentage r) = "F" /\
   r_earnedPoints r = mul (Z2SF 0) (totalPoints a)).
Proof.
  cbn zeta. intros Htotal.
  destruct (gradeAnswers_spec a answers) as (Ht & He & _). cbn zeta in Ht, He.
  unfold autoGradeQuiz. cbn [r_percentage r_earnedPoints].
  rewrite Ht, He, Htotal, gt_finite_zero. split.
  - intros Hall. unfold earned_points_of.
    rewrite (List.forallb_filter_id _ _ Hall).
    fold (total_points_of (answered_mcq a answers)).
    rewrite Htotal, div_self. repeat split; reflexivity.
  - intros Hnone. unfold earned_points_of.
    rewrite (filter_none _ _ Hnone). cbn [map].
    change (sum_numbers []) with (Z2SF 0).
    rewrite div_zero_finite. repeat split; reflexivity.
Qed.

Lemma autoGradeQuiz_all_or_nothing_witness :
  r_percentage (autoGradeQuiz quiz [right_q1]) = Z2SF 100 /\
  getLetterGrade (r_percentage (autoGradeQuiz quiz [right_q1])) = "A+" /\
  r_earnedPoints (autoGradeQuiz quiz [right_q1])
  = mul (Z2SF 1) (totalPoints quiz).
Proof.
  apply (autoGradeQuiz_all_or_nothing quiz [right_q1] 4503599627370496 (-52));
    reflexivity.
Defined.

(* --------------------------------------------------------------------- *)
(** ** The order of the letters                                            *)
(* --------------------------------------------------------------------- *)

Lemma first_match_positions (table : list (Z * string)) (p q : Number) :
  forallb (fun entry => match Z2SF (fst entry) with
                        | S754_finite false _ _ => true
                        | _ => false
                        end) table = true ->
  ge q p = true ->
  exists i j : nat,
    i <= j /\
    (map snd table ++ ["F"]) !! i = Some (first_match q table) /\
    (map snd table ++ ["F"]) !! j = Some (first_match p table).
Proof.
  intros Htable Hqp.
  induction table as [| [lower letter] rest IH].
  - exists 0, 0. repeat split; reflexivity.
  - cbn [forallb fst] in Htable. apply andb_true_iff in Htable.
    destruct Htable as [Hlower Hrest].
    destruct (IH Hrest) as (i & j & Hij & Hi & Hj).
    cbn [first_match map app].
    destruct (ge q (Z2SF lower)) eqn:Hq.
    + destruct (ge p (Z2SF lower)).
      * exists 0, 0. repeat split; reflexivity.
      * exists 0, (S j). split; [lia |]. split; [reflexivity | exact Hj].
    + destruct (ge p (Z2SF lower)) eqn:Hp.
      * exfalso.
        destruct (Z2SF lower) as [| | | [|] ml el]; try discriminate.
        rewrite (ge_trans_finite ml el p q Hp Hqp) in Hq. discriminate.
      * exists (S i), (S j). split; [lia |]. split; assumption.
Qed.

(** X15. A higher percentage never gets a lower letter: when
    [q >= p], the letter of [q] stands at or before the letter of [p] in
    the list of the letters from A+ down to F (which has no repetition).
    NaN, which is below every threshold, gets F. *)
Theorem getLetterGrade_monotone (p q : Number) :
  ge q p = true ->
  exists i j : nat,
    i <= j /\
    letters !! i = Some (getLetterGrade q) /\
    letters !! j = Some (getLetterGrade p) /\
    NoDup letters /\ getLetterGrade S754_nan = "F".
Proof.
  intros Hqp.
  destruct (first_match_positions grade_table p q eq_refl Hqp)
    as (i & j & Hij & Hi & Hj).
  exists i, j. rewrite !getLetterGrade_first_match.
  split; [exact Hij |]. split; [exact Hi |]. split; [exact Hj |].
  split; [| reflexivity].
  apply (bool_decide_eq_true_1 _). vm_compute. reflexivity.
Qed.

Lemma getLetterGrade_monotone_witness :
  exists i j : nat,
    i <= j /\
    letters !! i = Some (getLetterGrade (Z2SF 95)) /\
    letters !! j = Some (getLetterGrade (Z2SF 85)) /\
    NoDup letters /\ getLetterGrade S754_nan = "F".
Proof.
  apply (getLetterGrade_monotone (Z2SF 85) (Z2SF 95)). reflexivity.
Defined.

(* --------------------------------------------------------------------- *)
(** ** Saving a document                                                   *)
(* --------------------------------------------------------------------- *)

Lemma save_untouched (now : Z) (d : SubmissionDoc) :
  save false false false None now d = letterGradeHook d.
Proof. reflexivity. Qed.

Lemma setLetterGrade_twice (g : Grade) (l1 l2 : string) :
  setLetterGrade (setLetterGrade g l1) l2 = setLetterGrade g l2.
Proof. reflexivity. Qed.

(** The letter-grade hook settles after one pass. *)
Lemma letterGradeHook_idem (d : SubmissionDoc) :
  letterGradeHook (letterGradeHook d) = letterGradeHook d.
Proof.
  unfold letterGradeHook.
  destruct (doc_grade d) as [g |] eqn:Hg; [| reflexivity].
  destruct (g_percentage g) as [p |] eqn:Hp.
  - rewrite (preSaveLetterGrade_letter
               {| grade := Some g; status := doc_status d |} g p eq_refl Hp).
    cbn [grade setGrade doc_grade doc_status].
    rewrite (preSaveLetterGrade_letter
               {| grade := Some (setLetterGrade g (getLetterGrade p));
                  status := doc_status d |}
               (setLetterGrade g (getLetterGrade p)) p eq_refl Hp).
    reflexivity.
  - rewrite (preSaveLetterGrade_no_percentage
               {| grade := Some g; status := doc_status d |} g eq_refl Hp).
    cbn [grade setGrade doc_grade doc_status].
    rewrite (preSaveLetterGrade_no_percentage
               {| grade := Some g; status := doc_status d |} g eq_refl Hp).
    reflexivity.
Qed.

Lemma letterGradeHook_setAttachments (d : SubmissionDoc)
    (l : list Attachment) :
  letterGradeHook (setAttachments d l) = setAttachments (letterGradeHook d) l.
Proof. reflexivity. Qed.

Lemma setAttachments_same (d : SubmissionDoc) :
  setAttachments d (attachments d) = d.
Proof. destruct d; reflexivity. Qed.

(* --------------------------------------------------------------------- *)
(** ** Attachments                                                         *)
(* --------------------------------------------------------------------- *)

Section Splice.
Context {A : Type} (f : A -> bool).

Lemma findIndex_split (l : list A) :
  match ProgressRoutes.findIndex f l with
  | Some i =>
      exists (before after : list A) (x : A),
        l = before ++ x :: after /\ length before = i /\ f x = true /\
        forallb (fun y => negb (f y)) before = true /\
        List.find f l = Some x
  | None => forallb (fun y => negb (f y)) l = true
  end.
Proof.
  induction l as [| a l IH]; [reflexivity |].
  cbn [ProgressRoutes.findIndex List.find forallb].
  destruct (f a) eqn:Ha.
  - exists [], l, a. repeat split; assumption.
  - destruct (ProgressRoutes.findIndex f l) as [i |]; cbn [fmap option_fmap option_map].
    + destruct IH as (before & after & x & -> & Hlen & Hx & Hbefore & Hfind).
      exists (a :: before), after, x. cbn [forallb length].
      rewrite Ha, Hbefore, Hlen. repeat split; assumption.
    + exact IH.
Qed.

Lemma splice1_middle (before after : list A) (x : A) :
  splice1 (length before) (before ++ x :: after) = before ++ after.
Proof.
  unfold splice1. rewrite take_app_length.
  rewrite (cons_middle x before after), app_assoc.
  rewrite drop_app_length'; [reflexivity |].
  rewrite length_app. cbn. lia.
Qed.

Lemma findIndex_fresh (l : list A) :
  forallb (fun y => negb (f y)) l = true ->
  ProgressRoutes.findIndex f l = None.
Proof.
  induction l as [| a l IH]; [reflexivity |]. cbn.
  destruct (f a); [discriminate |]. intros H. rewrite (IH H). reflexivity.
Qed.

Lemma find_fresh (l : list A) :
  forallb (fun y => negb (f y)) l = true -> List.find f l = None.
Proof.
  induction l as [| a l IH]; [reflexivity |]. cbn.
  destruct (f a); [discriminate |]. exact IH.
Qed.

Lemma findIndex_after (before after : list A) (x : A) :
  forallb (fun y => negb (f y)) before = true -> f x = true ->
  ProgressRoutes.findIndex f (before ++ x :: after) = Some (length before).
Proof.
  intros Hbefore Hx. induction before as [| a before IH]; cbn.
  - rewrite Hx. reflexivity.
  - cbn in Hbefore. destruct (f a); [discriminate |].
    rewrite (IH Hbefore). reflexivity.
Qed.

End Splice.

(** X16. DELETE /:id/attachments/:filename removes the first attachment of
    that name and nothing else. For the owner of the submission: when no
    attachment has the name the answer is 404 and nothing is saved;
    otherwise the attachments saved are those before the first one of that
    name followed by those after it, in their order (further attachments
    of the same name stay), and the rest of the document is as the
    letter-grade hook leaves it. Anyone else gets 403 and nothing is
    saved. *)
Theorem removeAttachment_first_only (now : Z) (requester filename : string)
    (d : SubmissionDoc) :
  let r := removeAttachment now requester filename (Some d) in
  if String.eqb (student d) requester then
    match List.find (hasFilename filename) (attachments d) with
    | None => r = (mkReply 404 "Attachment not found", None)
    | Some att =>
        exists before after : list Attachment,
          attachments d = before ++ att :: after /\
          forallb (fun a => negb (hasFilename filename a)) before = true /\
          r = (mkReply 200 "Attachment removed successfully",
               Some (setAttachments (letterGradeHook d) (before ++ after)))
    end
  else r = (mkReply 403 "Access denied", None).
Proof.
  cbn zeta. unfold removeAttachment.
  destruct (String.eqb (student d) requester); [| reflexivity].
  cbn [negb].
  pose proof (findIndex_split (hasFilename filename) (attachments d)) as H.
  destruct (ProgressRoutes.findIndex _ (attachments d)) as [i |].
  - destruct H as (before & after & x & Heq & Hlen & Hx & Hbefore & ->).
    exists before, after. split; [exact Heq |]. split; [exact Hbefore |].
    rewrite save_untouched, letterGradeHook_setAttachments.
    rewrite Heq at 1. rewrite <- Hlen, splice1_middle. reflexivity.
  - rewrite (find_fresh _ _ H). reflexivity.
Qed.

Lemma hasFilename_cast (now : Z) (filename : string) (att : Attachment) :
  hasFilename filename (castAttachment now att) = hasFilename filename att.
Proof. reflexivity. Qed.

(** X17. Adding one file and deleting it again gives the document back.
    When the owner adds an attachment whose name no attachment of the
    submission has, and then deletes an attachment of that name, both calls
    answer 200 and the document saved last is the original one as the
    letter-grade hook leaves it: the attachments it had, in their order. *)
Theorem add_then_remove_attachment (now1 now2 : Z)
    (requester filename : string) (att : Attachment) (d : SubmissionDoc) :
  student d = requester ->
  att_filename att = Some filename ->
  forallb (fun a => negb (hasFilename filename a)) (attachments d) = true ->
  exists d1 : SubmissionDoc,
    addAttachments now1 requester [att] (Some d)
    = (mkReply 200 "Attachments added successfully", Some d1) /\
    attachments d1 = attachments d ++ [castAttachment now1 att] /\
    removeAttachment now2 requester filename (Some d1)
    = (mkReply 200 "Attachment removed successfully",
       Some (letterGradeHook d)).
Proof.
  intros Hown Hname Hfresh.
  set (d1 := letterGradeHook
               (setAttachments d
                  (attachments d ++ [castAttachment now1 att]))).
  exists d1. split; [| split; [reflexivity |]].
  - unfold addAttachments. rewrite Hown, String.eqb_refl. reflexivity.
  - unfold removeAttachment.
    change (student d1) with (student d).
    rewrite Hown, String.eqb_refl. cbn [negb].
    change (attachments d1)
      with (attachments d ++ [castAttachment now1 att]).
    rewrite (findIndex_after (hasFilename filename) (attachments d) []
               (castAttachment now1 att) Hfresh)
      by (unfold hasFilename; cbn; rewrite Hname; apply String.eqb_refl).
    rewrite splice1_middle, app_nil_r, save_untouched.
    change (setAttachments d1 (attachments d))
      with (setAttachments (letterGradeHook d)
                           (attachments (letterGradeHook d))).
    rewrite setAttachments_same, letterGradeHook_idem. reflexivity.
Qed.

Lemma add_then_remove_attachment_witness :
  exists d1 : SubmissionDoc,
    addAttachments 15 "s1" [file_of "c.pdf"] (Some homework_doc)
    = (mkReply 200 "Attachments added successfully", Some d1) /\
    attachments d1
    = attachments homework_doc ++ [castAttachment 15 (file_of "c.pdf")] /\
    removeAttachment 16 "s1" "c.pdf" (Some d1)
    = (mkReply 200 "Attachment removed successfully",
       Some (letterGradeHook homework_doc)).
Proof.
  apply (add_then_remove_attachment 15 16 "s1" "c.pdf" (file_of "c.pdf")
           homework_doc); reflexivity.
Defined.

(* --------------------------------------------------------------------- *)
(** ** Achievements                                                        *)
(* --------------------------------------------------------------------- *)

Lemma find_badge_None (badge : string) (l : list Achievement) :
  List.find (fun ach => String.eqb (badgeId ach) badge) l = None ->
  badge ∉ map badgeId l.
Proof.
  intros Hnone Hin. apply list_elem_of_In, in_map_iff in Hin.
  destruct Hin as (a & Ha & Hin).
  pose proof (List.find_none _ _ Hnone a Hin) as Hf. cbn in Hf.
  rewrite Ha, String.eqb_refl in Hf. discriminate.
Qed.

Lemma find_badge_Some (badge : string) (l : list Achievement)
    (a : Achievement) :
  List.find (fun ach => String.eqb (badgeId ach) badge) l = Some a ->
  badge ∈ map badgeId l.
Proof.
  intros H. apply List.find_some in H. destruct H as [Hin Heq].
  apply String.eqb_eq in Heq. subst badge.
  apply list_elem_of_In, in_map. exact Hin.
Qed.

Lemma find_badge_last (badge : string) (l : list Achievement)
    (a : Achievement) :
  badgeId a = badge ->
  exists b,
    List.find (fun ach => String.eqb (badgeId ach) badge) (l ++ [a]) = Some b.
Proof.
  intros Ha. induction l as [| x l IH]; cbn.
  - rewrite Ha, String.eqb_refl. eauto.
  - destruct (String.eqb (badgeId x) badge); eauto.
Qed.

(** X18. A badge is awarded at most once per submission. When the badge
    identifiers of the achievements are distinct and a non-empty badge is
    asked for: either the submission has it already, the answer is 400 and
    nothing is saved; or the answer is 201, the achievement (badge, level,
    time of the call) is appended to the achievements, which are otherwise
    unchanged and still distinct, and asking for that badge again, at any
    level, is answered with 400. *)
Theorem awardAchievement_once (now : Z) (badge : string) (level : Level)
    (d : SubmissionDoc) :
  badge <> "" ->
  NoDup (map badgeId (achievements d)) ->
  match awardAchievement now badge level (Some d) with
  | (reply, Some d') =>
      reply = mkReply 201 "Achievement awarded successfully" /\
      (badge ∉ map badgeId (achievements d)) /\
      achievements d'
      = achievements d ++ [{| badgeId := badge; levelAchieved := level;
                              earnedAt := now |}] /\
      setAchievements d' (achievements d) = letterGradeHook d /\
      NoDup (map badgeId (achievements d')) /\
      forall (now2 : Z) (level2 : Level),
        awardAchievement now2 badge level2 (Some d')
        = (mkReply 400 "Achievement already awarded", None)
  | (reply, None) =>
      reply = mkReply 400 "Achievement already awarded" /\
      badge ∈ map badgeId (achievements d)
  end.
Proof.
  intros Hbadge Hnd. unfold awardAchievement.
  apply String.eqb_neq in Hbadge. rewrite Hbadge.
  destruct (List.find _ (achievements d)) as [a |] eqn:Hfind.
  - split; [reflexivity | exact (find_badge_Some _ _ _ Hfind)].
  - pose proof (find_badge_None _ _ Hfind) as Hfresh.
    rewrite save_untouched.
    cbn [achievements letterGradeHook setGrade setAchievements].
    split; [reflexivity |]. split; [exact Hfresh |].
    split; [reflexivity |]. split; [reflexivity |]. split.
    + rewrite map_app. apply NoDup_app. split; [exact Hnd |]. split.
      * intros x Hx Hx'. apply list_elem_of_singleton in Hx'. subst x.
        exact (Hfresh Hx).
      * apply NoDup_singleton.
    + intros now2 level2.
      destruct (find_badge_last badge (achievements d)
                  {| badgeId := badge; levelAchieved := level;
                     earnedAt := now |} eq_refl) as (b & ->).
      reflexivity.
Qed.

Lemma awardAchievement_once_witness :
  fst (awardAchievement 30 "assignment-master" Gold (Some homework_doc))
  = mkReply 201 "Achievement awarded successfully".
Proof.
  pose proof (awardAchievement_once 30 "assignment-master" Gold homework_doc
                ltac:(discriminate)
                ltac:(apply (bool_decide_eq_true_1 _); vm_compute;
                      reflexivity)) as H.
  destruct (awardAchievement 30 "assignment-master" Gold (Some homework_doc))
    as [reply [d' |]] eqn:E.
  - destruct H as [-> _]. reflexivity.
  - vm_compute in E. discriminate.
Defined.

(* --------------------------------------------------------------------- *)
(** ** Resubmission                                                        *)
(* --------------------------------------------------------------------- *)






(* --------------------------------------------------------------------- *)
(** ** Creating a submission                                               *)
(* --------------------------------------------------------------------- *)



Lemma save_new (now : Z) (info : AssignmentInfo) (d : SubmissionDoc) :
  save true true true (Some info) now d
  = match dueDate info with
    | Some due => setIsLate (letterGradeHook d) (due <? submittedAt d)%Z
    | None => letterGradeHook d
    end.
Proof.
  unfold save, historyHook, lateHook. cbn [negb andb orb].
  destruct (dueDate info); reflexivity.
Qed.


Example backdated_submission_on_time :
  match createSubmission 25 "s1" backdated_body (Some quiz_doc) false with
  | (reply, Some ns) =>
      code reply = 201 /\ submittedAt (ns_doc ns) = 15%Z /\
      isLate (ns_doc ns) = false
  | _ => False
  end.
Proof. vm_compute. auto. Qed.

Lemma forallb_map_comp {A B : Type} (f : B -> bool) (g : A -> B)
    (l : list A) :
  forallb f (map g l) = forallb (fun x => f (g x)) l.
Proof.
  induction l as [| x l IH]; [reflexivity |]. cbn. rewrite IH. reflexivity.
Qed.

Lemma autoGradeQuiz_gradedAnswers (a : Assignment)
    (answers : list StudentAnswer) :
  r_gradedAnswers (autoGradeQuiz a answers)
  = map graded_entry (answered_mcq a answers).
Proof. apply (gradeAnswers_spec a answers). Qed.

Lemma autoGradeQuiz_written_only (a : Assignment)
    (answers : list StudentAnswer) :
  forallb (fun q => negb (is_multiple_choice (q_type q))) (questions a)
  = true ->
  r_percentage (autoGradeQuiz a answers) = Z2SF 0 /\
  r_earnedPoints (autoGradeQuiz a answers) = Z2SF 0 /\
  r_gradedAnswers (autoGradeQuiz a answers) = [].
Proof.
  intros Hw. rewrite autoGradeQuiz_gradedAnswers.
  destruct (gradeAnswers_spec a answers) as (Ht & _ & _). cbn zeta in Ht.
  rewrite (answered_mcq_all_written a answers Hw) in *.
  unfold autoGradeQuiz. cbn [r_percentage r_earnedPoints]. rewrite Ht.
  repeat split; reflexivity.
Qed.

(** X24. What is graded when a submission is created. A submission is
    graded on creation exactly when the body says quiz or exam and the
    assignment has auto-grading on; the type of the assignment itself is
    not looked at. Its grade is then the one built from [autoGradeQuiz]
    with the letter of its percentage, the student is recorded as the
    grader, and the rubric has one row per graded answer; when the
    assignment has written questions only, that grade is 0 points, 0 %
    and the letter F, with an empty rubric. Every other submission that
    is created has the status "submitted", no grade, no rubric and no
    correctness flag on any of its answers. *)
Theorem createSubmission_grading (now : Z) (student' : string)
    (body : CreateBody) (ad : AssignmentDoc) :
  match createSubmission now student' body (Some ad) false with
  | (reply, Some ns) =>
      if isQuizType (b_assignmentType body) && ad_autoGrade ad then
        exists answers : list StudentAnswer,
          let r := autoGradeQuiz (toAssignment ad) answers in
          b_answers body = Some answers /\
          doc_status (ns_doc ns) = "graded" /\
          msg reply = "Submission created and auto-graded successfully" /\
          doc_grade (ns_doc ns)
          = Some {| g_points := Some (r_earnedPoints r);
                    g_percentage := Some (r_percentage r);
                    letterGrade := Some (getLetterGrade (r_percentage r));
                    gradedAt := Some now;
                    gradedBy := Some student' |} /\
          doc_grade (ns_doc ns)
          = grade (createAutoGraded now student' (toAssignment ad) answers) /\
          rubric ns
          = map rubricRowOf
                (map graded_entry (answered_mcq (toAssignment ad) answers)) /\
          (forallb (fun qd => negb (is_multiple_choice (q_type (question qd))))
                   (ad_questions ad) = true ->
           doc_grade (ns_doc ns)
           = Some {| g_points := Some (Z2SF 0);
                     g_percentage := Some (Z2SF 0);
                     letterGrade := Some "F";
                     gradedAt := Some now;
                     gradedBy := Some student' |} /\
           rubric ns = [])
      else
        doc_status (ns_doc ns) = "submitted" /\
        msg reply = "Submission created successfully" /\
        doc_grade (ns_doc ns) = None /\
        rubric ns = [] /\
        Forall (fun qa => qa_isCorrect qa = None /\ qa_earnedPoints qa = None)
               (quizAnswers ns)
  | (reply, None) => True
  end.
Proof.
  unfold createSubmission.
  destruct (isQuizType (b_assignmentType body)); cbn [andb].
  - destruct (b_answers body) as [answers |]; [| exact I].
    destruct (ad_autoGrade ad).
    + unfold created. rewrite save_new.
      set (r := autoGradeQuiz (toAssignment ad) answers).
      assert (Hgrade :
        doc_grade
          (letterGradeHook
             (newDoc now student' body ad "graded" None []
                (Some {| g_points := Some (r_earnedPoints r);
                         g_percentage := Some (r_percentage r);
                         letterGrade := None;
                         gradedAt := Some now;
                         gradedBy := Some student' |})))
        = Some {| g_points := Some (r_earnedPoints r);
                  g_percentage := Some (r_percentage r);
                  letterGrade := Some (getLetterGrade (r_percentage r));
                  gradedAt := Some now;
                  gradedBy := Some student' |}).
      { unfold letterGradeHook. cbn [doc_grade setGrade newDoc doc_status].
        erewrite preSaveLetterGrade_letter; [| reflexivity | reflexivity].
        reflexivity. }
      assert (Hsame :
        doc_grade
          (letterGradeHook
             (newDoc now student' body ad "graded" None []
                (Some {| g_points := Some (r_earnedPoints r);
                         g_percentage := Some (r_percentage r);
                         letterGrade := None;
                         gradedAt := Some now;
                         gradedBy := Some student' |})))
        = grade (createAutoGraded now student' (toAssignment ad) answers))
        by reflexivity.
      exists answers. cbn zeta. fold r.
      destruct (dueDate (ad_info ad));
        cbn [ns_doc rubric msg doc_status doc_grade setIsLate];
        (split; [reflexivity |]); (split; [reflexivity |]);
        (split; [reflexivity |]); (split; [exact Hgrade |]);
        (split; [exact Hsame |]);
        (split; [unfold r; rewrite autoGradeQuiz_gradedAnswers;
                 reflexivity |]);
        intros Hw;
        (assert (Hw' : forallb
                         (fun q => negb (is_multiple_choice (q_type q)))
                         (questions (toAssignment ad)) = true)
           by (cbn [questions toAssignment]; rewrite forallb_map_comp;
               exact Hw));
        destruct (autoGradeQuiz_written_only (toAssignment ad) answers Hw')
          as (Hp & He & Hg);
        fold r in Hp, He, Hg; rewrite Hgrade, Hp, He, Hg;
        split; reflexivity.
    + unfold created. rewrite save_new.
      assert (Hflags :
        Forall (fun qa => qa_isCorrect qa = None /\ qa_earnedPoints qa = None)
               (omap (quizAnswerOf (buildQuestionDocsMap (ad_questions ad)))
                     answers)).
      { apply List.Forall_forall. intros qa Hqa.
        apply list_elem_of_In, list_elem_of_omap in Hqa.
        destruct Hqa as (sa & _ & Hsa). unfold quizAnswerOf in Hsa.
        destruct (_ !! questionId sa); [| discriminate].
        injection Hsa as <-. split; reflexivity. }
      destruct (dueDate (ad_info ad));
        cbn [ns_doc rubric msg doc_status doc_grade setIsLate quizAnswers];
        repeat (split; [reflexivity |]); exact Hflags.
  - destruct (match b_submissionText body with
              | Some t => if String.eqb t "" then None else Some t
              | None => None
              end) as [t |],
             (match b_attachments body with
              | Some l => map (castAttachment now) l
              | None => []
              end) as [| att atts']; try exact I;
      unfold created; rewrite save_new;
      destruct (dueDate (ad_info ad));
      cbn [ns_doc rubric msg doc_status doc_grade setIsLate quizAnswers];
      repeat (split; [reflexivity |]); constructor.
Qed.







(* --------------------------------------------------------------------- *)
(** ** Grading by hand                                                     *)
(* --------------------------------------------------------------------- *)

(** X26. The two ends of a grade given by hand, for an assignment whose
    total is any finite positive double: the full total is stored as
    exactly 100 % with the letter A+, and no points as exactly 0 % with
    the letter F; in both cases the status becomes "graded" and the grade
    the submission had before is replaced. *)
Theorem gradeSubmission_full_or_none (now : Z) (grader : string)
    (m : positive) (e : Z) (submission : Submission) :
  let total := S754_finite false m e in
  gradeSubmission now grader total total submission
  = {| grade := Some {| g_points := Some total;
                        g_percentage := Some (Z2SF 100);
                        letterGrade := Some "A+";
                        gradedAt := Some now;
                        gradedBy := Some grader |};
       status := "graded" |} /\
  gradeSubmission now grader (Z2SF 0) total submission
  = {| grade := Some {| g_points := Some (Z2SF 0);
                        g_percentage := Some (Z2SF 0);
                        letterGrade := Some "F";
                        gradedAt := Some now;
                        gradedBy := Some grader |};
       status := "graded" |}.
Proof.
  cbn zeta. unfold gradeSubmission.
  rewrite div_self, div_zero_finite. split; reflexivity.
Qed.

End SubmissionMoreFacts.

